(** * plugin-figma-backend: the analise-ui-ux edge function

    A shallow embedding of the schema validator and the V6 normalizer
    (validation.ts), the prompt builder and the orchestrator (index.ts), the
    event-stream helpers (sse-utils.ts) and the request validation of the
    legacy handler, with the properties the design document states about
    them. *)

From Stdlib Require Import List String Ascii Bool Arith ZArith Lia PrimFloat.
From Stdlib Require Import DecimalString DecimalNat.
Import ListNotations.
Open Scope string_scope.

(** ** JavaScript values

    The documents handled by the function come out of [JSON.parse], so a value
    is a JSON tree.  Numbers are IEEE doubles.  A string is its sequence of
    code units, one [ascii] each (the model covers code units below 256).
    An object is the list of its own properties in enumeration order.  The
    normalizer may assign named properties to an array ([a.manter = []] is
    legal JavaScript), so an array carries, besides its elements, the named
    properties it was given; [JSON.parse] builds arrays without any. *)

#[warnings="-register-all"]
Inductive value : Type :=
| VNull
| VBool (b : bool)
| VNum (n : float)
| VStr (s : string)
| VArr (items : list value) (props : list (string * value))
| VObj (fields : list (string * value)).

Definition fields := list (string * value).

(** Errors a computation can throw.  [Error m] is [new Error(m)] (or the
    failure of a collaborator carrying the message [m]); the others are
    raised by the engine. *)
Inductive type_error : Type :=
| CreatePropertyOnPrimitive (key : string) (target : value)
| SetPropertyOfUndefined (key : string)
| ReadPropertyOfNull (key : string)
| NotAFunction (callee : string)
| StreamClosed
| ConvertToPrimitive.

Inductive js_error : Type :=
| Error (message : string)
| TypeError (e : type_error)
| SyntaxError (message : string).

Inductive outcome (A : Type) : Type :=
| Returns (a : A)
| Throws (e : js_error).
Arguments Returns {A} a.
Arguments Throws {A} e.

Definition bind {A B : Type} (m : outcome A) (k : A -> outcome B) : outcome B :=
  match m with
  | Returns a => k a
  | Throws e => Throws e
  end.

Notation "x <- m ;; k" := (bind m (fun x => k))
  (at level 61, m at next level, right associativity).
Notation "m ;; k" := (bind m (fun _ => k))
  (at level 61, right associativity).

Definition returns {A : Type} (m : outcome A) : bool :=
  match m with Returns _ => true | Throws _ => false end.

(** ** Own properties *)

(** [obj[k]] on the own properties of an object: [None] is [undefined]. *)
Fixpoint lookup (k : string) (fs : fields) : option value :=
  match fs with
  | [] => None
  | (k', v) :: rest => if String.eqb k k' then Some v else lookup k rest
  end.

(** [obj[k] = v]: an existing property keeps its place, a new one goes last. *)
Fixpoint assign (k : string) (v : value) (fs : fields) : fields :=
  match fs with
  | [] => [(k, v)]
  | (k', v') :: rest =>
      if String.eqb k k' then (k', v) :: rest else (k', v') :: assign k v rest
  end.

Definition string_of_nat (n : nat) : string :=
  NilEmpty.string_of_uint (Nat.to_uint n).

(** The index properties ["0"], ["1"], ... of a sequence, from index [i]. *)
Fixpoint indexed_from (i : nat) (vs : list value) : fields :=
  match vs with
  | [] => []
  | v :: rest => (string_of_nat i, v) :: indexed_from (S i) rest
  end.

Fixpoint code_units (s : string) : list value :=
  match s with
  | EmptyString => []
  | String c rest => VStr (String c EmptyString) :: code_units rest
  end.

(** [{ ...data }]: the own enumerable properties of [data], copied in order
    into a fresh object (nothing for [null], numbers and booleans). *)
Definition spread (data : value) : fields :=
  match data with
  | VObj fs => fs
  | VArr items props => (indexed_from 0 items ++ props)%list
  | VStr s => indexed_from 0 (code_units s)
  | VNull | VBool _ | VNum _ => []
  end.

(** [!!v], with [None] for [undefined]. *)
Definition truthy (v : option value) : bool :=
  match v with
  | None => false
  | Some VNull => false
  | Some (VBool b) => b
  | Some (VNum n) => negb (PrimFloat.is_zero n || PrimFloat.is_nan n)
  | Some (VStr s) => negb (String.eqb s "")
  | Some (VArr _ _) => true
  | Some (VObj _) => true
  end.

(** [v.k] for the property names the normalizer reads on a section (none of
    them is an index, [length] or a name found on a prototype): an own
    property of an object, a named property of an array, [undefined] on a
    primitive. *)
Definition get_named (v : value) (k : string) : option value :=
  match v with
  | VObj fs => lookup k fs
  | VArr _ props => lookup k props
  | _ => None
  end.

(** [target.k = v] in strict mode (an ES module): creating a property on a
    primitive is a TypeError. *)
Definition set_named (target : value) (k : string) (v : value) : outcome value :=
  match target with
  | VObj fs => Returns (VObj (assign k v fs))
  | VArr items props => Returns (VArr items (assign k v props))
  | _ => Throws (TypeError (CreatePropertyOnPrimitive k target))
  end.

(** [typeof v === 'number' && !(v < 0) && !(v > 10)]. *)
Definition in_range (v : option value) : bool :=
  match v with
  | Some (VNum n) => negb (PrimFloat.ltb n 0) && negb (PrimFloat.ltb 10 n)
  | _ => false
  end.

(** ** The normalizer (validation.ts, normalizeV6Data) *)

Definition default_avaliacao : value :=
  VObj [("atinge", VBool false); ("justificativa", VStr ""); ("sugestoes", VArr [] [])].

Definition default_jobToBeDone : value :=
  VObj [("placeholderExemplo", VStr ""); ("avaliacao", default_avaliacao)].

Definition default_tomDeVoz : value :=
  VObj [("nota", VNum 0); ("manter", VArr [] []); ("mudar", VArr [] [])].

Definition default_cta : value :=
  VObj [("principal", VNull); ("clareza", VNum 0); ("recomendacao", VStr "")].

Definition default_experiencia : value :=
  VObj [("nota", VNum 0); ("usabilidade", VArr [] []); ("visual", VArr [] []);
        ("acessibilidade", VArr [] []); ("cta", default_cta)].

(** The accented letters of the texts, one code unit each (U+00E3, U+00E1,
    U+00E2, U+00E7, U+00E9, U+00F3, U+00F5). *)
Definition a_tilde : string := String (ascii_of_nat 227) EmptyString.
Definition a_acute : string := String (ascii_of_nat 225) EmptyString.
Definition a_circumflex : string := String (ascii_of_nat 226) EmptyString.
Definition c_cedilla : string := String (ascii_of_nat 231) EmptyString.
Definition e_acute : string := String (ascii_of_nat 233) EmptyString.
Definition i_acute : string := String (ascii_of_nat 237) EmptyString.
Definition o_acute : string := String (ascii_of_nat 243) EmptyString.
Definition o_tilde : string := String (ascii_of_nat 245) EmptyString.

Definition default_prioridadesTop3 : value :=
  VArr [VObj [("resumo", VStr ("Prioridade n" ++ a_tilde ++ "o identificada"));
              ("motivo", VStr ("An" ++ a_acute ++ "lise incompleta ou dados insuficientes"))]] [].

(** [if (!target.k) target.k = d], on a section [target] that is truthy. *)
Definition ensure (k : string) (d : value) (target : value) : outcome value :=
  if truthy (get_named target k) then Returns target else set_named target k d.

(** [if (typeof target.k !== 'number' || target.k < 0 || target.k > 10)
    target.k = 0]. *)
Definition fix_range (k : string) (target : value) : outcome value :=
  if in_range (get_named target k) then Returns target else set_named target k (VNum 0).

(** The statements under [normalized.k] mutate the object held there in
    place: [step] is run on that object and the result stays under [k], at
    the same position.  Reading through [undefined] is a TypeError. *)
Definition within (k : string) (step : value -> outcome value) (fs : fields)
  : outcome fields :=
  match lookup k fs with
  | Some v => v' <- step v ;; Returns (assign k v' fs)
  | None => Throws (TypeError (SetPropertyOfUndefined k))
  end.

Definition within_named (k : string) (step : value -> outcome value) (target : value)
  : outcome value :=
  match get_named target k with
  | Some v => v' <- step v ;; set_named target k v'
  | None => Throws (TypeError (SetPropertyOfUndefined k))
  end.

Definition normalize_avaliacao (j : value) : outcome value :=
  if truthy (get_named j "avaliacao")
  then within_named "avaliacao" (ensure "sugestoes" (VArr [] [])) j
  else set_named j "avaliacao" default_avaliacao.

(** What the [else] branches do to a section that is present. *)
Definition jobToBeDone_defaults (j : value) : outcome value :=
  j1 <- ensure "placeholderExemplo" (VStr "") j ;;
  normalize_avaliacao j1.

Definition tomDeVoz_defaults (t : value) : outcome value :=
  t1 <- ensure "manter" (VArr [] []) t ;;
  ensure "mudar" (VArr [] []) t1.

Definition experiencia_defaults (e : value) : outcome value :=
  e1 <- ensure "usabilidade" (VArr [] []) e ;;
  e2 <- ensure "visual" (VArr [] []) e1 ;;
  e3 <- ensure "acessibilidade" (VArr [] []) e2 ;;
  ensure "cta" default_cta e3.

Definition normalize_jobToBeDone (n : fields) : outcome fields :=
  if truthy (lookup "jobToBeDone" n)
  then within "jobToBeDone" jobToBeDone_defaults n
  else Returns (assign "jobToBeDone" default_jobToBeDone n).

Definition normalize_tomDeVoz (n : fields) : outcome fields :=
  if truthy (lookup "tomDeVoz" n)
  then within "tomDeVoz" tomDeVoz_defaults n
  else Returns (assign "tomDeVoz" default_tomDeVoz n).

Definition normalize_experiencia (n : fields) : outcome fields :=
  if truthy (lookup "experiencia" n)
  then within "experiencia" experiencia_defaults n
  else Returns (assign "experiencia" default_experiencia n).

(** ** Schemas and validation errors (schemas.ts, types.ts)

    A schema node is read through its [type] tag; each constructor keeps the
    keywords the validator reads under that tag ([None] for an absent
    keyword).  [description] and [additionalProperties] are never read. *)

#[warnings="-register-all"]
Inductive schema : Type :=
| SObject (required : option (list string)) (properties : option (list (string * schema)))
| SArray (minItems maxItems : option nat) (items : option schema)
| SString (enum : option (list string))
| SNumber (minimum maximum : option float)
| SBoolean
| SUnion (types : list string)
| SOther.

Record ValidationError : Type := { message : string; path : string }.

Record ValidationResult : Type := { valid : bool; errors : list ValidationError }.

(** [objSchema.properties?.[key]]. *)
Fixpoint own_schema (key : string) (properties : list (string * schema)) : option schema :=
  match properties with
  | [] => None
  | (k, s) :: rest => if String.eqb key k then Some s else own_schema key rest
  end.

Definition property_schema (key : string) (properties : option (list (string * schema)))
  : option schema :=
  match properties with
  | Some ps => own_schema key ps
  | None => None
  end.

(** The property names every object inherits from [Object.prototype]
    (ECMAScript, with Annex B). *)
Definition object_prototype_names : list string :=
  ["constructor"; "hasOwnProperty"; "isPrototypeOf"; "propertyIsEnumerable";
   "toLocaleString"; "toString"; "valueOf"; "__proto__";
   "__defineGetter__"; "__defineSetter__"; "__lookupGetter__"; "__lookupSetter__"].

Definition at_least_error (m : nat) (p : string) : ValidationError :=
  {| message := "Array must have at least " ++ string_of_nat m ++ " items"; path := p |}.

Definition missing_error (field p : string) : ValidationError :=
  {| message := "Missing required field: " ++ field; path := p ++ "." ++ field |}.

(** Same message and same path. *)
Definition same_error (a b : ValidationError) : bool :=
  String.eqb (message a) (message b) && String.eqb (path a) (path b).

(** [objSchema.minItems && length < objSchema.minItems]: a bound of 0 is
    falsy. *)
Definition too_few (minItems : option nat) (len : nat) (path : string)
  : list ValidationError :=
  match minItems with
  | Some m =>
      if negb (Nat.eqb m 0) && Nat.ltb len m
      then [at_least_error m path]
      else []
  | None => []
  end.

Definition too_many (maxItems : option nat) (len : nat) (path : string)
  : list ValidationError :=
  match maxItems with
  | Some m =>
      if negb (Nat.eqb m 0) && Nat.ltb m len
      then [{| message := "Array must have at most " ++ string_of_nat m ++ " items";
               path := path |}]
      else []
  | None => []
  end.

Definition not_a_string (obj : value) (path : string) : list ValidationError :=
  match obj with
  | VStr _ => []
  | _ => [{| message := "Expected string at " ++ path; path := path |}]
  end.

(** [objSchema.enum && !objSchema.enum.includes(obj)]. *)
Definition not_in_enum (obj : value) (enum : option (list string)) (path : string)
  : list ValidationError :=
  match enum with
  | Some allowed =>
      if match obj with
         | VStr s => existsb (String.eqb s) allowed
         | _ => false
         end
      then []
      else [{| message := "Value must be one of: " ++ String.concat ", " allowed;
               path := path |}]
  | None => []
  end.

Definition not_a_number (obj : value) (path : string) : list ValidationError :=
  match obj with
  | VNum _ => []
  | _ => [{| message := "Expected number at " ++ path; path := path |}]
  end.

Definition not_a_boolean (obj : value) (path : string) : list ValidationError :=
  match obj with
  | VBool _ => []
  | _ => [{| message := "Expected boolean at " ++ path; path := path |}]
  end.

(** The [switch] inside the union branch. *)
Definition has_type (obj : value) (type : string) : bool :=
  if String.eqb type "null" then match obj with VNull => true | _ => false end
  else if String.eqb type "string" then match obj with VStr _ => true | _ => false end
  else if String.eqb type "number" then match obj with VNum _ => true | _ => false end
  else if String.eqb type "boolean" then match obj with VBool _ => true | _ => false end
  else if String.eqb type "array" then match obj with VArr _ _ => true | _ => false end
  else if String.eqb type "object" then match obj with VObj _ => true | _ => false end
  else false.

(** ** ANALYSIS_SCHEMA (schemas.ts) *)

Definition string_schema : schema := SString None.
Definition nullable_string : schema := SUnion ["string"; "null"].
Definition score_schema : schema := SNumber (Some 0%float) (Some 10%float).

Definition avaliacao_schema : schema :=
  SObject (Some ["atinge"; "justificativa"])
    (Some [("atinge", SBoolean);
           ("justificativa", string_schema);
           ("sugestoes", SArray None None (Some string_schema))]).

Definition jobToBeDone_schema : schema :=
  SObject (Some ["placeholderExemplo"; "avaliacao"])
    (Some [("placeholderExemplo", string_schema);
           ("avaliacao", avaliacao_schema)]).

Definition manter_item_schema : schema :=
  SObject (Some ["elemento"; "motivo"])
    (Some [("elemento", string_schema); ("motivo", string_schema)]).

(** The items of [mudar], [usabilidade] and [visual]. *)
Definition mudanca_schema : schema :=
  SObject (Some ["elemento"; "depois"; "porque"])
    (Some [("elemento", string_schema);
           ("antes", nullable_string);
           ("depois", string_schema);
           ("porque", string_schema)]).

Definition acessibilidade_item_schema : schema :=
  SObject (Some ["elemento"; "depois"; "porque"])
    (Some [("elemento", string_schema);
           ("wcag", nullable_string);
           ("antes", nullable_string);
           ("depois", string_schema);
           ("porque", string_schema)]).

Definition tomDeVoz_schema : schema :=
  SObject (Some ["nota"])
    (Some [("nota", score_schema);
           ("manter", SArray None None (Some manter_item_schema));
           ("mudar", SArray None None (Some mudanca_schema))]).

Definition cta_schema : schema :=
  SObject (Some ["clareza"; "recomendacao"])
    (Some [("principal", nullable_string);
           ("clareza", score_schema);
           ("recomendacao", string_schema)]).

Definition experiencia_schema : schema :=
  SObject (Some ["nota"])
    (Some [("nota", score_schema);
           ("usabilidade", SArray None None (Some mudanca_schema));
           ("visual", SArray None None (Some mudanca_schema));
           ("acessibilidade", SArray None None (Some acessibilidade_item_schema));
           ("cta", cta_schema)]).

Definition prioridade_schema : schema :=
  SObject (Some ["resumo"; "motivo"])
    (Some [("resumo", string_schema); ("motivo", string_schema)]).

Definition ANALYSIS_SCHEMA : schema :=
  SObject
    (Some ["schemaVersion"; "pontuacaoGeral"; "jobToBeDone"; "tomDeVoz";
           "experiencia"; "prioridadesTop3"])
    (Some [("schemaVersion", SString (Some ["v6"]));
           ("pontuacaoGeral", score_schema);
           ("objetivoInferido", string_schema);
           ("jobToBeDone", jobToBeDone_schema);
           ("tomDeVoz", tomDeVoz_schema);
           ("experiencia", experiencia_schema);
           ("prioridadesTop3", SArray (Some 1) (Some 3) (Some prioridade_schema))]).

(** ** The prompt builder (index.ts, AnalysisService.buildPrompt) *)

Record AIConfig : Type := { system_prompt : string; prompt_template : string }.
Record BrandManual : Type := { voice_principles : string; rules : string }.
Record RequestBody : Type := { context : string; jtbd : string; image : string }.

(** The text before and after the first occurrence of [pattern] in [s]. *)
Fixpoint split_at_first (pattern s : string) : option (string * string) :=
  if String.prefix pattern s
  then Some ("", String.substring (String.length pattern)
                                  (String.length s - String.length pattern) s)
  else match s with
       | EmptyString => None
       | String c rest =>
           match split_at_first pattern rest with
           | Some (before, after) => Some (String c before, after)
           | None => None
           end
       end.

(** GetSubstitution for a string pattern (no capture groups): [$$] is a
    dollar sign, [$&] the matched text, [$`] the text before the match and
    [$'] the text after it; any other character stands for itself. *)
Fixpoint get_substitution (matched before after replacement : string) : string :=
  match replacement with
  | EmptyString => EmptyString
  | String "$" (String "$" rest) =>
      "$" ++ get_substitution matched before after rest
  | String "$" (String "&" rest) =>
      matched ++ get_substitution matched before after rest
  | String "$" (String "`" rest) =>
      before ++ get_substitution matched before after rest
  | String "$" (String "'" rest) =>
      after ++ get_substitution matched before after rest
  | String c rest => String c (get_substitution matched before after rest)
  end.

(** [s.replace(pattern, replacement)] with a string pattern: the first
    occurrence only. *)
Definition replace (pattern replacement s : string) : string :=
  match split_at_first pattern s with
  | Some (before, after) =>
      before ++ get_substitution pattern before after replacement ++ after
  | None => s
  end.

Definition buildPrompt (aiConfig : AIConfig) (brandManual : BrandManual)
           (requestBody : RequestBody) : string :=
  replace "{{RULES}}" (rules brandManual)
    (replace "{{VOICE_PRINCIPLES}}" (voice_principles brandManual)
       (replace "{{JTBD}}" (jtbd requestBody)
          (replace "{{CONTEXT}}" (context requestBody)
             (prompt_template aiConfig)))).

(** The prompt assembly of the legacy handler: no [{{JTBD}}]. *)
Definition legacy_prompt (aiConfig : AIConfig) (brandManual : BrandManual)
           (requestBody : RequestBody) : string :=
  replace "{{RULES}}" (rules brandManual)
    (replace "{{VOICE_PRINCIPLES}}" (voice_principles brandManual)
       (replace "{{CONTEXT}}" (context requestBody)
          (prompt_template aiConfig))).

(** ** The completion service (openai-service.ts, OpenAIService) *)

Module ImageContent.
Record t : Type := { type : string; url : string; detail : string }.
End ImageContent.

Module OpenAIService.

(** [image] and [imageType] are strings, as the signature declares;
    [imageType] is optional: [None] when it is not given. *)
Definition prepareImageContent (image : string) (imageType : option string)
  : ImageContent.t :=
  if match imageType with
     | Some t => String.eqb t "url"
     | None => false
     end
     || String.prefix "http" image
  then {| ImageContent.type := "image_url";
          ImageContent.url := image;
          ImageContent.detail := "high" |}
  else
    let base64Image :=
      if String.prefix "data:" image then image
      else "data:image/"
             ++ match imageType with
                | Some "" | None => "jpeg"
                | Some t => t
                end
             ++ ";base64," ++ image in
    {| ImageContent.type := "image_url";
       ImageContent.url := base64Image;
       ImageContent.detail := "high" |}.

(** [v[0]]: the first element of an array, the first character of a
    string, the property ["0"] of an object. *)
Definition first_of (v : value) : option value :=
  match v with
  | VArr items _ => hd_error items
  | VStr (String c _) => Some (VStr (String c EmptyString))
  | VObj fs => lookup "0" fs
  | _ => None
  end.

(** [o?.k]. *)
Definition get_named_opt (o : option value) (k : string) : option value :=
  match o with
  | Some v => get_named v k
  | None => None
  end.

(** [completion.choices[0]?.message?.content || ''], on any completion:
    reading [choices] of [null], or index 0 of a missing or [null]
    [choices], is a TypeError. *)
Definition extractAnalysisResult (completion : value) : outcome value :=
  match completion with
  | VNull => Throws (TypeError (ReadPropertyOfNull "choices"))
  | _ =>
      match get_named completion "choices" with
      | None | Some VNull => Throws (TypeError (ReadPropertyOfNull "0"))
      | Some choices =>
          match get_named_opt (get_named_opt (first_of choices) "message") "content" with
          | Some content => Returns (if truthy (Some content) then content else VStr "")
          | None => Returns (VStr "")
          end
      end
  end.

End OpenAIService.

(** ** The event stream (sse-utils.ts) *)

(** The [message] member of an error payload: a literal, or the message of
    the error that was caught. *)
Inductive text : Type :=
| Literal (s : string)
| MessageOf (e : js_error).

Module ErrorResponse.
Record t : Type := {
  error : string;
  message : option text;
  code : option string;
  details : option (list ValidationError);
  schema_version : option string;
  timestamp : option string
}.
End ErrorResponse.

(** [{ type, data }] for the three types the helpers send. *)
Inductive SSEMessage : Type :=
| progress (step message : string)
| result (data : value)
| error (data : ErrorResponse.t).

(** What reached the stream, in order.  The consumer keeps reading: a write
    or a close is rejected only on a writer that is already closed. *)
Inductive stream_action : Type :=
| Write (m : SSEMessage)
| Close.

Record writer : Type := { closed : bool; written : list stream_action }.

Definition createSSEResponse : writer := {| closed := false; written := [] |}.

(** Code that runs against the writer and may throw. *)
Definition io (A : Type) : Type := writer -> outcome A * writer.

Definition pure {A : Type} (a : A) : io A := fun w => (Returns a, w).
Definition throw {A : Type} (e : js_error) : io A := fun w => (Throws e, w).
Definition lift {A : Type} (m : outcome A) : io A := fun w => (m, w).

Definition then_ {A B : Type} (m : io A) (k : A -> io B) : io B :=
  fun w => match m w with
           | (Returns a, w') => k a w'
           | (Throws e, w') => (Throws e, w')
           end.

Notation "x <-- m ;;; k" := (then_ m (fun x => k))
  (at level 61, m at next level, right associativity).
Notation "m ;;; k" := (then_ m (fun _ => k))
  (at level 61, right associativity).

Definition try_catch {A : Type} (body : io A) (handler : js_error -> io A) : io A :=
  fun w => match body w with
           | (Returns a, w') => (Returns a, w')
           | (Throws e, w') => handler e w'
           end.

Definition try_finally {A : Type} (body : io A) (cleanup : io unit) : io A :=
  fun w => match body w with
           | (r, w') =>
               match cleanup w' with
               | (Returns _, w'') => (r, w'')
               | (Throws e, w'') => (Throws e, w'')
               end
           end.

Definition writer_write (m : SSEMessage) : io unit :=
  fun w => if closed w then (Throws (TypeError StreamClosed), w)
           else (Returns tt, {| closed := false; written := written w ++ [Write m] |}).

Definition writer_close : io unit :=
  fun w => if closed w then (Throws (TypeError StreamClosed), w)
           else (Returns tt, {| closed := true; written := written w ++ [Close] |}).

Definition sendSSEMessage (m : SSEMessage) : io unit := writer_write m.

(** A failure to close is logged and swallowed. *)
Definition closeWriter : io unit :=
  try_catch writer_close (fun _ => pure tt).

Definition sendErrorResponse (e : ErrorResponse.t) : io unit :=
  sendSSEMessage (error e) ;;; closeWriter.

Definition sendProgressUpdate (step message : string) : io unit :=
  sendSSEMessage (progress step message).

Definition sendResult (r : value) : io unit :=
  sendSSEMessage (result r).

(** ** Collaborators

    What the configuration store, the completion provider, the request and
    the engine give during one request.  [Throws] is a rejected promise or a
    thrown exception. *)

Record row (A : Type) : Type := { data : option A; failure : option js_error }.
Arguments data {A} r.
Arguments failure {A} r.

Record world : Type := {
  (** [createClient(...)], [new OpenAIService(...)], [new DatabaseService(...)] *)
  services : outcome unit;
  (** [await req.json()] *)
  json : outcome value;
  (** [await this.db.getAIConfig()], [{ data, error }] *)
  getAIConfig : outcome (row AIConfig);
  (** [await this.db.getBrandManual()] *)
  getBrandManual : outcome (row BrandManual);
  (** [buildPrompt] and [prepareImageContent] on the request body *)
  prepared : value -> outcome unit;
  (** [await this.openai.createCompletion(completionParams)] *)
  createCompletion : outcome unit;
  (** [extractAnalysisResult(completion)]: the text of the first choice, or
      the empty string *)
  extractAnalysisResult : outcome string;
  (** [JSON.parse] *)
  JSON_parse : string -> outcome value;
  (** [new Date().toISOString()] *)
  now : string
}.

(** The responses of the handlers: the CORS preflight answer, a JSON body
    with its status and its [error] and [message] members, the event stream
    (status 200), and the JSON answer of the legacy handler that carries an
    analysis. *)
Inductive Response : Type :=
| CORSResponse
| JSONResponse (status : nat) (error : string) (message : text)
| SSEResponse
| AnalysisResponse (status : nat) (data : value).

(** ** The engine

    Two conversions of the JavaScript engine are not embedded: ToNumber on a
    string, an array or an object (reached by [<] and [>] when an operand is
    not a number; on an object it may throw), and the rendering of a number
    inside a template literal.  The definitions below take them as given and
    every property holds whatever they are. *)

Section Engine.

Variable engine_to_number : value -> outcome float.
Variable number_to_string : float -> string.

(** ToNumber, with [None] for [undefined]. *)
Definition to_number (v : option value) : outcome float :=
  match v with
  | None => Returns PrimFloat.nan
  | Some VNull => Returns 0%float
  | Some (VBool b) => Returns (if b then 1%float else 0%float)
  | Some (VNum n) => Returns n
  | Some v => engine_to_number v
  end.

(** *** The validator (validation.ts, validateJsonSchema) *)

(** [field in obj], for an object built by [JSON.parse]: an own property
    or a name inherited from [Object.prototype]. *)
Definition has_property (field : string) (obj : fields) : bool :=
  match lookup field obj with
  | Some _ => true
  | None => existsb (String.eqb field) object_prototype_names
  end.

Definition missing_required (required : option (list string)) (obj : fields)
           (path : string) : list ValidationError :=
  match required with
  | Some fs =>
      flat_map (fun field =>
                  if has_property field obj then []
                  else [missing_error field path]) fs
  | None => []
  end.

Definition below (obj : value) (minimum : option float) (path : string)
  : outcome (list ValidationError) :=
  match minimum with
  | Some m =>
      n <- to_number (Some obj) ;;
      Returns (if PrimFloat.ltb n m
               then [{| message := "Value must be >= " ++ number_to_string m;
                        path := path |}]
               else [])
  | None => Returns []
  end.

Definition above (obj : value) (maximum : option float) (path : string)
  : outcome (list ValidationError) :=
  match maximum with
  | Some m =>
      n <- to_number (Some obj) ;;
      Returns (if PrimFloat.ltb m n
               then [{| message := "Value must be <= " ++ number_to_string m;
                        path := path |}]
               else [])
  | None => Returns []
  end.

(** The inner [validate]; the errors it pushes are returned in push order.
    An exception of the engine abandons the run. *)
Fixpoint validate (obj : value) (objSchema : schema) (path : string) {struct obj}
  : outcome (list ValidationError) :=
  match objSchema with
  | SObject required properties =>
      match obj with
      | VObj fs =>
          rest <- (fix entries (l : fields) : outcome (list ValidationError) :=
                     match l with
                     | [] => Returns []
                     | (key, v) :: l' =>
                         match property_schema key properties with
                         | Some fieldSchema =>
                             e1 <- validate v fieldSchema (path ++ "." ++ key) ;;
                             e2 <- entries l' ;;
                             Returns (e1 ++ e2)%list
                         | None => entries l'
                         end
                     end) fs ;;
          Returns (missing_required required fs path ++ rest)%list
      | _ => Returns [{| message := "Expected object at " ++ path; path := path |}]
      end
  | SArray minItems maxItems items =>
      match obj with
      | VArr elements _ =>
          rest <- match items with
                  | Some itemSchema =>
                      (fix each (index : nat) (l : list value)
                         : outcome (list ValidationError) :=
                         match l with
                         | [] => Returns []
                         | item :: l' =>
                             e1 <- validate item itemSchema
                                     (path ++ "[" ++ string_of_nat index ++ "]") ;;
                             e2 <- each (S index) l' ;;
                             Returns (e1 ++ e2)%list
                         end) 0 elements
                  | None => Returns []
                  end ;;
          Returns (too_few minItems (List.length elements) path
                   ++ too_many maxItems (List.length elements) path
                   ++ rest)%list
      | _ => Returns [{| message := "Expected array at " ++ path; path := path |}]
      end
  | SString enum =>
      Returns (not_a_string obj path ++ not_in_enum obj enum path)%list
  | SNumber minimum maximum =>
      e2 <- below obj minimum path ;;
      e3 <- above obj maximum path ;;
      Returns (not_a_number obj path ++ e2 ++ e3)%list
  | SBoolean =>
      Returns (not_a_boolean obj path)
  | SUnion types =>
      Returns (if existsb (has_type obj) types then []
               else [{| message := "Expected one of types: " ++ String.concat ", " types;
                        path := path |}])
  | SOther => Returns []
  end.

(** The two loops of [validate], by name. *)
Fixpoint validate_entries (properties : option (list (string * schema)))
         (path : string) (l : fields) : outcome (list ValidationError) :=
  match l with
  | [] => Returns []
  | (key, v) :: l' =>
      match property_schema key properties with
      | Some fieldSchema =>
          e1 <- validate v fieldSchema (path ++ "." ++ key) ;;
          e2 <- validate_entries properties path l' ;;
          Returns (e1 ++ e2)%list
      | None => validate_entries properties path l'
      end
  end.

Fixpoint validate_items (itemSchema : schema) (path : string) (index : nat)
         (l : list value) : outcome (list ValidationError) :=
  match l with
  | [] => Returns []
  | item :: l' =>
      e1 <- validate item itemSchema (path ++ "[" ++ string_of_nat index ++ "]") ;;
      e2 <- validate_items itemSchema path (S index) l' ;;
      Returns (e1 ++ e2)%list
  end.

Definition validate_elements (items : option schema) (path : string)
           (elements : list value) : outcome (list ValidationError) :=
  match items with
  | Some itemSchema => validate_items itemSchema path 0 elements
  | None => Returns []
  end.

Definition validateJsonSchema (data : value) (schema_ : schema)
  : outcome ValidationResult :=
  errs <- validate data schema_ "root" ;;
  Returns {| valid := Nat.eqb (List.length errs) 0; errors := errs |}.

(** *** The normalizer, continued *)

(** [p.length === 0], for a truthy [p]. *)
Definition length_is_zero (p : value) : bool :=
  match p with
  | VArr items _ => Nat.eqb (List.length items) 0
  | VStr s => Nat.eqb (String.length s) 0
  | VObj fs =>
      match lookup "length" fs with
      | Some (VNum n) => PrimFloat.eqb n 0
      | _ => false
      end
  | _ => false
  end.

(** [p.length > 3], for a truthy [p]. *)
Definition length_exceeds_3 (p : value) : outcome bool :=
  match p with
  | VArr items _ => Returns (Nat.ltb 3 (List.length items))
  | VStr s => Returns (Nat.ltb 3 (String.length s))
  | VObj fs => n <- to_number (lookup "length" fs) ;; Returns (PrimFloat.ltb 3 n)
  | _ => Returns false
  end.

(** [p.slice(0, 3)]: an object parsed from JSON has no callable [slice]. *)
Definition slice_0_3 (p : value) : outcome value :=
  match p with
  | VArr items _ => Returns (VArr (firstn 3 items) [])
  | VStr s => Returns (VStr (String.substring 0 3 s))
  | _ => Throws (TypeError (NotAFunction "normalized.prioridadesTop3.slice"))
  end.

Definition normalize_prioridadesTop3 (n : fields) : outcome fields :=
  let n1 :=
    if negb (truthy (lookup "prioridadesTop3" n))
       || match lookup "prioridadesTop3" n with
          | Some p => length_is_zero p
          | None => false
          end
    then assign "prioridadesTop3" default_prioridadesTop3 n
    else n in
  match lookup "prioridadesTop3" n1 with
  | Some p =>
      over <- length_exceeds_3 p ;;
      if (over : bool)
      then p' <- slice_0_3 p ;; Returns (assign "prioridadesTop3" p' n1)
      else Returns n1
  | None => Throws (TypeError (ReadPropertyOfNull "length"))
  end.

Definition normalize_ranges (n : fields) : outcome fields :=
  let n1 := if in_range (lookup "pontuacaoGeral" n) then n
            else assign "pontuacaoGeral" (VNum 0) n in
  n2 <- within "tomDeVoz" (fix_range "nota") n1 ;;
  n3 <- within "experiencia" (fix_range "nota") n2 ;;
  within "experiencia" (within_named "cta" (fix_range "clareza")) n3.

Definition normalizeV6Data (data : value) : outcome value :=
  let normalized := spread data in
  let n1 := assign "schemaVersion" (VStr "v6") normalized in
  let n2 := if truthy (lookup "objetivoInferido" n1) then n1
            else assign "objetivoInferido" (VStr "") n1 in
  n3 <- normalize_jobToBeDone n2 ;;
  n4 <- normalize_tomDeVoz n3 ;;
  n5 <- normalize_experiencia n4 ;;
  n6 <- normalize_prioridadesTop3 n5 ;;
  n7 <- normalize_ranges n6 ;;
  Returns (VObj n7).

(** *** The orchestrator (index.ts) *)

Definition schema_violation (errs : list ValidationError) : ErrorResponse.t :=
  {| ErrorResponse.error := "Erro de valida" ++ c_cedilla ++ a_tilde ++ "o do schema";
     ErrorResponse.message := None;
     ErrorResponse.code := Some "LLM_SCHEMA_VIOLATION";
     ErrorResponse.details := Some errs;
     ErrorResponse.schema_version := Some "v6";
     ErrorResponse.timestamp := None |}.

Definition analysis_failure (w : world) (e : js_error) : ErrorResponse.t :=
  {| ErrorResponse.error := "Erro na an" ++ a_acute ++ "lise";
     ErrorResponse.message := Some (MessageOf e);
     ErrorResponse.code := None;
     ErrorResponse.details := None;
     ErrorResponse.schema_version := None;
     ErrorResponse.timestamp := Some (now w) |}.

(** [const { data, error } = await query; if (error || !data) throw new
    Error(message)]. *)
Definition required_row {A : Type} (query : outcome (row A)) (message : string)
  : io A :=
  r <-- lift query ;;;
  match failure r, data r with
  | None, Some a => pure a
  | _, _ => throw (Error message)
  end.

Definition processAnalysis (w : world) (requestBody : value) : io unit :=
  try_catch
    (sendProgressUpdate "configuracao" ("Carregando configura" ++ c_cedilla ++ o_tilde ++ "es...") ;;;
     aiConfig <-- required_row (getAIConfig w)
                    ("Configura" ++ c_cedilla ++ o_tilde ++ "es da IA n" ++ a_tilde ++ "o encontradas") ;;;
     sendProgressUpdate "manual" "Carregando manual da marca..." ;;;
     brandManual <-- required_row (getBrandManual w)
                       ("Manual da marca n" ++ a_tilde ++ "o encontrado") ;;;
     sendProgressUpdate "prompt" ("Preparando an" ++ a_acute ++ "lise...") ;;;
     lift (prepared w requestBody) ;;;
     sendProgressUpdate "api" "Analisando com IA..." ;;;
     lift (createCompletion w) ;;;
     sendProgressUpdate "processando" "Processando resultado..." ;;;
     analysisResult <-- lift (extractAnalysisResult w) ;;;
     (if String.eqb analysisResult "" then throw (Error "Resposta vazia da IA")
      else pure tt) ;;;
     parsedResult <-- lift (JSON_parse w analysisResult) ;;;
     normalizedData <-- lift (normalizeV6Data parsedResult) ;;;
     validation <-- lift (validateJsonSchema normalizedData ANALYSIS_SCHEMA) ;;;
     if valid validation
     then sendResult normalizedData
     else sendErrorResponse (schema_violation (errors validation)))
    (fun e => sendErrorResponse (analysis_failure w e)).

(** [!requestBody.context || !requestBody.jtbd || !requestBody.image]:
    reading a property of [null] is a TypeError. *)
Definition required_absent (requestBody : value) : outcome bool :=
  match requestBody with
  | VNull => Throws (TypeError (ReadPropertyOfNull "context"))
  | _ => Returns (negb (truthy (get_named requestBody "context"))
                  || negb (truthy (get_named requestBody "jtbd"))
                  || negb (truthy (get_named requestBody "image")))
  end.

Definition missing_parameters : ErrorResponse.t :=
  {| ErrorResponse.error := "Par" ++ a_circumflex ++ "metros obrigat" ++ o_acute ++ "rios ausentes";
     ErrorResponse.message :=
       Some (Literal ("Os campos 'context', 'jtbd' e 'image' s" ++ a_tilde ++ "o obrigat" ++ o_acute ++ "rios"));
     ErrorResponse.code := None;
     ErrorResponse.details := None;
     ErrorResponse.schema_version := None;
     ErrorResponse.timestamp := None |}.

(** [error.message || "Erro desconhecido"]. *)
Definition message_or_unknown (e : js_error) : text :=
  match e with
  | Error "" | SyntaxError "" => Literal "Erro desconhecido"
  | _ => MessageOf e
  end.

Definition internal_error (w : world) (e : js_error) : ErrorResponse.t :=
  {| ErrorResponse.error := "Erro interno do servidor";
     ErrorResponse.message := Some (message_or_unknown e);
     ErrorResponse.code := None;
     ErrorResponse.details := None;
     ErrorResponse.schema_version := None;
     ErrorResponse.timestamp := Some (now w) |}.

Definition processRequest (w : world) : io unit :=
  try_finally
    (try_catch
       (sendProgressUpdate "inicializando" ("Iniciando an" ++ a_acute ++ "lise...") ;;;
        lift (services w) ;;;
        requestBody <-- lift (json w) ;;;
        absent <-- lift (required_absent requestBody) ;;;
        if (absent : bool)
        then sendErrorResponse missing_parameters
        else processAnalysis w requestBody)
       (fun e => sendErrorResponse (internal_error w e)))
    closeWriter.

(** [handleRequest] returns the response at once; [processRequest] goes on
    writing to the stream it created.  The second component is the writer
    once [processRequest] has settled, or [None] when no stream was
    created. *)
Definition handleRequest (method : string) (w : world) : Response * option writer :=
  if String.eqb method "OPTIONS" then (CORSResponse, None)
  else if negb (String.eqb method "POST")
  then (JSONResponse 405 ("M" ++ e_acute ++ "todo n" ++ a_tilde ++ "o permitido")
          (Literal ("Esta API aceita apenas requisi" ++ c_cedilla ++ o_tilde ++ "es POST")),
        None)
  else (SSEResponse, Some (snd (processRequest w createSSEResponse))).

(** *** The legacy handler (request validation)

    The handler answers with one JSON response and never creates a stream.
    [analysis] is the rest of the handler, from the configuration reads to
    the final response. *)
Definition legacy_required_absent (requestBody : value) : outcome bool :=
  match requestBody with
  | VNull => Throws (TypeError (ReadPropertyOfNull "context"))
  | _ => Returns (negb (truthy (get_named requestBody "context"))
                  || negb (truthy (get_named requestBody "image")))
  end.

Definition legacy_serve (method : string) (w : world)
           (analysis : value -> outcome Response) : Response :=
  if String.eqb method "OPTIONS" then CORSResponse
  else
    match
      (services w ;;
       if negb (String.eqb method "POST")
       then Returns (JSONResponse 405 ("M" ++ e_acute ++ "todo n" ++ a_tilde ++ "o permitido")
                       (Literal ("Esta API aceita apenas requisi" ++ c_cedilla ++ o_tilde ++ "es POST")))
       else
         requestBody <- json w ;;
         absent <- legacy_required_absent requestBody ;;
         if (absent : bool)
         then Returns (JSONResponse 400
                         ("Par" ++ a_circumflex ++ "metros obrigat" ++ o_acute ++ "rios ausentes")
                         (Literal ("Os campos 'context' e 'image' s" ++ a_tilde ++ "o obrigat" ++ o_acute ++ "rios")))
         else analysis requestBody)
    with
    | Returns r => r
    | Throws e => JSONResponse 500 "Erro interno do servidor" (message_or_unknown e)
    end.

End Engine.

(** ** The event stream when the consumer may leave

    The writer above belongs to a stream whose consumer keeps reading.  The
    writer of a [TransformStream] also rejects once the readable side was
    cancelled, which is what happens when the consumer of the response
    disconnects: from then on [writer.write] and [writer.close] reject with
    the reason of the cancellation.  [sendSSEMessage] awaits [writer.write]
    without a guard, [closeWriter] guards [writer.close].  The helpers of
    the stream and the orchestrator follow once more, statement by
    statement as above, over a writer whose consumer is given; with
    [keeps_reading] they are the definitions above. *)

(** Whether the consumer has left when the stream has carried [sent], and
    the reason the writer rejects with from then on. *)
Definition consumer : Type := list stream_action -> option js_error.

Definition keeps_reading : consumer := fun _ => None.

(** The consumer takes [n] writes and then disconnects. *)
Definition leaves_after (n : nat) (reason : js_error) : consumer :=
  fun sent => if Nat.ltb (List.length sent) n then None else Some reason.

Module Cancellation.
Section Engine.

Variable engine_to_number : value -> outcome float.
Variable number_to_string : float -> string.
Variable reader : consumer.

Definition writer_write (m : SSEMessage) : io unit :=
  fun w => if closed w then (Throws (TypeError StreamClosed), w)
           else match reader (written w) with
                | Some reason => (Throws reason, w)
                | None => (Returns tt,
                           {| closed := false; written := written w ++ [Write m] |})
                end.

Definition writer_close : io unit :=
  fun w => if closed w then (Throws (TypeError StreamClosed), w)
           else match reader (written w) with
                | Some reason => (Throws reason, w)
                | None => (Returns tt,
                           {| closed := true; written := written w ++ [Close] |})
                end.

(** [await writer.write(...)], not guarded. *)
Definition sendSSEMessage (m : SSEMessage) : io unit := writer_write m.

(** [try { await writer.close() } catch (error) { console.error(...) }]. *)
Definition closeWriter : io unit :=
  try_catch writer_close (fun _ => pure tt).

Definition sendErrorResponse (e : ErrorResponse.t) : io unit :=
  sendSSEMessage (error e) ;;; closeWriter.

Definition sendProgressUpdate (step message : string) : io unit :=
  sendSSEMessage (progress step message).

Definition sendResult (r : value) : io unit :=
  sendSSEMessage (result r).

Definition processAnalysis (w : world) (requestBody : value) : io unit :=
  try_catch
    (sendProgressUpdate "configuracao" ("Carregando configura" ++ c_cedilla ++ o_tilde ++ "es...") ;;;
     aiConfig <-- required_row (getAIConfig w)
                    ("Configura" ++ c_cedilla ++ o_tilde ++ "es da IA n" ++ a_tilde ++ "o encontradas") ;;;
     sendProgressUpdate "manual" "Carregando manual da marca..." ;;;
     brandManual <-- required_row (getBrandManual w)
                       ("Manual da marca n" ++ a_tilde ++ "o encontrado") ;;;
     sendProgressUpdate "prompt" ("Preparando an" ++ a_acute ++ "lise...") ;;;
     lift (prepared w requestBody) ;;;
     sendProgressUpdate "api" "Analisando com IA..." ;;;
     lift (createCompletion w) ;;;
     sendProgressUpdate "processando" "Processando resultado..." ;;;
     analysisResult <-- lift (extractAnalysisResult w) ;;;
     (if String.eqb analysisResult "" then throw (Error "Resposta vazia da IA")
      else pure tt) ;;;
     parsedResult <-- lift (JSON_parse w analysisResult) ;;;
     normalizedData <-- lift (normalizeV6Data engine_to_number parsedResult) ;;;
     validation <-- lift (validateJsonSchema engine_to_number number_to_string
                            normalizedData ANALYSIS_SCHEMA) ;;;
     if valid validation
     then sendResult normalizedData
     else sendErrorResponse (schema_violation (errors validation)))
    (fun e => sendErrorResponse (analysis_failure w e)).

Definition processRequest (w : world) : io unit :=
  try_finally
    (try_catch
       (sendProgressUpdate "inicializando" ("Iniciando an" ++ a_acute ++ "lise...") ;;;
        lift (services w) ;;;
        requestBody <-- lift (json w) ;;;
        absent <-- lift (required_absent requestBody) ;;;
        if (absent : bool)
        then sendErrorResponse missing_parameters
        else processAnalysis w requestBody)
       (fun e => sendErrorResponse (internal_error w e)))
    closeWriter.

(** [this.processRequest(req, writer)] is neither awaited nor given a
    handler: the response is returned whatever becomes of it. *)
Definition handleRequest (method : string) (w : world) : Response * option writer :=
  if String.eqb method "OPTIONS" then (CORSResponse, None)
  else if negb (String.eqb method "POST")
  then (JSONResponse 405 ("M" ++ e_acute ++ "todo n" ++ a_tilde ++ "o permitido")
          (Literal ("Esta API aceita apenas requisi" ++ c_cedilla ++ o_tilde ++ "es POST")),
        None)
  else (SSEResponse, Some (snd (processRequest w createSSEResponse))).

End Engine.
End Cancellation.


(** ** The legacy handler, from the request to the response

    The handler answers every request with one JSON response.  Besides the
    responses it shares with the streaming handler it has one of its own,
    for a failed call to the model: status 500, the [error] "A chamada para
    a OpenAI falhou" and, as [details], the message of the failure.  The
    rows it reads carry [model_name] and [prompt_template]; what matters
    below is whether a row came, and whether it came with an error. *)
Inductive LegacyResponse : Type :=
| Shared (r : Response)
| OpenAIFailure (details : text).

(** [openaiError.message || "Erro desconhecido da OpenAI"]. *)
Definition openai_details (e : js_error) : text :=
  match e with
  | Error "" | SyntaxError "" => Literal "Erro desconhecido da OpenAI"
  | _ => MessageOf e
  end.

(** The handler after the request body was accepted.  The prompt is
    assembled from [aiConfig.prompt_template] and [brandManual], which are
    read without a check that the rows came; [prepared] stands for what the
    handler reads of the request body, declared as strings by
    [RequestBody], in the prompt and in the preparation of the image.  A
    text that [JSON.parse] rejects is wrapped, not reported. *)
Definition legacy_analysis (w : world) (requestBody : value)
  : outcome LegacyResponse :=
  aiConfig <- getAIConfig w ;;
  match failure aiConfig with
  | Some _ =>
      Returns (Shared (JSONResponse 500
                         ("Erro ao acessar configura" ++ c_cedilla ++ a_tilde ++ "o da IA")
                         (Literal ("N" ++ a_tilde ++ "o foi poss" ++ i_acute
                                     ++ "vel obter as configura" ++ c_cedilla ++ o_tilde
                                     ++ "es do modelo de IA"))))
  | None =>
      brandManual <- getBrandManual w ;;
      match failure brandManual with
      | Some _ =>
          Returns (Shared (JSONResponse 500 "Erro ao acessar manual da marca"
                             (Literal ("N" ++ a_tilde ++ "o foi poss" ++ i_acute
                                         ++ "vel obter os dados do manual da marca"))))
      | None =>
          match data aiConfig, data brandManual with
          | None, _ => Throws (TypeError (ReadPropertyOfNull "prompt_template"))
          | Some _, None => Throws (TypeError (ReadPropertyOfNull "voice_principles"))
          | Some _, Some _ =>
              prepared w requestBody ;;
              match createCompletion w with
              | Throws e => Returns (OpenAIFailure (openai_details e))
              | Returns _ =>
                  analysisResult <- extractAnalysisResult w ;;
                  if String.eqb analysisResult ""
                  then Returns (Shared (JSONResponse 500
                                          ("Erro na an" ++ a_acute ++ "lise da IA")
                                          (Literal ("A OpenAI n" ++ a_tilde
                                                      ++ "o retornou uma resposta v"
                                                      ++ a_acute ++ "lida"))))
                  else
                    let parsedResult :=
                      match JSON_parse w analysisResult with
                      | Returns document => document
                      | Throws _ => VObj [("analysis", VStr analysisResult)]
                      end in
                    Returns (Shared (AnalysisResponse 200 parsedResult))
              end
          end
      end
  end.

Definition serve (method : string) (w : world) : LegacyResponse :=
  if String.eqb method "OPTIONS" then Shared CORSResponse
  else
    match
      (services w ;;
       if negb (String.eqb method "POST")
       then Returns (Shared (JSONResponse 405
                               ("M" ++ e_acute ++ "todo n" ++ a_tilde ++ "o permitido")
                               (Literal ("Esta API aceita apenas requisi" ++ c_cedilla
                                           ++ o_tilde ++ "es POST"))))
       else
         requestBody <- json w ;;
         absent <- legacy_required_absent requestBody ;;
         if (absent : bool)
         then Returns (Shared (JSONResponse 400
                                 ("Par" ++ a_circumflex ++ "metros obrigat" ++ o_acute
                                    ++ "rios ausentes")
                                 (Literal ("Os campos 'context' e 'image' s" ++ a_tilde
                                             ++ "o obrigat" ++ o_acute ++ "rios"))))
         else legacy_analysis w requestBody)
    with
    | Returns r => r
    | Throws e => Shared (JSONResponse 500 "Erro interno do servidor" (message_or_unknown e))
    end.

(** The HTTP status of a response. *)
Definition status_of (r : LegacyResponse) : nat :=
  match r with
  | Shared CORSResponse | Shared SSEResponse => 200
  | Shared (JSONResponse status _ _) | Shared (AnalysisResponse status _) => status
  | OpenAIFailure _ => 500
  end.

(** ** Reading a document *)

(** [true] on objects and arrays, the values that can take a property. *)
Definition is_object (v : value) : bool :=
  match v with
  | VObj _ | VArr _ _ => true
  | _ => false
  end.

(** The property [k] of the copy [{ ...x }] the normalizer starts from. *)
Definition member (x : value) (k : string) : option value := lookup k (spread x).

(** [o?.k]. *)
Definition field (o : option value) (k : string) : option value :=
  match o with
  | Some v => get_named v k
  | None => None
  end.

(** Absent, falsy, or an object. *)
Definition absent_falsy_or_object (o : option value) : bool :=
  negb (truthy o) || match o with Some v => is_object v | None => false end.

(** A truthy value that is not an object: a non-empty string, a number
    other than 0 and NaN, or [true]. *)
Definition truthy_primitive (o : option value) : bool :=
  truthy o && match o with Some v => negb (is_object v) | None => false end.

(** The sub-schema reached from [s] through the given property names. *)
Fixpoint schema_at (s : schema) (names : list string) : option schema :=
  match names with
  | [] => Some s
  | name :: rest =>
      match s with
      | SObject _ properties =>
          match property_schema name properties with
          | Some s' => schema_at s' rest
          | None => None
          end
      | _ => None
      end
  end.

(** ** Sample inputs *)

(** Stand-ins for the two conversions of the engine, to evaluate the
    definitions on inputs that do not reach them. *)
Definition idle_to_number : value -> outcome float := fun _ => Returns PrimFloat.nan.
Definition idle_number_to_string : float -> string := fun _ => "".

(** A request whose collaborators all answer; [body] is the parsed request
    body and [answer] the text the model returns, which the stand-in for
    [JSON.parse] turns into [document]. *)
Definition sample_world (body : value) (answer : string) (document : value) : world :=
  {| services := Returns tt;
     json := Returns body;
     getAIConfig := Returns {| data := Some {| system_prompt := "s";
                                               prompt_template := "{{CONTEXT}}" |};
                               failure := None |};
     getBrandManual := Returns {| data := Some {| voice_principles := "v"; rules := "r" |};
                                  failure := None |};
     prepared := fun _ => Returns tt;
     createCompletion := Returns tt;
     extractAnalysisResult := Returns answer;
     JSON_parse := fun _ => Returns document;
     now := "2025-01-01T00:00:00.000Z" |}.

(** The same request with another answer of one collaborator. *)
Definition with_services (w : world) (clients : outcome unit) : world :=
  {| services := clients; json := json w; getAIConfig := getAIConfig w;
     getBrandManual := getBrandManual w; prepared := prepared w;
     createCompletion := createCompletion w;
     extractAnalysisResult := extractAnalysisResult w;
     JSON_parse := JSON_parse w; now := now w |}.

Definition with_json (w : world) (body : outcome value) : world :=
  {| services := services w; json := body; getAIConfig := getAIConfig w;
     getBrandManual := getBrandManual w; prepared := prepared w;
     createCompletion := createCompletion w;
     extractAnalysisResult := extractAnalysisResult w;
     JSON_parse := JSON_parse w; now := now w |}.

Definition with_getAIConfig (w : world) (query : outcome (row AIConfig)) : world :=
  {| services := services w; json := json w; getAIConfig := query;
     getBrandManual := getBrandManual w; prepared := prepared w;
     createCompletion := createCompletion w;
     extractAnalysisResult := extractAnalysisResult w;
     JSON_parse := JSON_parse w; now := now w |}.

Definition with_getBrandManual (w : world) (query : outcome (row BrandManual))
  : world :=
  {| services := services w; json := json w; getAIConfig := getAIConfig w;
     getBrandManual := query; prepared := prepared w;
     createCompletion := createCompletion w;
     extractAnalysisResult := extractAnalysisResult w;
     JSON_parse := JSON_parse w; now := now w |}.

Definition with_createCompletion (w : world) (call : outcome unit) : world :=
  {| services := services w; json := json w; getAIConfig := getAIConfig w;
     getBrandManual := getBrandManual w; prepared := prepared w;
     createCompletion := call;
     extractAnalysisResult := extractAnalysisResult w;
     JSON_parse := JSON_parse w; now := now w |}.

Definition with_JSON_parse (w : world) (parse : string -> outcome value) : world :=
  {| services := services w; json := json w; getAIConfig := getAIConfig w;
     getBrandManual := getBrandManual w; prepared := prepared w;
     createCompletion := createCompletion w;
     extractAnalysisResult := extractAnalysisResult w;
     JSON_parse := parse; now := now w |}.

Definition complete_body : value :=
  VObj [("context", VStr "Tela de login"); ("jtbd", VStr "entrar na conta");
        ("image", VStr "https://example.com/tela.png")].

(** A body the legacy handler accepts. *)
Definition legacy_body : value :=
  VObj [("context", VStr "Tela de login");
        ("image", VStr "https://example.com/tela.png")].

Definition body_without_image : value :=
  VObj [("context", VStr "Tela de login"); ("jtbd", VStr "entrar na conta")].

(** * The vocabulary of the properties *)

(** ** Validation errors *)

(** Every error lies at the path [p] or below it. *)
Definition below_path (p : string) (errs : list ValidationError) : Prop :=
  Forall (fun e => String.prefix p (path e) = true) errs.













(** ** Prompts *)

Fixpoint no_dollar (s : string) : bool :=
  match s with
  | EmptyString => true
  | String c rest => negb (Ascii.eqb c "$") && no_dollar rest
  end.

(** No opening brace in the text, so no token starts in it. *)
Fixpoint no_brace (s : string) : bool :=
  match s with
  | EmptyString => true
  | String c rest => negb (Ascii.eqb c "{") && no_brace rest
  end.

(** ** Streams *)

(** [Open -> (Progress)* -> (Result | Error) -> Closed], read off what
    reached the stream. *)
Inductive lifecycle : list stream_action -> Prop :=
| lifecycle_progress step message rest :
    lifecycle rest -> lifecycle (Write (progress step message) :: rest)
| lifecycle_result data : lifecycle [Write (result data); Close]
| lifecycle_error data : lifecycle [Write (error data); Close].

Definition is_progress (m : SSEMessage) : bool :=
  match m with progress _ _ => true | _ => false end.

Definition is_terminal (m : SSEMessage) : bool :=
  match m with result _ | error _ => true | progress _ _ => false end.

(** How a request ends on a stream that has carried [sent], read off what
    reached the stream afterwards, the state of the writer and the outcome
    of [processRequest]: progress events, then one result or one error, then
    the close; or, once the consumer has left, without the close; or without
    the result or error, and with the reason of the consumer as failure. *)
Inductive request_ends (reader : consumer) (sent : list stream_action)
  : outcome unit -> bool -> list stream_action -> Prop :=
| ends_progress step message o c rest :
    request_ends reader (sent ++ [Write (progress step message)])%list o c rest ->
    request_ends reader sent o c (Write (progress step message) :: rest)
| ends_closed t :
    is_terminal t = true ->
    request_ends reader sent (Returns tt) true [Write t; Close]
| ends_open t reason :
    is_terminal t = true ->
    reader (sent ++ [Write t])%list = Some reason ->
    request_ends reader sent (Returns tt) false [Write t]
| ends_unanswered reason :
    reader sent = Some reason ->
    request_ends reader sent (Throws reason) false [].

(** The five progress events of [processAnalysis]. *)
Definition analysis_progress : list stream_action :=
  [Write (progress "configuracao" ("Carregando configura" ++ c_cedilla ++ o_tilde ++ "es..."));
   Write (progress "manual" "Carregando manual da marca...");
   Write (progress "prompt" ("Preparando an" ++ a_acute ++ "lise..."));
   Write (progress "api" "Analisando com IA...");
   Write (progress "processando" "Processando resultado...")].

(** ** Normalized documents *)

(** [t] is an object whose property [k] is truthy or holds the default. *)
Definition Settled (k : string) (d : value) (t : value) : Prop :=
  is_object t = true
  /\ exists v, get_named t k = Some v /\ (truthy (Some v) = true \/ v = d).

(** [t] is an object whose property [k] is a number of the range. *)
Definition Ranged (k : string) (t : value) : Prop :=
  is_object t = true /\ in_range (get_named t k) = true.

(** The value a defaulting statement leaves: the supplied one when it is
    truthy, the default otherwise. *)
Definition defaulted (d : value) (o : option value) : value :=
  match o with
  | Some v => if truthy (Some v) then v else d
  | None => d
  end.

(** The value a range check leaves: the supplied one when it is a number of
    the range, 0 otherwise. *)
Definition score_value (o : option value) : value :=
  match o with
  | Some v => if in_range (Some v) then v else VNum 0
  | None => VNum 0
  end.

Definition section_value (d : value) (step : value -> outcome value)
           (o : option value) : outcome value :=
  match o with
  | Some v => if truthy (Some v) then step v else Returns d
  | None => Returns d
  end.

Definition prioridades_start (o : option value) : value :=
  match o with
  | Some p =>
      if negb (truthy (Some p)) || length_is_zero p
      then default_prioridadesTop3 else p
  | None => default_prioridadesTop3
  end.

Definition normal_form (n0 : fields) (o j t0 e0 p pg t e1 e : value) : fields :=
  assign "experiencia" e
    (assign "experiencia" e1
       (assign "tomDeVoz" t
          (assign "pontuacaoGeral" pg
             (assign "prioridadesTop3" p
                (assign "experiencia" e0
                   (assign "tomDeVoz" t0
                      (assign "jobToBeDone" j
                         (assign "objetivoInferido" o
                            (assign "schemaVersion" (VStr "v6") n0))))))))).

(** How a section [v'] of the result relates to the section [v] supplied. *)
Definition kept_except (ks : list string) (v v' : value) : Prop :=
  forall k, existsb (String.eqb k) ks = false -> get_named v' k = get_named v k.

Definition defaults_to (k : string) (d : value) (v v' : value) : Prop :=
  get_named v' k = Some (defaulted d (get_named v k)).

Definition scored (k : string) (v v' : value) : Prop :=
  get_named v' k = Some (score_value (get_named v k)).

Definition avaliacao_kept (a a' : value) : Prop :=
  kept_except ["sugestoes"] a a' /\ defaults_to "sugestoes" (VArr [] []) a a'.

Definition jobToBeDone_kept (j j' : value) : Prop :=
  kept_except ["placeholderExemplo"; "avaliacao"] j j'
  /\ defaults_to "placeholderExemplo" (VStr "") j j'
  /\ (truthy (get_named j "avaliacao") = false ->
      get_named j' "avaliacao" = Some default_avaliacao)
  /\ (forall a, get_named j "avaliacao" = Some a -> truthy (Some a) = true ->
      exists a', get_named j' "avaliacao" = Some a' /\ avaliacao_kept a a').

Definition tomDeVoz_kept (t t' : value) : Prop :=
  kept_except ["manter"; "mudar"; "nota"] t t'
  /\ defaults_to "manter" (VArr [] []) t t'
  /\ defaults_to "mudar" (VArr [] []) t t'
  /\ scored "nota" t t'.

Definition cta_kept (c c' : value) : Prop :=
  kept_except ["clareza"] c c' /\ scored "clareza" c c'.

Definition experiencia_kept (e e' : value) : Prop :=
  kept_except ["usabilidade"; "visual"; "acessibilidade"; "cta"; "nota"] e e'
  /\ defaults_to "usabilidade" (VArr [] []) e e'
  /\ defaults_to "visual" (VArr [] []) e e'
  /\ defaults_to "acessibilidade" (VArr [] []) e e'
  /\ scored "nota" e e'
  /\ (truthy (get_named e "cta") = false -> get_named e' "cta" = Some default_cta)
  /\ (forall c, get_named e "cta" = Some c -> truthy (Some c) = true ->
      exists c', get_named e' "cta" = Some c' /\ cta_kept c c').






Definition JFinal (j : value) : Prop :=
  Settled "placeholderExemplo" (VStr "") j
  /\ exists a, get_named j "avaliacao" = Some a /\ Settled "sugestoes" (VArr [] []) a.

Definition TFinal (t : value) : Prop :=
  Settled "manter" (VArr [] []) t /\ Settled "mudar" (VArr [] []) t /\ Ranged "nota" t.

Definition EFinal (e : value) : Prop :=
  Settled "usabilidade" (VArr [] []) e
  /\ Settled "visual" (VArr [] []) e
  /\ Settled "acessibilidade" (VArr [] []) e
  /\ Ranged "nota" e
  /\ exists c, get_named e "cta" = Some c /\ Ranged "clareza" c.

(** [tomDeVoz] after its defaults, before the range of [nota] is fixed. *)
Definition TSettled (t : value) : Prop :=
  Settled "manter" (VArr [] []) t /\ Settled "mudar" (VArr [] []) t.

(** [experiencia] after its defaults. *)
Definition ESettled (e : value) : Prop :=
  Settled "usabilidade" (VArr [] []) e
  /\ Settled "visual" (VArr [] []) e
  /\ Settled "acessibilidade" (VArr [] []) e
  /\ Settled "cta" default_cta e.

Definition normalized_keys : list string :=
  ["schemaVersion"; "objetivoInferido"; "jobToBeDone"; "tomDeVoz";
   "experiencia"; "prioridadesTop3"; "pontuacaoGeral"].

Definition only_type_errors {A : Type} (m : outcome A) : Prop :=
  match m with
  | Returns _ | Throws (TypeError _) => True
  | Throws _ => False
  end.

(** The own properties of an object have distinct names. *)
Definition keys_unique (v : value) : Prop :=
  match v with
  | VObj fs => NoDup (map fst fs)
  | _ => True
  end.

(** A value as JavaScript builds it: no object, at any depth, has two
    properties of the same name. *)
Fixpoint unique_keys (v : value) : Prop :=
  match v with
  | VObj fs =>
      NoDup (map fst fs)
      /\ (fix all (l : fields) : Prop :=
            match l with
            | [] => True
            | kv :: l' => unique_keys (snd kv) /\ all l'
            end) fs
  | VArr items props =>
      (fix all (l : list value) : Prop :=
         match l with
         | [] => True
         | item :: l' => unique_keys item /\ all l'
         end) items
      /\ NoDup (map fst props)
      /\ (fix all (l : fields) : Prop :=
            match l with
            | [] => True
            | kv :: l' => unique_keys (snd kv) /\ all l'
            end) props
  | _ => True
  end.

(** No number is expected anywhere in the schema. *)
Fixpoint number_free (s : schema) : bool :=
  match s with
  | SObject _ (Some ps) =>
      (fix all (l : list (string * schema)) : bool :=
         match l with
         | [] => true
         | ks :: l' => number_free (snd ks) && all l'
         end) ps
  | SArray _ _ (Some itemSchema) => number_free itemSchema
  | SNumber _ _ => false
  | _ => true
  end.

(** A document whose four scores are numbers of the range, in objects of
    distinct property names. *)
Definition scores_ranged (y : value) : Prop :=
  exists Y pg t e c,
    y = VObj Y /\ NoDup (map fst Y)
    /\ lookup "pontuacaoGeral" Y = Some pg /\ in_range (Some pg) = true
    /\ lookup "tomDeVoz" Y = Some t /\ keys_unique t /\ Ranged "nota" t
    /\ lookup "experiencia" Y = Some e /\ keys_unique e /\ Ranged "nota" e
    /\ get_named e "cta" = Some c /\ keys_unique c /\ Ranged "clareza" c.

Section Prioridades.

Variable engine_to_number : value -> outcome float.

Definition prioridades_value (o : option value) : outcome value :=
  over <- length_exceeds_3 engine_to_number (prioridades_start o) ;;
  if (over : bool) then slice_0_3 (prioridades_start o)
  else Returns (prioridades_start o).

Definition PFinal (p : value) : Prop :=
  truthy (Some p) = true /\ length_is_zero p = false
  /\ length_exceeds_3 engine_to_number p = Returns false.

(** [prioridadesTop3] is not an object whose [length] exceeds 3. *)
Definition prioridades_sound (o : option value) : Prop :=
  match o with
  | Some (VObj fs) =>
      length_is_zero (VObj fs) = true
      \/ length_exceeds_3 engine_to_number (VObj fs) = Returns false
  | _ => True
  end.

End Prioridades.

(** ** A sample document *)

Definition document_with_clareza_15 : value :=
  VObj [("pontuacaoGeral", VNum 8.5);
        ("experiencia",
         VObj [("nota", VNum 7);
               ("cta", VObj [("principal", VStr "Criar conta");
                             ("clareza", VNum 15);
                             ("recomendacao", VStr "ok")])])].

(** A document whose [tomDeVoz] is a text and whose [pontuacaoGeral] is out
    of range. *)
Definition document_with_primitive_section : value :=
  VObj [("tomDeVoz", VStr "informal"); ("pontuacaoGeral", VNum 15)].

(** * Properties *)

Create HintDb paths.

Lemma length_append (a b : string) :
  String.length (a ++ b) = String.length a + String.length b.
Proof. induction a as [| c a IH]; cbn; [reflexivity | now rewrite IH]. Qed.

Lemma append_assoc (a b c : string) : (a ++ b) ++ c = a ++ b ++ c.
Proof. induction a as [| x a IH]; cbn; [reflexivity | now rewrite IH]. Qed.








Lemma prefix_refl (a : string) : String.prefix a a = true.
Proof.
  induction a as [| c a IH]; cbn; [reflexivity |].
  destruct (ascii_dec c c) as [_ | Hne]; [exact IH | contradiction].
Qed.

Lemma prefix_append (a b : string) : String.prefix a (a ++ b) = true.
Proof.
  induction a as [| c a IH]; cbn; [now destruct b |].
  destruct (ascii_dec c c) as [_ | Hne]; [exact IH | contradiction].
Qed.

Lemma prefix_trans (a : string) :
  forall b c, String.prefix a b = true -> String.prefix b c = true ->
              String.prefix a c = true.
Proof.
  induction a as [| x a IH]; intros b c Hab Hbc; [now destruct c |].
  destruct b as [| y b]; [discriminate |]. destruct c as [| z c]; [discriminate |].
  cbn in *. destruct (ascii_dec x y) as [-> | _]; [| discriminate].
  destruct (ascii_dec y z) as [-> | _]; [| discriminate].
  destruct (ascii_dec z z) as [_ | Hne]; [| contradiction]. eauto.
Qed.

Lemma prefix_length (a : string) :
  forall b, String.prefix a b = true -> String.length a <= String.length b.
Proof.
  induction a as [| x a IH]; intros b H; cbn; [lia |].
  destruct b as [| y b]; [discriminate |]. cbn in *.
  destruct (ascii_dec x y); [| discriminate]. apply IH in H. lia.
Qed.

(** ** Induction on values *)

Section ValueInduction.

Variable P : value -> Prop.
Hypothesis P_null : P VNull.
Hypothesis P_bool : forall b, P (VBool b).
Hypothesis P_num : forall n, P (VNum n).
Hypothesis P_str : forall s, P (VStr s).
Hypothesis P_arr : forall items props,
    Forall P items -> Forall (fun kv => P (snd kv)) props -> P (VArr items props).
Hypothesis P_obj : forall fs, Forall (fun kv => P (snd kv)) fs -> P (VObj fs).

Fixpoint value_induction (v : value) : P v :=
  match v with
  | VNull => P_null
  | VBool b => P_bool b
  | VNum n => P_num n
  | VStr s => P_str s
  | VArr items props =>
      P_arr items props
        ((fix all (l : list value) : Forall P l :=
            match l with
            | [] => Forall_nil _
            | x :: l' => Forall_cons x (value_induction x) (all l')
            end) items)
        ((fix all (l : fields) : Forall (fun kv => P (snd kv)) l :=
            match l with
            | [] => Forall_nil _
            | kv :: l' => Forall_cons kv (value_induction (snd kv)) (all l')
            end) props)
  | VObj fs =>
      P_obj fs
        ((fix all (l : fields) : Forall (fun kv => P (snd kv)) l :=
            match l with
            | [] => Forall_nil _
            | kv :: l' => Forall_cons kv (value_induction (snd kv)) (all l')
            end) fs)
  end.

End ValueInduction.

Section ValidatorProperties.

Variable engine_to_number : value -> outcome float.
Variable number_to_string : float -> string.

Local Abbreviation validate' := (validate engine_to_number number_to_string).
Local Abbreviation validate_entries' := (validate_entries engine_to_number number_to_string).
Local Abbreviation validate_items' := (validate_items engine_to_number number_to_string).
Local Abbreviation validate_elements' := (validate_elements engine_to_number number_to_string).
Local Abbreviation validateJsonSchema' := (validateJsonSchema engine_to_number number_to_string).

Lemma validate_object (fs : fields) required properties path :
  validate' (VObj fs) (SObject required properties) path =
  (rest <- validate_entries' properties path fs ;;
   Returns (missing_required required fs path ++ rest)%list).
Proof.
  cbn [validate].
  match goal with
  | |- bind (?loop fs) _ = _ =>
      assert (E : forall l, loop l = validate_entries' properties path l)
  end.
  { induction l as [| [key v] l IH]; [reflexivity |].
    cbn [validate_entries]. rewrite <- IH. reflexivity. }
  rewrite E. reflexivity.
Qed.

Lemma validate_array elements props minItems maxItems items path :
  validate' (VArr elements props) (SArray minItems maxItems items) path =
  (rest <- validate_elements' items path elements ;;
   Returns (too_few minItems (List.length elements) path
            ++ too_many maxItems (List.length elements) path ++ rest)%list).
Proof.
  cbn [validate]. destruct items as [itemSchema |]; [| reflexivity].
  unfold validate_elements.
  match goal with
  | |- bind (?loop 0 elements) _ = _ =>
      assert (E : forall l i, loop i l = validate_items' itemSchema path i l)
  end.
  { induction l as [| item l IH]; intros i; [reflexivity |].
    cbn [validate_items]. rewrite <- IH. reflexivity. }
  rewrite E. reflexivity.
Qed.

(** *** Every error lies at or below the path that was validated *)

Lemma below_path_app p a b :
  below_path p a -> below_path p b -> below_path p (a ++ b).
Proof. intros Ha Hb. apply Forall_app. split; assumption. Qed.

Lemma below_path_deeper p q errs :
  String.prefix p q = true -> below_path q errs -> below_path p errs.
Proof.
  intros Hpq H. eapply Forall_impl; [| exact H]. cbv beta. intros e He.
  eapply prefix_trans; eassumption.
Qed.

Lemma below_path_here p m : below_path p [{| message := m; path := p |}].
Proof. repeat constructor. cbn [path]. apply prefix_refl. Qed.

Lemma below_path_nil p : below_path p [].
Proof. constructor. Qed.

Local Hint Resolve below_path_here below_path_nil below_path_app : paths.

Lemma missing_required_below required fs p :
  below_path p (missing_required required fs p).
Proof.
  destruct required as [req |]; [| constructor]. unfold missing_required.
  induction req as [| field req IH]; [constructor |]. cbn [flat_map].
  apply below_path_app; [| exact IH].
  destruct (has_property field fs); [constructor |].
  repeat constructor. unfold missing_error. cbn [path]. apply prefix_append.
Qed.

Lemma too_few_below minItems len p : below_path p (too_few minItems len p).
Proof.
  unfold too_few. destruct minItems as [m |]; [| constructor].
  destruct (negb (Nat.eqb m 0) && Nat.ltb len m); [| constructor].
  apply below_path_here.
Qed.

Lemma too_many_below maxItems len p : below_path p (too_many maxItems len p).
Proof.
  unfold too_many. destruct maxItems as [m |]; [| constructor].
  destruct (negb (Nat.eqb m 0) && Nat.ltb m len); auto with paths.
Qed.

Lemma not_in_enum_below obj enum p : below_path p (not_in_enum obj enum p).
Proof.
  unfold not_in_enum. destruct enum as [allowed |]; [| constructor].
  match goal with |- context [if ?c then _ else _] => destruct c end;
    auto with paths.
Qed.

Lemma below_below obj minimum p errs :
  below engine_to_number number_to_string obj minimum p = Returns errs ->
  below_path p errs.
Proof.
  unfold below. destruct minimum as [m |]; [| intros [= <-]; constructor].
  destruct (to_number engine_to_number (Some obj)) as [n | e]; [| discriminate].
  cbn [bind]. intros [= <-]. destruct (PrimFloat.ltb n m); auto with paths.
Qed.

Lemma above_below obj maximum p errs :
  above engine_to_number number_to_string obj maximum p = Returns errs ->
  below_path p errs.
Proof.
  unfold above. destruct maximum as [m |]; [| intros [= <-]; constructor].
  destruct (to_number engine_to_number (Some obj)) as [n | e]; [| discriminate].
  cbn [bind]. intros [= <-]. destruct (PrimFloat.ltb m n); auto with paths.
Qed.

(** The branches of [validate] that do not descend into the value. *)
Lemma validate_leaf_below obj objSchema p errs :
  match objSchema, obj with
  | SObject _ _, VObj _ | SArray _ _ _, VArr _ _ => False
  | _, _ => True
  end ->
  validate' obj objSchema p = Returns errs ->
  below_path p errs.
Proof.
  intros Hleaf H.
  destruct objSchema as [req props | mi ma its | enum | mn mx | | types |].
  - destruct obj; try contradiction; injection H as <-; auto with paths.
  - destruct obj; try contradiction; injection H as <-; auto with paths.
  - assert (E : validate' obj (SString enum) p =
                Returns (not_a_string obj p ++ not_in_enum obj enum p)%list)
      by (destruct obj; reflexivity).
    rewrite E in H. injection H as <-.
    apply below_path_app; [| apply not_in_enum_below].
    destruct obj; cbn [not_a_string]; auto with paths.
  - assert (E : validate' obj (SNumber mn mx) p =
                (e2 <- below engine_to_number number_to_string obj mn p ;;
                 e3 <- above engine_to_number number_to_string obj mx p ;;
                 Returns (not_a_number obj p ++ e2 ++ e3)%list))
      by (destruct obj; reflexivity).
    rewrite E in H. clear E.
    destruct (below engine_to_number number_to_string obj mn p) as [e2 | ?] eqn:E2;
      [| discriminate].
    destruct (above engine_to_number number_to_string obj mx p) as [e3 | ?] eqn:E3;
      [| discriminate].
    cbn [bind] in H. injection H as <-.
    repeat apply below_path_app; eauto using below_below, above_below.
    destruct obj; cbn [not_a_number]; auto with paths.
  - assert (E : validate' obj SBoolean p = Returns (not_a_boolean obj p))
      by (destruct obj; reflexivity).
    rewrite E in H. injection H as <-.
    destruct obj; cbn [not_a_boolean]; auto with paths.
  - assert (E : validate' obj (SUnion types) p =
                Returns (if existsb (has_type obj) types then []
                         else [{| message := "Expected one of types: "
                                               ++ String.concat ", " types;
                                  path := p |}]))
      by (destruct obj; reflexivity).
    rewrite E in H. injection H as <-.
    destruct (existsb (has_type obj) types); auto with paths.
  - assert (E : validate' obj SOther p = Returns []) by (destruct obj; reflexivity).
    rewrite E in H. injection H as <-. constructor.
Qed.

Lemma validate_below obj :
  forall objSchema p errs,
    validate' obj objSchema p = Returns errs -> below_path p errs.
Proof.
  induction obj as [| b | n | s | items props IHitems _ | fs IHfs]
    using value_induction; intros objSchema p errs H;
    try (eapply validate_leaf_below; [| exact H]; destruct objSchema; exact I).
  - destruct objSchema as [req ps | mi ma its | | | | |];
      try (eapply validate_leaf_below; [| exact H]; exact I).
    rewrite validate_array in H.
    destruct (validate_elements' its p items) as [rest |] eqn:E; [| discriminate].
    cbn [bind] in H. injection H as <-.
    repeat apply below_path_app; auto using too_few_below, too_many_below.
    destruct its as [itemSchema |]; [| injection E as <-; constructor].
    unfold validate_elements in E. revert E. generalize 0 as i. revert rest.
    induction IHitems as [| item items IHitem _ IH]; intros rest i E.
    + injection E as <-. constructor.
    + cbn [validate_items] in E.
      destruct (validate' item itemSchema (p ++ "[" ++ string_of_nat i ++ "]"))
        as [e1 |] eqn:E1; [| discriminate].
      destruct (validate_items' itemSchema p (S i) items) as [e2 |] eqn:E2;
        [| discriminate].
      cbn [bind] in E. injection E as <-.
      apply below_path_app; [| eapply IH; first [exact E2 | reflexivity]].
      eapply below_path_deeper; [| eapply IHitem; exact E1].
      apply prefix_append.
  - destruct objSchema as [req ps | mi ma its | | | | |];
      try (eapply validate_leaf_below; [| exact H]; exact I).
    rewrite validate_object in H.
    destruct (validate_entries' ps p fs) as [rest |] eqn:E; [| discriminate].
    cbn [bind] in H. injection H as <-.
    apply below_path_app; [apply missing_required_below |].
    revert rest E.
    induction IHfs as [| [key v] fs IHv _ IH]; intros rest E.
    + injection E as <-. constructor.
    + cbn [validate_entries] in E.
      destruct (property_schema key ps) as [fieldSchema |]; [| eauto].
      destruct (validate' v fieldSchema (p ++ "." ++ key)) as [e1 |] eqn:E1;
        [| discriminate].
      destruct (validate_entries' ps p fs) as [e2 |] eqn:E2; [| discriminate].
      cbn [bind] in E. injection E as <-.
      apply below_path_app; [| eapply IH; first [exact E2 | reflexivity]].
      eapply below_path_deeper; [| eapply IHv; exact E1].
      apply prefix_append.
Qed.

(** *** Every error lies at the path that was validated or further along *)










(** *** Arrays shorter than [minItems] *)

Lemma validate_items_deeper itemSchema p l :
  forall i rest,
    validate_items' itemSchema p i l = Returns rest ->
    Forall (fun e => String.length p < String.length (path e)) rest.
Proof.
  induction l as [| item l IH]; intros i rest E.
  - injection E as <-. constructor.
  - cbn [validate_items] in E.
    destruct (validate' item itemSchema (p ++ "[" ++ string_of_nat i ++ "]"))
      as [e1 |] eqn:E1; [| discriminate].
    destruct (validate_items' itemSchema p (S i) l) as [e2 |] eqn:E2;
      [| discriminate].
    cbn [bind] in E. injection E as <-.
    apply Forall_app. split; [| eapply IH; exact E2].
    apply validate_below in E1.
    eapply Forall_impl; [| exact E1]. cbv beta. intros e He.
    apply prefix_length in He. rewrite length_append in He. cbn in He. lia.
Qed.

Lemma filter_none {A : Type} (f : A -> bool) (l : list A) :
  Forall (fun a => f a = false) l -> filter f l = [].
Proof.
  induction 1 as [| a l Ha _ IH]; [reflexivity |]. cbn. now rewrite Ha.
Qed.

Lemma same_error_refl e : same_error e e = true.
Proof. unfold same_error. now rewrite !String.eqb_refl. Qed.

Lemma same_error_longer e e' :
  String.length (path e) < String.length (path e') -> same_error e e' = false.
Proof.
  intros H. unfold same_error.
  destruct (String.eqb_spec (path e) (path e')) as [E | _];
    [rewrite E in H; lia | apply andb_false_r].
Qed.



(** *** The errors of a value inside a document *)















(** *** Required keys *)

Lemma In_missing_required field required fs p :
  In field required ->
  has_property field fs = false ->
  In (missing_error field p) (missing_required (Some required) fs p).
Proof.
  intros Hin Habsent. unfold missing_required. apply in_flat_map.
  exists field. split; [exact Hin |]. rewrite Habsent. now left.
Qed.

Lemma not_inherited field :
  ~ In field object_prototype_names ->
  existsb (String.eqb field) object_prototype_names = false.
Proof.
  intros H. destruct (existsb (String.eqb field) object_prototype_names) eqn:E;
    [| reflexivity].
  apply existsb_exists in E. destruct E as [name [Hin Heq]].
  apply String.eqb_eq in Heq. subst. contradiction.
Qed.

(** C8, as amended.  On an object, a required key that is neither an own
    property of the value nor a name every object inherits from
    [Object.prototype] is reported by an error whose path is the parent
    path extended with the key; the run returns exactly when the run
    over the entries of the value does. *)
Theorem missing_required_key_reported :
  forall fs required properties p field,
    In field required ->
    lookup field fs = None ->
    ~ In field object_prototype_names ->
    returns (validate' (VObj fs) (SObject (Some required) properties) p)
    = returns (validate_entries' properties p fs)
    /\ forall errs,
        validate' (VObj fs) (SObject (Some required) properties) p = Returns errs ->
        In {| message := "Missing required field: " ++ field;
              path := p ++ "." ++ field |} errs.
Proof.
  intros fs required properties p field Hin Hown Hproto.
  rewrite validate_object.
  destruct (validate_entries' properties p fs) as [rest |]; cbn [bind returns];
    split; try reflexivity; try discriminate.
  intros errs [= <-]. apply in_or_app. left.
  apply (In_missing_required field required fs p Hin).
  unfold has_property. rewrite Hown. apply not_inherited. exact Hproto.
Qed.

(** *** Paths, bounds and properties the schema does not name *)

(** X1.  [valid] is [true] exactly when no error was pushed, and every
    error carries a path that starts with [root]. *)
Theorem validateJsonSchema_paths_rooted :
  forall data schema_ validation,
    validateJsonSchema engine_to_number number_to_string data schema_
    = Returns validation ->
    (valid validation = true <-> errors validation = [])
    /\ Forall (fun e => String.prefix "root" (path e) = true) (errors validation).
Proof.
  intros data schema_ validation H. unfold validateJsonSchema in H.
  destruct (validate' data schema_ "root") as [errs |] eqn:E; [| discriminate].
  cbn [bind] in H. injection H as <-. cbn [valid errors]. split.
  - destruct errs; cbn; split; intros; (reflexivity || discriminate).
  - exact (validate_below _ _ _ _ E).
Qed.

Lemma lookup_middle k key v (fs1 fs2 : fields) :
  k <> key -> lookup k (fs1 ++ (key, v) :: fs2)%list = lookup k (fs1 ++ fs2)%list.
Proof.
  intros Hne. induction fs1 as [| [k' v'] fs1 IH]; cbn [app lookup].
  - destruct (String.eqb_spec k key); [contradiction | reflexivity].
  - now rewrite IH.
Qed.

Lemma validate_entries_middle properties p key v (fs1 fs2 : fields) :
  property_schema key properties = None ->
  validate_entries' properties p (fs1 ++ (key, v) :: fs2)%list
  = validate_entries' properties p (fs1 ++ fs2)%list.
Proof.
  intros Hnone. induction fs1 as [| [k' v'] fs1 IH]; cbn [app validate_entries].
  - now rewrite Hnone.
  - now rewrite IH.
Qed.

(** X2.  A property the schema does not describe is neither validated nor
    reported, wherever it stands in the object: the run is the run on the
    object without it. *)
Theorem unknown_property_ignored :
  forall (fs1 fs2 : fields) key v required properties p,
    property_schema key properties = None ->
    ~ In key required ->
    validate engine_to_number number_to_string
      (VObj (fs1 ++ (key, v) :: fs2)%list) (SObject (Some required) properties) p
    = validate engine_to_number number_to_string
        (VObj (fs1 ++ fs2)%list) (SObject (Some required) properties) p.
Proof.
  intros fs1 fs2 key v required properties p Hnone Hfree.
  rewrite !validate_object, (validate_entries_middle _ _ _ _ _ _ Hnone).
  assert (Hmissing : missing_required (Some required) (fs1 ++ (key, v) :: fs2)%list p
                     = missing_required (Some required) (fs1 ++ fs2)%list p).
  { unfold missing_required.
    induction required as [| name required IH]; [reflexivity |].
    cbn [flat_map]. rewrite IH by (intros Hin; apply Hfree; now right).
    unfold has_property. rewrite lookup_middle; [reflexivity |].
    intros ->. apply Hfree. now left. }
  now rewrite Hmissing.
Qed.

(** X3.  A [minItems] or [maxItems] of 0 is falsy in the test that guards
    the bound, so it is not enforced: the run is the one without bounds,
    and an array of any length passes [maxItems: 0]. *)
Theorem zero_bounds_not_enforced :
  forall obj items p,
    validate engine_to_number number_to_string obj (SArray (Some 0) (Some 0) items) p
    = validate engine_to_number number_to_string obj (SArray None None items) p.
Proof.
  intros obj items p. destruct obj; reflexivity.
Qed.

(** X4.  An array with more elements than a [maxItems] other than 0: the
    error "Array must have at most N items" at the path of the array
    occurs exactly once among the errors. *)
Theorem array_above_maxItems_reported_once :
  forall elements props minItems m items p errs,
    0 < m -> m < List.length elements ->
    validate engine_to_number number_to_string
      (VArr elements props) (SArray minItems (Some m) items) p = Returns errs ->
    filter (same_error {| message := "Array must have at most " ++ string_of_nat m
                                       ++ " items";
                          path := p |}) errs
    = [{| message := "Array must have at most " ++ string_of_nat m ++ " items";
          path := p |}].
Proof.
  intros elements props minItems m items p errs Hpos Hlen H.
  assert (Hmany : too_many (Some m) (List.length elements) p
                  = [{| message := "Array must have at most " ++ string_of_nat m
                                     ++ " items";
                        path := p |}]).
  { unfold too_many.
    replace (Nat.eqb m 0) with false by (symmetry; apply Nat.eqb_neq; lia).
    replace (Nat.ltb m (List.length elements)) with true
      by (symmetry; apply Nat.ltb_lt; lia).
    reflexivity. }
  rewrite validate_array, Hmany in H.
  destruct (validate_elements' items p elements) as [rest |] eqn:E; [| discriminate].
  cbn [bind] in H. injection H as <-. rewrite !filter_app.
  assert (Hfew : filter (same_error {| message := "Array must have at most "
                                                    ++ string_of_nat m ++ " items";
                                       path := p |})
                   (too_few minItems (List.length elements) p) = []).
  { unfold too_few. destruct minItems as [mn |]; [| reflexivity].
    destruct (negb (Nat.eqb mn 0) && Nat.ltb (List.length elements) mn);
      reflexivity. }
  rewrite Hfew. cbn [app filter]. rewrite same_error_refl. f_equal.
  apply filter_none.
  destruct items as [itemSchema |]; [| injection E as <-; constructor].
  apply validate_items_deeper in E.
  eapply Forall_impl; [| exact E]. cbv beta. intros e He.
  apply same_error_longer. exact He.
Qed.

(** X5.  The number schema of the four scores passes exactly the values
    the range test of the normalizer keeps. *)
Theorem score_schema_accepts_in_range :
  forall obj p,
    validate engine_to_number number_to_string obj score_schema p = Returns []
    <-> in_range (Some obj) = true.
Proof.
  intros obj p. unfold score_schema.
  assert (E : validate' obj (SNumber (Some 0%float) (Some 10%float)) p =
              (e2 <- below engine_to_number number_to_string obj (Some 0%float) p ;;
               e3 <- above engine_to_number number_to_string obj (Some 10%float) p ;;
               Returns (not_a_number obj p ++ e2 ++ e3)%list))
    by (destruct obj; reflexivity).
  rewrite E. clear E. split.
  - destruct obj as [| b | n | s | items props | fs];
      try (intros H;
           destruct (below engine_to_number number_to_string _ (Some 0%float) p);
           [| discriminate];
           destruct (above engine_to_number number_to_string _ (Some 10%float) p);
           discriminate).
    cbn [below above to_number bind not_a_number app in_range].
    destruct (PrimFloat.ltb n 0); [discriminate |].
    destruct (PrimFloat.ltb 10 n); [discriminate | reflexivity].
  - destruct obj as [| b | n | s | items props | fs]; try discriminate.
    cbn [below above to_number bind not_a_number app in_range].
    intros H. apply andb_prop in H. destruct H as [Hlow Hhigh].
    apply negb_true_iff in Hlow, Hhigh. now rewrite Hlow, Hhigh.
Qed.

End ValidatorProperties.

(** C8, as stated, fails on a required key that objects inherit: the empty
    object has no own property [toString], yet no error is reported. *)
Lemma inherited_required_key_not_reported :
  In "toString" ["toString"]
  /\ lookup "toString" [] = None
  /\ validate idle_to_number idle_number_to_string
       (VObj []) (SObject (Some ["toString"]) None) "root" = Returns [].
Proof. repeat split. now left. Qed.

(** A document without [pontuacaoGeral], validated against ANALYSIS_SCHEMA,
    has an error at [root.pontuacaoGeral]. *)
Lemma missing_required_key_reported_witness :
  exists errs,
    validate idle_to_number idle_number_to_string
      (VObj [("schemaVersion", VStr "v6")]) ANALYSIS_SCHEMA "root" = Returns errs
    /\ In {| message := "Missing required field: pontuacaoGeral";
             path := "root.pontuacaoGeral" |} errs.
Proof.
  eexists. split; [reflexivity |].
  apply (missing_required_key_reported idle_to_number idle_number_to_string
           [("schemaVersion", VStr "v6")]
           ["schemaVersion"; "pontuacaoGeral"; "jobToBeDone"; "tomDeVoz";
            "experiencia"; "prioridadesTop3"]
           (Some [("schemaVersion", SString (Some ["v6"]));
                  ("pontuacaoGeral", score_schema);
                  ("objetivoInferido", string_schema);
                  ("jobToBeDone", jobToBeDone_schema);
                  ("tomDeVoz", tomDeVoz_schema);
                  ("experiencia", experiencia_schema);
                  ("prioridadesTop3", SArray (Some 1) (Some 3) (Some prioridade_schema))])
           "root" "pontuacaoGeral").
  - cbn. tauto.
  - reflexivity.
  - cbn. intuition discriminate.
  - reflexivity.
Defined.


(** A document with a score out of range and a property the schema does
    not name. *)
Lemma validateJsonSchema_paths_rooted_witness :
  exists validation,
    validateJsonSchema idle_to_number idle_number_to_string
      (VObj [("pontuacaoGeral", VNum 11); ("rascunho", VBool true)])
      ANALYSIS_SCHEMA = Returns validation
    /\ (valid validation = true <-> errors validation = [])
    /\ Forall (fun e => String.prefix "root" (path e) = true) (errors validation)
    /\ In {| message := "Value must be <= "; path := "root.pontuacaoGeral" |}
         (errors validation).
Proof.
  eexists. split; [reflexivity |].
  destruct (validateJsonSchema_paths_rooted idle_to_number idle_number_to_string
              (VObj [("pontuacaoGeral", VNum 11); ("rascunho", VBool true)])
              ANALYSIS_SCHEMA _ eq_refl) as [Hvalid Hpaths].
  split; [exact Hvalid |]. split; [exact Hpaths |]. cbn. tauto.
Defined.

Lemma unknown_property_ignored_witness :
  validate idle_to_number idle_number_to_string
    (VObj ([("resumo", VStr "a")] ++ ("rascunho", VNum 1) :: [("motivo", VStr "b")])%list)
    prioridade_schema "root.prioridadesTop3[0]"
  = Returns [].
Proof.
  unfold prioridade_schema.
  rewrite (unknown_property_ignored idle_to_number idle_number_to_string
             [("resumo", VStr "a")] [("motivo", VStr "b")] "rascunho" (VNum 1)
             ["resumo"; "motivo"]
             (Some [("resumo", string_schema); ("motivo", string_schema)])
             "root.prioridadesTop3[0]").
  - reflexivity.
  - reflexivity.
  - cbn. intuition discriminate.
Defined.

Lemma array_above_maxItems_reported_once_witness :
  exists errs,
    validate idle_to_number idle_number_to_string
      (VArr [VStr "a"; VStr "b"; VStr "c"] [])
      (SArray None (Some 2) (Some string_schema)) "root.lista" = Returns errs
    /\ filter (same_error {| message := "Array must have at most 2 items";
                             path := "root.lista" |}) errs
       = [{| message := "Array must have at most 2 items"; path := "root.lista" |}].
Proof.
  eexists. split; [reflexivity |].
  apply (array_above_maxItems_reported_once idle_to_number idle_number_to_string
           [VStr "a"; VStr "b"; VStr "c"] [] None 2 (Some string_schema)
           "root.lista").
  - lia.
  - cbn. lia.
  - reflexivity.
Defined.

(** ** The prompt builder *)

Lemma get_substitution_plain matched before after replacement :
  no_dollar replacement = true ->
  get_substitution matched before after replacement = replacement.
Proof.
  induction replacement as [| c rest IH]; [reflexivity |].
  cbn [no_dollar]. intros H. apply andb_prop in H. destruct H as [Hc Hrest].
  specialize (IH Hrest).
  destruct (Ascii.eqb_spec c "$") as [-> | Hne]; [discriminate |].
  cbn [get_substitution].
  destruct c as [[] [] [] [] [] [] [] []]; try (now rewrite IH);
    exfalso; apply Hne; reflexivity.
Qed.

(** A value without a dollar sign replaces the first occurrence of the
    token as it is. *)
Lemma replace_plain pattern replacement s before after :
  no_dollar replacement = true ->
  split_at_first pattern s = Some (before, after) ->
  replace pattern replacement s = before ++ replacement ++ after.
Proof.
  intros Hplain Hsplit. unfold replace. rewrite Hsplit.
  now rewrite get_substitution_plain.
Qed.

(** A token that does not occur leaves the text as it is. *)
Lemma replace_absent pattern replacement s :
  split_at_first pattern s = None ->
  replace pattern replacement s = s.
Proof. intros H. unfold replace. now rewrite H. Qed.

(** C9.  The supplied value is not what replaces the token when it holds a
    dollar pattern: [$$] in the context comes out as a single [$], and [$&]
    brings the token back; and a token inside a value that was substituted
    earlier is replaced in place of the one of the template. *)
Theorem buildPrompt_dollar_patterns :
  buildPrompt
    {| system_prompt := ""; prompt_template := "Contexto: {{CONTEXT}} | Objetivo: {{JTBD}}" |}
    {| voice_principles := "v"; rules := "r" |}
    {| context := "CTA 'Economize $$ 10'"; jtbd := "comprar"; image := "i" |}
  = "Contexto: CTA 'Economize $ 10' | Objetivo: comprar"
  /\ buildPrompt
       {| system_prompt := ""; prompt_template := "Contexto: {{CONTEXT}} | Objetivo: {{JTBD}}" |}
       {| voice_principles := "v"; rules := "r" |}
       {| context := "campo $& vazio"; jtbd := "comprar"; image := "i" |}
     = "Contexto: campo {{CONTEXT}} vazio | Objetivo: comprar"
  /\ buildPrompt
       {| system_prompt := ""; prompt_template := "Contexto: {{CONTEXT}} | Objetivo: {{JTBD}}" |}
       {| voice_principles := "v"; rules := "r" |}
       {| context := "texto {{JTBD}}"; jtbd := "comprar"; image := "i" |}
     = "Contexto: texto comprar | Objetivo: {{JTBD}}".
Proof. repeat split. Qed.

(** A token that occurs nowhere else is found where it stands. *)
Lemma prefix_false_on_other_head c token rest :
  c <> "{"%char -> String.prefix (String "{" token) (String c rest) = false.
Proof.
  intros Hne. cbn [String.prefix].
  destruct (ascii_dec "{" c) as [E | _]; [congruence | reflexivity].
Qed.

Lemma substring_after_prefix a b :
  String.substring (String.length a) (String.length (a ++ b) - String.length a)
    (a ++ b) = b.
Proof.
  rewrite length_append. replace (String.length a + String.length b
                                  - String.length a) with (String.length b) by lia.
  induction a as [| c a IH]; cbn [String.length String.append String.substring].
  - induction b as [| c b IH]; cbn [String.length String.substring];
      [reflexivity | now rewrite IH].
  - exact IH.
Qed.

Lemma split_at_first_found a token b :
  no_brace a = true ->
  split_at_first (String "{" token) (a ++ String "{" token ++ b) = Some (a, b).
Proof.
  intros Ha. induction a as [| c a IH].
  - cbn [String.append].
    change (String "{" (token ++ b)) with (String "{" token ++ b).
    destruct (String "{" token ++ b) as [| c' rest'] eqn:E; [discriminate |].
    cbn [split_at_first]. rewrite <- E, prefix_append.
    now rewrite substring_after_prefix.
  - cbn [no_brace] in Ha. apply andb_prop in Ha. destruct Ha as [Hc Ha].
    apply negb_true_iff in Hc. apply Ascii.eqb_neq in Hc.
    cbn [String.append split_at_first].
    rewrite (prefix_false_on_other_head c token _ Hc).
    change (a ++ String "{" (token ++ b)) with (a ++ String "{" token ++ b).
    now rewrite (IH Ha).
Qed.

Lemma no_brace_append a b :
  no_brace a = true -> no_brace b = true -> no_brace (a ++ b) = true.
Proof.
  intros Ha Hb. induction a as [| c a IH]; [exact Hb |].
  cbn [no_brace String.append] in *. apply andb_prop in Ha.
  destruct Ha as [Hc Ha]. now rewrite Hc, IH.
Qed.

Lemma replace_found a token b replacement s :
  s = a ++ String "{" token ++ b ->
  no_brace a = true -> no_dollar replacement = true ->
  replace (String "{" token) replacement s = a ++ replacement ++ b.
Proof.
  intros -> Ha Hr. apply replace_plain; [exact Hr |].
  now apply split_at_first_found.
Qed.

(** X6.  With a template that names the four tokens once, in the order in
    which they are replaced, and has no other brace, values without [$]
    and without a brace are inserted as they are, each in the place of its
    token. *)
Theorem buildPrompt_inserts_plain_values :
  forall t0 t1 t2 t3 t4 system brandManual requestBody,
    no_brace t0 = true -> no_brace t1 = true -> no_brace t2 = true ->
    no_brace t3 = true ->
    no_dollar (context requestBody) = true -> no_brace (context requestBody) = true ->
    no_dollar (jtbd requestBody) = true -> no_brace (jtbd requestBody) = true ->
    no_dollar (voice_principles brandManual) = true ->
    no_brace (voice_principles brandManual) = true ->
    no_dollar (rules brandManual) = true ->
    buildPrompt
      {| system_prompt := system;
         prompt_template :=
           t0 ++ "{{CONTEXT}}" ++ t1 ++ "{{JTBD}}" ++ t2
              ++ "{{VOICE_PRINCIPLES}}" ++ t3 ++ "{{RULES}}" ++ t4 |}
      brandManual requestBody
    = t0 ++ context requestBody ++ t1 ++ jtbd requestBody ++ t2
         ++ voice_principles brandManual ++ t3 ++ rules brandManual ++ t4.
Proof.
  intros t0 t1 t2 t3 t4 system brandManual requestBody
         H0 H1 H2 H3 Hcd Hcb Hjd Hjb Hvd Hvb Hrd.
  unfold buildPrompt. cbn [prompt_template].
  rewrite (replace_found t0 "{CONTEXT}}"
             (t1 ++ "{{JTBD}}" ++ t2 ++ "{{VOICE_PRINCIPLES}}" ++ t3
                 ++ "{{RULES}}" ++ t4)
             (context requestBody)) by (reflexivity || assumption).
  rewrite (replace_found (t0 ++ context requestBody ++ t1) "{JTBD}}"
             (t2 ++ "{{VOICE_PRINCIPLES}}" ++ t3 ++ "{{RULES}}" ++ t4)
             (jtbd requestBody))
    by (now rewrite !append_assoc || auto using no_brace_append).
  rewrite (replace_found (t0 ++ context requestBody ++ t1 ++ jtbd requestBody ++ t2)
             "{VOICE_PRINCIPLES}}" (t3 ++ "{{RULES}}" ++ t4)
             (voice_principles brandManual))
    by (now rewrite !append_assoc || auto 10 using no_brace_append).
  rewrite (replace_found
             (t0 ++ context requestBody ++ t1 ++ jtbd requestBody ++ t2
                 ++ voice_principles brandManual ++ t3)
             "{RULES}}" t4 (rules brandManual))
    by (now rewrite !append_assoc || auto 12 using no_brace_append).
  now rewrite !append_assoc.
Qed.

(** X7.  A template that names none of the four tokens is returned as it
    is: the context, the job to be done and the brand manual are left out. *)
Theorem buildPrompt_without_tokens :
  forall aiConfig brandManual requestBody,
    split_at_first "{{CONTEXT}}" (prompt_template aiConfig) = None ->
    split_at_first "{{JTBD}}" (prompt_template aiConfig) = None ->
    split_at_first "{{VOICE_PRINCIPLES}}" (prompt_template aiConfig) = None ->
    split_at_first "{{RULES}}" (prompt_template aiConfig) = None ->
    buildPrompt aiConfig brandManual requestBody = prompt_template aiConfig.
Proof.
  intros aiConfig brandManual requestBody Hc Hj Hv Hr. unfold buildPrompt.
  rewrite (replace_absent _ _ _ Hc), (replace_absent _ _ _ Hj),
    (replace_absent _ _ _ Hv).
  now apply replace_absent.
Qed.

Lemma buildPrompt_inserts_plain_values_witness :
  buildPrompt
    {| system_prompt := "s";
       prompt_template :=
         "Contexto: " ++ "{{CONTEXT}}" ++ " | Objetivo: " ++ "{{JTBD}}"
           ++ " | Voz: " ++ "{{VOICE_PRINCIPLES}}" ++ " | Regras: " ++ "{{RULES}}"
           ++ " | Responda em JSON." |}
    {| voice_principles := "proxima"; rules := "sem gerundio" |}
    {| context := "Tela de login"; jtbd := "entrar na conta"; image := "i" |}
  = "Contexto: Tela de login | Objetivo: entrar na conta | Voz: proxima | Regras: sem gerundio | Responda em JSON.".
Proof.
  apply (buildPrompt_inserts_plain_values "Contexto: " " | Objetivo: " " | Voz: "
           " | Regras: " " | Responda em JSON." "s"
           {| voice_principles := "proxima"; rules := "sem gerundio" |}
           {| context := "Tela de login"; jtbd := "entrar na conta"; image := "i" |});
    reflexivity.
Defined.

Lemma buildPrompt_without_tokens_witness :
  buildPrompt {| system_prompt := "s"; prompt_template := "Analise a tela." |}
    {| voice_principles := "proxima"; rules := "sem gerundio" |}
    {| context := "Tela de login"; jtbd := "entrar na conta"; image := "i" |}
  = "Analise a tela.".
Proof.
  apply (buildPrompt_without_tokens
           {| system_prompt := "s"; prompt_template := "Analise a tela." |});
    reflexivity.
Defined.

(** ** The completion service *)

(** X8.  Preparing the url of a prepared image changes nothing; unless the
    image type is [url], the url begins with [http] or with [data:]; and
    an image whose text begins with [http] is passed on as a url whatever
    the image type says. *)
Theorem prepareImageContent_settled :
  forall image imageType,
    OpenAIService.prepareImageContent
      (ImageContent.url (OpenAIService.prepareImageContent image imageType))
      imageType
    = OpenAIService.prepareImageContent image imageType
    /\ (imageType <> Some "url" ->
        String.prefix "http"
          (ImageContent.url (OpenAIService.prepareImageContent image imageType))
        = true
        \/ String.prefix "data:"
             (ImageContent.url (OpenAIService.prepareImageContent image imageType))
           = true)
    /\ (String.prefix "http" image = true ->
        ImageContent.url (OpenAIService.prepareImageContent image imageType) = image).
Proof.
  intros image imageType.
  assert (Hnot : forall rest, String.prefix "http" ("data:image/" ++ rest) = false)
    by reflexivity.
  assert (Huri : forall rest, String.prefix "data:" ("data:image/" ++ rest) = true)
    by (intros rest; cbn; now destruct rest).
  unfold OpenAIService.prepareImageContent.
  destruct imageType as [t |];
    [destruct (String.eqb_spec t "url") as [-> | Hne] |];
    destruct (String.prefix "http" image) eqn:Ehttp;
    destruct (String.prefix "data:" image) eqn:Edata;
    cbn [orb ImageContent.url]; rewrite ?Ehttp, ?Edata, ?Hnot, ?Huri;
    cbn [orb ImageContent.url];
    (split; [reflexivity |]); (split; [| first [reflexivity | discriminate]]);
    intros Hurl; first [congruence | auto].
Qed.

Lemma prepareImageContent_settled_witness :
  ImageContent.url (OpenAIService.prepareImageContent "iVBORw0KGgo=" (Some "png"))
  = "data:image/png;base64,iVBORw0KGgo="
  /\ String.prefix "data:"
       (ImageContent.url (OpenAIService.prepareImageContent "iVBORw0KGgo=" (Some "png")))
     = true
  /\ ImageContent.url (OpenAIService.prepareImageContent "httpAAAA" (Some "base64"))
     = "httpAAAA".
Proof.
  split; [reflexivity |].
  destruct (prepareImageContent_settled "iVBORw0KGgo=" (Some "png")) as [_ [Huri _]].
  destruct (prepareImageContent_settled "httpAAAA" (Some "base64")) as [_ [_ Hhttp]].
  split.
  - destruct (Huri ltac:(discriminate)) as [H | H]; [discriminate H | exact H].
  - apply Hhttp. reflexivity.
Defined.

(** X9.  The text taken from a completion is the empty string or a truthy
    value, never [null], [false] or 0; it is the empty string when there
    is no choice; and the call throws exactly when the completion has no
    [choices], or a [choices] that is [null]. *)
Theorem extractAnalysisResult_empty_or_truthy :
  forall completion,
    (forall content,
        OpenAIService.extractAnalysisResult completion = Returns content ->
        content = VStr "" \/ truthy (Some content) = true)
    /\ (forall props,
           get_named completion "choices" = Some (VArr [] props) ->
           OpenAIService.extractAnalysisResult completion = Returns (VStr ""))
    /\ (returns (OpenAIService.extractAnalysisResult completion) = false
        <-> get_named completion "choices" = None
            \/ get_named completion "choices" = Some VNull).
Proof.
  intros completion.
  assert (Hshape :
            OpenAIService.extractAnalysisResult completion
            = match completion with
              | VNull => Throws (TypeError (ReadPropertyOfNull "choices"))
              | _ =>
                  match get_named completion "choices" with
                  | None | Some VNull => Throws (TypeError (ReadPropertyOfNull "0"))
                  | Some choices =>
                      Returns
                        (defaulted (VStr "")
                           (OpenAIService.get_named_opt
                              (OpenAIService.get_named_opt
                                 (OpenAIService.first_of choices) "message")
                              "content"))
                  end
              end).
  { unfold OpenAIService.extractAnalysisResult, defaulted.
    destruct completion; try reflexivity;
      (destruct (get_named _ "choices") as [[] |]; try reflexivity;
       match goal with
       | |- context [OpenAIService.get_named_opt ?o "content"] =>
           destruct (OpenAIService.get_named_opt o "content"); reflexivity
       end). }
  rewrite Hshape. clear Hshape.
  assert (Hdefaulted : forall o, defaulted (VStr "") o = VStr ""
                                 \/ truthy (Some (defaulted (VStr "") o)) = true).
  { intros [v |]; [| now left]. unfold defaulted.
    destruct (truthy (Some v)) eqn:E; [right; exact E | now left]. }
  split; [| split].
  - intros content.
    destruct completion; try discriminate;
      (destruct (get_named _ "choices") as [[] |]; try discriminate;
       intros [= <-]; first [apply Hdefaulted | now left]).
  - intros props H.
    destruct completion; try discriminate; rewrite H; reflexivity.
  - destruct completion as [| b | n | s | items props | fs];
      cbn [get_named returns]; try (split; auto; fail).
    + destruct (lookup "choices" props) as [[] |]; cbn [returns];
        split; intros H; try reflexivity; try discriminate; auto;
        destruct H as [H | H]; discriminate.
    + destruct (lookup "choices" fs) as [[] |]; cbn [returns];
        split; intros H; try reflexivity; try discriminate; auto;
        destruct H as [H | H]; discriminate.
Qed.

(** A completion with one choice, one whose first choice was refused (its
    content is [null]), and one without [choices]. *)
Lemma extractAnalysisResult_empty_or_truthy_witness :
  OpenAIService.extractAnalysisResult
    (VObj [("id", VStr "c1");
           ("choices",
            VArr [VObj [("message", VObj [("content", VStr "{}")])]] [])])
  = Returns (VStr "{}")
  /\ OpenAIService.extractAnalysisResult
       (VObj [("choices",
               VArr [VObj [("message", VObj [("content", VNull)])]] [])])
     = Returns (VStr "")
  /\ OpenAIService.extractAnalysisResult (VObj [("choices", VArr [] [])])
     = Returns (VStr "")
  /\ returns (OpenAIService.extractAnalysisResult (VObj [("id", VStr "c1")])) = false.
Proof.
  split; [reflexivity |]. split; [reflexivity |].
  destruct (extractAnalysisResult_empty_or_truthy (VObj [("choices", VArr [] [])]))
    as [_ [Hnone _]].
  destruct (extractAnalysisResult_empty_or_truthy (VObj [("id", VStr "c1")]))
    as [_ [_ Hthrows]].
  split.
  - apply (Hnone []). reflexivity.
  - apply Hthrows. left. reflexivity.
Defined.

(** ** The orchestrator and the stream *)

Lemma lifecycle_shape (l : list stream_action) :
  lifecycle l <->
  exists ps t, forallb is_progress ps = true /\ is_terminal t = true
               /\ l = (map Write ps ++ [Write t; Close])%list.
Proof.
  split.
  - induction 1 as [step msg rest _ [ps [t [Hps [Ht ->]]]] | v | e].
    + exists (progress step msg :: ps), t. repeat split; assumption.
    + exists [], (result v). repeat split.
    + exists [], (error e). repeat split.
  - intros [ps [t [Hps [Ht ->]]]]. induction ps as [| m ps IH].
    + destruct t; try discriminate; constructor.
    + cbn in Hps. apply andb_prop in Hps. destruct Hps as [Hm Hps].
      destruct m; try discriminate. cbn. constructor. auto.
Qed.

(** *** The helpers of the stream *)

(** X10.  [closeWriter] never throws, whatever the state of the writer: it
    leaves the writer closed, the close reaches the stream only when the
    writer was open, and a second call changes nothing. *)
Theorem closeWriter_settles :
  forall w,
    exists after,
      closeWriter w = (Returns tt, after)
      /\ closed after = true
      /\ written after = (if closed w then written w
                          else (written w ++ [Close])%list)
      /\ closeWriter after = (Returns tt, after).
Proof.
  intros [[] l]; eexists; repeat split.
Qed.

(** X11.  [sendErrorResponse] ends the stream: it leaves the writer closed
    (on an open writer, after the error event and the close), and whatever
    is sent afterwards is rejected and adds nothing to the stream. *)
Theorem nothing_sent_after_error_response :
  forall e w,
    closed (snd (sendErrorResponse e w)) = true
    /\ (closed w = false ->
        sendErrorResponse e w
        = (Returns tt,
           {| closed := true;
              written := (written w ++ [Write (error e); Close])%list |}))
    /\ forall m,
        sendSSEMessage m (snd (sendErrorResponse e w))
        = (Throws (TypeError StreamClosed), snd (sendErrorResponse e w)).
Proof.
  intros e [[] l]; repeat split; try discriminate.
  intros _.
  unfold sendErrorResponse, sendSSEMessage, closeWriter, then_, try_catch,
    writer_write, writer_close, pure.
  cbn [closed written]. now rewrite <- app_assoc.
Qed.

Section OrchestratorProperties.

Variable engine_to_number : value -> outcome float.
Variable number_to_string : float -> string.

Local Abbreviation normalizeV6Data' := (normalizeV6Data engine_to_number).
Local Abbreviation validateJsonSchema' :=
  (validateJsonSchema engine_to_number number_to_string).
Local Abbreviation processAnalysis' :=
  (processAnalysis engine_to_number number_to_string).
Local Abbreviation processRequest' :=
  (processRequest engine_to_number number_to_string).
Local Abbreviation handleRequest' :=
  (handleRequest engine_to_number number_to_string).

Local Arguments normalizeV6Data : simpl never.
Local Arguments validateJsonSchema : simpl never.
Local Arguments String.append : simpl never.

Ltac run :=
  cbv beta iota zeta delta
    [processRequest processAnalysis try_finally try_catch then_ lift required_row
     sendErrorResponse sendProgressUpdate sendResult closeWriter sendSSEMessage
     writer_write writer_close throw pure closed written fst snd bind data
     failure createSSEResponse].

Ltac branch :=
  match goal with
  | |- context [match ?x with _ => _ end] =>
      lazymatch x with
      | context [match _ with _ => _ end] => fail
      | _ => first [is_var x; destruct x | destruct x eqn:?]
      end
  end;
  run.

(** Started on an open writer that has carried only progress events,
    [processAnalysis] returns normally, after a result on a writer still
    open or after an error on a closed writer. *)
Lemma processAnalysis_settles w requestBody before :
  exists events after,
    processAnalysis' w requestBody {| closed := false; written := before |}
    = (Returns tt, after)
    /\ written after = (before ++ events)%list
    /\ ((closed after = true /\ lifecycle events)
        \/ (closed after = false /\ lifecycle (events ++ [Close]))).
Proof.
  run. repeat branch.
  all: eexists; eexists; split; [reflexivity |].
  all: split; [repeat rewrite <- app_assoc; reflexivity |].
  all: cbn [app].
  all: first [left; split; [reflexivity |]; repeat constructor
             | right; split; [reflexivity |]; repeat constructor].
Qed.

Ltac run_request :=
  cbv beta iota zeta delta
    [processRequest try_finally try_catch then_ lift
     sendErrorResponse sendProgressUpdate sendResult closeWriter sendSSEMessage
     writer_write writer_close throw pure closed written fst snd bind
     createSSEResponse].

Lemma processRequest_settles w :
  exists after,
    processRequest' w createSSEResponse = (Returns tt, after)
    /\ closed after = true /\ lifecycle (written after).
Proof.
  run_request.
  destruct (services w); run_request;
    [| eexists; split; [reflexivity |]; split; [reflexivity |]; repeat constructor].
  destruct (json w) as [requestBody |]; run_request;
    [| eexists; split; [reflexivity |]; split; [reflexivity |]; repeat constructor].
  destruct (required_absent requestBody) as [[] |]; run_request;
    try (eexists; split; [reflexivity |]; split; [reflexivity |]; repeat constructor).
  match goal with
  | |- context [processAnalysis _ _ _ _ {| closed := false; written := ?b |}] =>
      destruct (processAnalysis_settles w requestBody b)
        as [events [[c l] [Hrun [Hlog Hshape]]]]
  end.
  rewrite Hrun. cbn [written closed] in Hlog, Hshape. subst l.
  destruct Hshape as [[-> Hlife] | [-> Hlife]]; run_request;
    (eexists; split; [reflexivity |]; split; [reflexivity |]); cbn [written app].
  - constructor. exact Hlife.
  - constructor. exact Hlife.
Qed.

(** C1.  When the model's answer parses to a document whose normal form
    still has validation errors, [processAnalysis] (on an open stream whose
    consumer keeps reading) sends its five progress events, then one error
    event whose payload has the code LLM_SCHEMA_VIOLATION and, as
    [details.errors], the whole list of errors in the validator's order,
    closes the stream, and sends no result. *)
Theorem schema_violation_reported :
  forall w requestBody before aiConfig brandManual analysisResult parsedResult
         normalizedData validation,
    getAIConfig w = Returns {| data := Some aiConfig; failure := None |} ->
    getBrandManual w = Returns {| data := Some brandManual; failure := None |} ->
    prepared w requestBody = Returns tt ->
    createCompletion w = Returns tt ->
    extractAnalysisResult w = Returns analysisResult ->
    analysisResult <> "" ->
    JSON_parse w analysisResult = Returns parsedResult ->
    normalizeV6Data' parsedResult = Returns normalizedData ->
    validateJsonSchema' normalizedData ANALYSIS_SCHEMA = Returns validation ->
    errors validation <> [] ->
    processAnalysis' w requestBody {| closed := false; written := before |}
    = (Returns tt,
       {| closed := true;
          written :=
            (before ++ analysis_progress
               ++ [Write (error
                            {| ErrorResponse.error :=
                                 "Erro de valida" ++ c_cedilla ++ a_tilde ++ "o do schema";
                               ErrorResponse.message := None;
                               ErrorResponse.code := Some "LLM_SCHEMA_VIOLATION";
                               ErrorResponse.details := Some (errors validation);
                               ErrorResponse.schema_version := Some "v6";
                               ErrorResponse.timestamp := None |});
                   Close])%list |}).
Proof.
  intros w requestBody before aiConfig brandManual analysisResult parsedResult
         normalizedData validation Hai Hbrand Hprep Hcall Htext Hnonempty Hparse
         Hnorm Hval Herrs.
  assert (Hvalid : valid validation = false).
  { unfold validateJsonSchema in Hval.
    destruct (validate engine_to_number number_to_string normalizedData
                ANALYSIS_SCHEMA "root") as [errs |]; [| discriminate].
    cbn [bind] in Hval. injection Hval as <-. cbn [valid errors] in *.
    destruct errs; [contradiction | reflexivity]. }
  run. rewrite Hai. run. rewrite Hbrand. run. rewrite Hprep. run.
  rewrite Hcall. run. rewrite Htext. run.
  destruct (String.eqb_spec analysisResult "") as [-> | _]; [contradiction |].
  run. rewrite Hparse. run. rewrite Hnorm. run. rewrite Hval. run.
  rewrite Hvalid. run.
  unfold analysis_progress, schema_violation.
  repeat rewrite <- app_assoc. reflexivity.
Qed.

(** A failure of the normalizer is caught by [processAnalysis] and reported
    by the generic analysis error, which carries no code. *)
Lemma normalizer_failure_reported w requestBody before aiConfig brandManual
      analysisResult parsedResult e :
  getAIConfig w = Returns {| data := Some aiConfig; failure := None |} ->
  getBrandManual w = Returns {| data := Some brandManual; failure := None |} ->
  prepared w requestBody = Returns tt ->
  createCompletion w = Returns tt ->
  extractAnalysisResult w = Returns analysisResult ->
  analysisResult <> "" ->
  JSON_parse w analysisResult = Returns parsedResult ->
  normalizeV6Data' parsedResult = Throws e ->
  processAnalysis' w requestBody {| closed := false; written := before |}
  = (Returns tt,
     {| closed := true;
        written :=
          (before ++ analysis_progress
             ++ [Write (error
                          {| ErrorResponse.error := "Erro na an" ++ a_acute ++ "lise";
                             ErrorResponse.message := Some (MessageOf e);
                             ErrorResponse.code := None;
                             ErrorResponse.details := None;
                             ErrorResponse.schema_version := None;
                             ErrorResponse.timestamp := Some (now w) |});
                 Close])%list |}).
Proof.
  intros Hai Hbrand Hprep Hcall Htext Hnonempty Hparse Hnorm.
  run. rewrite Hai. run. rewrite Hbrand. run. rewrite Hprep. run.
  rewrite Hcall. run. rewrite Htext. run.
  destruct (String.eqb_spec analysisResult "") as [-> | _]; [contradiction |].
  run. rewrite Hparse. run. rewrite Hnorm. run.
  unfold analysis_progress, analysis_failure.
  repeat rewrite <- app_assoc. reflexivity.
Qed.

(** C2, as amended.  A POST whose JSON body is an object without a truthy
    [context], [jtbd] or [image] is answered by the event stream (whose
    consumer keeps reading).  When the clients of the services were created,
    the stream carries the progress event [inicializando], then the error
    event for the missing parameters, and is closed; no progress event of
    the analysis is sent; the legacy handler answers such a body (without
    [context] or [image]) with a 400 JSON response and has no stream.  When
    creating the clients throws, the body is not read: the stream carries
    [inicializando], then the error event of an internal error, and is
    closed; the legacy handler answers 500. *)
Theorem missing_field_answer :
  forall w fs field,
    json w = Returns (VObj fs) ->
    truthy (lookup field fs) = false ->
    (services w = Returns tt ->
     (In field ["context"; "jtbd"; "image"] ->
      handleRequest' "POST" w
      = (SSEResponse,
         Some {| closed := true;
                 written :=
                   [Write (progress "inicializando" ("Iniciando an" ++ a_acute ++ "lise..."));
                    Write (error missing_parameters);
                    Close] |}))
     /\ (In field ["context"; "image"] ->
         forall analysis,
           legacy_serve "POST" w analysis
           = JSONResponse 400
               ("Par" ++ a_circumflex ++ "metros obrigat" ++ o_acute ++ "rios ausentes")
               (Literal ("Os campos 'context' e 'image' s" ++ a_tilde ++ "o obrigat"
                           ++ o_acute ++ "rios"))))
    /\ (forall e,
          services w = Throws e ->
          handleRequest' "POST" w
          = (SSEResponse,
             Some {| closed := true;
                     written :=
                       [Write (progress "inicializando" ("Iniciando an" ++ a_acute ++ "lise..."));
                        Write (error
                                 {| ErrorResponse.error := "Erro interno do servidor";
                                    ErrorResponse.message := Some (message_or_unknown e);
                                    ErrorResponse.code := None;
                                    ErrorResponse.details := None;
                                    ErrorResponse.schema_version := None;
                                    ErrorResponse.timestamp := Some (now w) |});
                        Close] |})
          /\ forall analysis,
              legacy_serve "POST" w analysis
              = JSONResponse 500 "Erro interno do servidor" (message_or_unknown e)).
Proof.
  intros w fs field Hjson Hfalsy. split.
  - intros Hservices. split.
    + intros Hin.
      assert (Habsent : required_absent (VObj fs) = Returns true).
      { unfold required_absent, get_named. f_equal.
        cbn [In] in Hin. destruct Hin as [<- | [<- | [<- | []]]]; rewrite Hfalsy;
          repeat match goal with
                 | |- context [truthy ?x] => destruct (truthy x)
                 end; reflexivity. }
      unfold handleRequest. cbn [String.eqb Ascii.eqb Bool.eqb negb snd].
      run_request. rewrite Hservices. run_request. rewrite Hjson. run_request.
      rewrite Habsent. run_request. reflexivity.
    + intros Hin analysis.
      assert (Habsent : legacy_required_absent (VObj fs) = Returns true).
      { unfold legacy_required_absent, get_named. f_equal.
        cbn [In] in Hin. destruct Hin as [<- | [<- | []]]; rewrite Hfalsy;
          repeat match goal with
                 | |- context [truthy ?x] => destruct (truthy x)
                 end; reflexivity. }
      unfold legacy_serve. cbn [String.eqb Ascii.eqb Bool.eqb negb].
      rewrite Hservices. cbn [bind]. rewrite Hjson. cbn [bind].
      rewrite Habsent. reflexivity.
  - intros e Hservices. split.
    + unfold handleRequest. cbn [String.eqb Ascii.eqb Bool.eqb negb snd].
      run_request. rewrite Hservices. run_request. reflexivity.
    + intros analysis. unfold legacy_serve.
      cbn [String.eqb Ascii.eqb Bool.eqb negb].
      rewrite Hservices. reflexivity.
Qed.

(** *** The other outcomes of a request *)

(** X12.  When the normal form of the model's answer passes validation,
    the stream gets the five progress events and then one result event
    that carries the normalized document, not the parsed one;
    [processAnalysis] leaves the stream open and [processRequest] closes
    it. *)
Theorem valid_document_sent :
  forall w requestBody aiConfig brandManual analysisResult parsedResult
         normalizedData,
    getAIConfig w = Returns {| data := Some aiConfig; failure := None |} ->
    getBrandManual w = Returns {| data := Some brandManual; failure := None |} ->
    prepared w requestBody = Returns tt ->
    createCompletion w = Returns tt ->
    extractAnalysisResult w = Returns analysisResult ->
    analysisResult <> "" ->
    JSON_parse w analysisResult = Returns parsedResult ->
    normalizeV6Data engine_to_number parsedResult = Returns normalizedData ->
    validateJsonSchema engine_to_number number_to_string normalizedData
      ANALYSIS_SCHEMA = Returns {| valid := true; errors := [] |} ->
    (forall before,
        processAnalysis engine_to_number number_to_string w requestBody
          {| closed := false; written := before |}
        = (Returns tt,
           {| closed := false;
              written := (before ++ analysis_progress
                            ++ [Write (result normalizedData)])%list |}))
    /\ (services w = Returns tt ->
        json w = Returns requestBody ->
        required_absent requestBody = Returns false ->
        processRequest engine_to_number number_to_string w createSSEResponse
        = (Returns tt,
           {| closed := true;
              written :=
                (Write (progress "inicializando" ("Iniciando an" ++ a_acute ++ "lise..."))
                   :: analysis_progress
                   ++ [Write (result normalizedData); Close])%list |})).
Proof.
  intros w requestBody aiConfig brandManual analysisResult parsedResult
         normalizedData Hai Hbrand Hprep Hcall Htext Hnonempty Hparse Hnorm Hval.
  assert (Hrun : forall before,
             processAnalysis' w requestBody {| closed := false; written := before |}
             = (Returns tt,
                {| closed := false;
                   written := (before ++ analysis_progress
                                 ++ [Write (result normalizedData)])%list |})).
  { intros before.
    run. rewrite Hai. run. rewrite Hbrand. run. rewrite Hprep. run.
    rewrite Hcall. run. rewrite Htext. run.
    destruct (String.eqb_spec analysisResult "") as [-> | _]; [contradiction |].
    run. rewrite Hparse. run. rewrite Hnorm. run. rewrite Hval. run.
    cbn [valid]. run. unfold analysis_progress.
    repeat rewrite <- app_assoc. reflexivity. }
  split; [exact Hrun |].
  intros Hservices Hjson Habsent.
  run_request. rewrite Hservices. run_request. rewrite Hjson. run_request.
  rewrite Habsent. run_request. rewrite Hrun. run_request.
  repeat rewrite <- app_assoc. reflexivity.
Qed.

(** X13.  A configuration row that is missing, or comes with an error,
    ends the analysis before the model is called: the stream gets the
    progress events sent so far, then the error event "Erro na analise"
    whose message names the row, and is closed. *)
Theorem missing_configuration_reported :
  forall w requestBody before,
    (forall r,
        getAIConfig w = Returns r ->
        failure r <> None \/ data r = None ->
        processAnalysis engine_to_number number_to_string w requestBody
          {| closed := false; written := before |}
        = (Returns tt,
           {| closed := true;
              written :=
                (before
                   ++ [Write (progress "configuracao"
                                ("Carregando configura" ++ c_cedilla ++ o_tilde ++ "es..."));
                       Write (error (analysis_failure w
                                       (Error ("Configura" ++ c_cedilla ++ o_tilde
                                                 ++ "es da IA n" ++ a_tilde
                                                 ++ "o encontradas"))));
                       Close])%list |}))
    /\ (forall aiConfig r,
           getAIConfig w = Returns {| data := Some aiConfig; failure := None |} ->
           getBrandManual w = Returns r ->
           failure r <> None \/ data r = None ->
           processAnalysis engine_to_number number_to_string w requestBody
             {| closed := false; written := before |}
           = (Returns tt,
              {| closed := true;
                 written :=
                   (before
                      ++ [Write (progress "configuracao"
                                   ("Carregando configura" ++ c_cedilla ++ o_tilde
                                      ++ "es..."));
                          Write (progress "manual" "Carregando manual da marca...");
                          Write (error (analysis_failure w
                                          (Error ("Manual da marca n" ++ a_tilde
                                                    ++ "o encontrado"))));
                          Close])%list |})).
Proof.
  intros w requestBody before. split.
  - intros r Hai Hbad. run. rewrite Hai. run.
    destruct r as [[a |] [e |]]; cbn [failure data] in *;
      try (destruct Hbad as [Hbad | Hbad]; [contradiction | discriminate]);
      run; repeat rewrite <- app_assoc; reflexivity.
  - intros aiConfig r Hai Hbrand Hbad. run. rewrite Hai. run. rewrite Hbrand. run.
    destruct r as [[a |] [e |]]; cbn [failure data] in *;
      try (destruct Hbad as [Hbad | Hbad]; [contradiction | discriminate]);
      run; repeat rewrite <- app_assoc; reflexivity.
Qed.

(** X14.  An empty text from the model is not parsed: after the five
    progress events the stream gets the error event with the message
    "Resposta vazia da IA" and is closed. *)
Theorem empty_answer_reported :
  forall w requestBody before aiConfig brandManual,
    getAIConfig w = Returns {| data := Some aiConfig; failure := None |} ->
    getBrandManual w = Returns {| data := Some brandManual; failure := None |} ->
    prepared w requestBody = Returns tt ->
    createCompletion w = Returns tt ->
    extractAnalysisResult w = Returns "" ->
    processAnalysis engine_to_number number_to_string w requestBody
      {| closed := false; written := before |}
    = (Returns tt,
       {| closed := true;
          written :=
            (before ++ analysis_progress
               ++ [Write (error (analysis_failure w (Error "Resposta vazia da IA")));
                   Close])%list |}).
Proof.
  intros w requestBody before aiConfig brandManual Hai Hbrand Hprep Hcall Htext.
  run. rewrite Hai. run. rewrite Hbrand. run. rewrite Hprep. run.
  rewrite Hcall. run. rewrite Htext. run.
  cbn [String.eqb]. run. unfold analysis_progress.
  repeat rewrite <- app_assoc. reflexivity.
Qed.

(** X15.  A failure of the call to the model, or a text that [JSON.parse]
    rejects, is reported by the error event "Erro na analise" carrying the
    message of the exception, after four and after five progress events;
    the stream is closed and no result is sent. *)
Theorem completion_or_parse_failure_reported :
  forall w requestBody before aiConfig brandManual e,
    getAIConfig w = Returns {| data := Some aiConfig; failure := None |} ->
    getBrandManual w = Returns {| data := Some brandManual; failure := None |} ->
    prepared w requestBody = Returns tt ->
    (createCompletion w = Throws e ->
     processAnalysis engine_to_number number_to_string w requestBody
       {| closed := false; written := before |}
     = (Returns tt,
        {| closed := true;
           written :=
             (before ++ firstn 4 analysis_progress
                ++ [Write (error (analysis_failure w e)); Close])%list |}))
    /\ (forall analysisResult,
           createCompletion w = Returns tt ->
           extractAnalysisResult w = Returns analysisResult ->
           analysisResult <> "" ->
           JSON_parse w analysisResult = Throws e ->
           processAnalysis engine_to_number number_to_string w requestBody
             {| closed := false; written := before |}
           = (Returns tt,
              {| closed := true;
                 written :=
                   (before ++ analysis_progress
                      ++ [Write (error (analysis_failure w e)); Close])%list |})).
Proof.
  intros w requestBody before aiConfig brandManual e Hai Hbrand Hprep. split.
  - intros Hcall.
    run. rewrite Hai. run. rewrite Hbrand. run. rewrite Hprep. run.
    rewrite Hcall. run. unfold analysis_progress. cbn [firstn].
    repeat rewrite <- app_assoc. reflexivity.
  - intros analysisResult Hcall Htext Hnonempty Hparse.
    run. rewrite Hai. run. rewrite Hbrand. run. rewrite Hprep. run.
    rewrite Hcall. run. rewrite Htext. run.
    destruct (String.eqb_spec analysisResult "") as [-> | _]; [contradiction |].
    run. rewrite Hparse. run. unfold analysis_progress.
    repeat rewrite <- app_assoc. reflexivity.
Qed.

(** X16.  A request body that cannot be read is answered on the stream: a
    body that is not JSON (the read throws) or is [null] gets the progress
    event [inicializando], then the error event "Erro interno do servidor"
    with the message of the exception, or "Erro desconhecido" when it has
    none, and the stream is closed. *)
Theorem unreadable_body_reported :
  forall w,
    services w = Returns tt ->
    (forall e,
        json w = Throws e ->
        handleRequest engine_to_number number_to_string "POST" w
        = (SSEResponse,
           Some {| closed := true;
                   written :=
                     [Write (progress "inicializando"
                               ("Iniciando an" ++ a_acute ++ "lise..."));
                      Write (error (internal_error w e));
                      Close] |}))
    /\ (json w = Returns VNull ->
        handleRequest engine_to_number number_to_string "POST" w
        = (SSEResponse,
           Some {| closed := true;
                   written :=
                     [Write (progress "inicializando"
                               ("Iniciando an" ++ a_acute ++ "lise..."));
                      Write (error (internal_error w
                                      (TypeError (ReadPropertyOfNull "context"))));
                      Close] |})).
Proof.
  intros w Hservices. split.
  - intros e Hjson. unfold handleRequest. cbn [String.eqb Ascii.eqb Bool.eqb negb snd].
    run_request. rewrite Hservices. run_request. rewrite Hjson. run_request.
    reflexivity.
  - intros Hjson. unfold handleRequest. cbn [String.eqb Ascii.eqb Bool.eqb negb snd].
    run_request. rewrite Hservices. run_request. rewrite Hjson. run_request.
    cbn [required_absent]. run_request. reflexivity.
Qed.

Lemma result_from_analysis w requestBody before d :
  In (Write (result d))
     (written (snd (processAnalysis' w requestBody
                      {| closed := false; written := before |}))) ->
  In (Write (result d)) before
  \/ exists analysisResult parsedResult validation,
      extractAnalysisResult w = Returns analysisResult
      /\ JSON_parse w analysisResult = Returns parsedResult
      /\ normalizeV6Data' parsedResult = Returns d
      /\ validateJsonSchema' d ANALYSIS_SCHEMA = Returns validation
      /\ valid validation = true.
Proof.
  run. repeat branch.
  all: cbn [snd written]; intros Hin; repeat rewrite in_app_iff in Hin;
    cbn [In] in Hin.
  all: repeat match goal with
         | H : _ \/ _ |- _ => destruct H as [H | H]
         | H : False |- _ => contradiction
         | H : Write _ = Write (result _) |- _ => try discriminate H
         | H : Close = Write _ |- _ => discriminate H
         end.
  all: try (left; assumption).
  all: match goal with
       | H : Write (result _) = Write (result _) |- _ => injection H as <-
       end.
  all: right; eauto 10.
Qed.

(** X17.  A result event is never sent for a document that has validation
    errors: whatever the collaborators do, a result on the stream of a
    request carries the normal form of the parsed answer of the model, and
    that normal form passed validation. *)
Theorem only_valid_documents_sent :
  forall w d,
    In (Write (result d))
       (written (snd (processRequest engine_to_number number_to_string w
                        createSSEResponse))) ->
    exists analysisResult parsedResult validation,
      extractAnalysisResult w = Returns analysisResult
      /\ JSON_parse w analysisResult = Returns parsedResult
      /\ normalizeV6Data engine_to_number parsedResult = Returns d
      /\ validateJsonSchema engine_to_number number_to_string d ANALYSIS_SCHEMA
         = Returns validation
      /\ valid validation = true.
Proof.
  intros w d. run_request.
  destruct (services w); run_request;
    [| cbn; intuition discriminate].
  destruct (json w) as [requestBody |]; run_request;
    [| cbn; intuition discriminate].
  destruct (required_absent requestBody) as [[] |]; run_request;
    try (cbn; intuition discriminate).
  match goal with
  | |- context [processAnalysis _ _ _ _ {| closed := false; written := ?b |}] =>
      pose proof (result_from_analysis w requestBody b d) as Hfrom;
      destruct (processAnalysis_settles w requestBody b)
        as [events [[c l] [Hrun [Hlog Hshape]]]]
  end.
  rewrite Hrun in *. cbn [snd written closed] in *.
  destruct c; run_request; cbn [snd written]; intros Hin.
  - destruct (Hfrom Hin) as [Hbefore | Hfound]; [| exact Hfound].
    cbn in Hbefore. intuition discriminate.
  - apply in_app_or in Hin. destruct Hin as [Hin | Hin];
      [| cbn in Hin; intuition discriminate].
    destruct (Hfrom Hin) as [Hbefore | Hfound]; [| exact Hfound].
    cbn in Hbefore. intuition discriminate.
Qed.

(** X18.  A request that is neither the preflight nor a POST: the
    streaming handler answers 405 before touching anything, with no
    stream; the legacy handler creates its clients first, so it answers
    405 only when that succeeds, and 500 when it throws. *)
Theorem method_not_allowed_answers :
  forall method w,
    method <> "OPTIONS" -> method <> "POST" ->
    handleRequest engine_to_number number_to_string method w
    = (JSONResponse 405 ("M" ++ e_acute ++ "todo n" ++ a_tilde ++ "o permitido")
         (Literal ("Esta API aceita apenas requisi" ++ c_cedilla ++ o_tilde ++ "es POST")),
       None)
    /\ (services w = Returns tt ->
        serve method w
        = Shared (JSONResponse 405 ("M" ++ e_acute ++ "todo n" ++ a_tilde ++ "o permitido")
                    (Literal ("Esta API aceita apenas requisi" ++ c_cedilla ++ o_tilde
                                ++ "es POST"))))
    /\ (forall e,
           services w = Throws e ->
           serve method w
           = Shared (JSONResponse 500 "Erro interno do servidor" (message_or_unknown e))).
Proof.
  intros method w Hoptions Hpost. unfold handleRequest, serve.
  destruct (String.eqb_spec method "OPTIONS") as [E | _]; [contradiction |].
  destruct (String.eqb_spec method "POST") as [E | _]; [contradiction |].
  cbn [negb]. repeat split.
  - intros Hservices. now rewrite Hservices.
  - intros e Hservices. now rewrite Hservices.
Qed.

End OrchestratorProperties.

(** *** When the consumer may leave *)

Section CancellationProperties.

Variable engine_to_number : value -> outcome float.
Variable number_to_string : float -> string.

(** With a consumer that keeps reading, the orchestrator over a given
    consumer is the orchestrator of the properties above. *)
Lemma keeps_reading_processRequest w :
  Cancellation.processRequest engine_to_number number_to_string keeps_reading w
  = processRequest engine_to_number number_to_string w.
Proof. reflexivity. Qed.

Lemma keeps_reading_processAnalysis w requestBody :
  Cancellation.processAnalysis engine_to_number number_to_string keeps_reading w
    requestBody
  = processAnalysis engine_to_number number_to_string w requestBody.
Proof. reflexivity. Qed.

Lemma keeps_reading_handleRequest method w :
  Cancellation.handleRequest engine_to_number number_to_string keeps_reading
    method w
  = handleRequest engine_to_number number_to_string method w.
Proof. reflexivity. Qed.

Local Arguments normalizeV6Data : simpl never.
Local Arguments validateJsonSchema : simpl never.
Local Arguments String.append : simpl never.

Ltac run_on_consumer :=
  cbv beta iota zeta delta
    [Cancellation.processRequest Cancellation.processAnalysis
     try_finally try_catch then_ lift required_row
     Cancellation.sendErrorResponse Cancellation.sendProgressUpdate
     Cancellation.sendResult Cancellation.closeWriter
     Cancellation.sendSSEMessage Cancellation.writer_write
     Cancellation.writer_close throw pure closed written fst snd bind data
     failure createSSEResponse app].

Ltac branch_on_consumer :=
  match goal with
  | H : ?x = _ |- context [match ?x with _ => _ end] => rewrite H
  | |- context [match ?x with _ => _ end] =>
      lazymatch x with
      | context [match _ with _ => _ end] => fail
      | _ => first [is_var x; destruct x | destruct x eqn:?]
      end
  end;
  run_on_consumer.

Ltac ends :=
  repeat first
    [ eapply ends_progress; cbn [app]
    | eapply ends_closed; reflexivity
    | eapply ends_open; [reflexivity | cbn [app]; eassumption]
    | eapply ends_unanswered; eassumption ].

Lemma processRequest_ends reader w :
  exists o after,
    Cancellation.processRequest engine_to_number number_to_string reader w
      createSSEResponse
    = (o, after)
    /\ request_ends reader [] o (closed after) (written after).
Proof.
  run_on_consumer. repeat branch_on_consumer.
  all: eexists; eexists; (split; [reflexivity |]); cbn [closed written]; ends.
Qed.

Lemma request_ends_shape reader sent o c l :
  request_ends reader sent o c l ->
  exists ps,
    forallb is_progress ps = true
    /\ ((exists t,
            is_terminal t = true /\ o = Returns tt /\ c = true
            /\ l = (map Write ps ++ [Write t; Close])%list)
        \/ (exists t reason,
               is_terminal t = true /\ o = Returns tt /\ c = false
               /\ l = (map Write ps ++ [Write t])%list
               /\ reader (sent ++ l)%list = Some reason)
        \/ (exists reason,
               o = Throws reason /\ c = false /\ l = map Write ps
               /\ reader (sent ++ l)%list = Some reason)).
Proof.
  induction 1 as [sent step msg o c rest _ [ps [Hps IH]] | sent t Ht
                 | sent t reason Ht Hgone | sent reason Hgone].
  - exists (progress step msg :: ps). split; [exact Hps |].
    rewrite <- app_assoc in IH. cbn [app] in IH.
    destruct IH as [[t [Ht [-> [-> ->]]]]
                   | [[t [reason [Ht [-> [-> [-> Hgone]]]]]]
                     | [reason [-> [-> [-> Hgone]]]]]].
    + left. exists t. repeat split. exact Ht.
    + right. left. exists t, reason. repeat split; assumption.
    + right. right. exists reason. repeat split. exact Hgone.
  - exists []. split; [reflexivity |]. left. exists t. repeat split. exact Ht.
  - exists []. split; [reflexivity |]. right. left. exists t, reason.
    repeat split; assumption.
  - exists []. split; [reflexivity |]. right. right. exists reason.
    rewrite app_nil_r. repeat split. exact Hgone.
Qed.

(** C5, as amended.  Whatever the collaborators do (return or throw) and
    whenever the consumer leaves, what [processRequest] writes to the stream
    that [handleRequest] created is a sequence of progress events, then at
    most one result or error, then at most the close, with nothing after a
    result, an error or the close.  The result or error is missing only
    when the consumer had left before it was written: the writer then
    rejects, the stream stays open and [processRequest] fails with the
    reason of the consumer.  The close is missing only when the consumer
    had left before it.  When no write and no close is rejected,
    [processRequest] returns with the writer closed, after progress events,
    one result or one error, and the close.  A request that is not a POST
    creates no stream. *)
Theorem stream_lifecycle :
  forall reader w,
    exists o after,
      Cancellation.processRequest engine_to_number number_to_string reader w
        createSSEResponse
      = (o, after)
      /\ (exists ps,
             forallb is_progress ps = true
             /\ ((exists t,
                     is_terminal t = true /\ o = Returns tt
                     /\ closed after = true
                     /\ written after = (map Write ps ++ [Write t; Close])%list)
                 \/ (exists t reason,
                        is_terminal t = true /\ o = Returns tt
                        /\ closed after = false
                        /\ written after = (map Write ps ++ [Write t])%list
                        /\ reader (written after) = Some reason)
                 \/ (exists reason,
                        o = Throws reason
                        /\ closed after = false
                        /\ written after = map Write ps
                        /\ reader (written after) = Some reason)))
      /\ ((forall sent, reader sent = None) ->
          o = Returns tt /\ closed after = true /\ lifecycle (written after))
      /\ forall method,
          Cancellation.handleRequest engine_to_number number_to_string reader
            method w
          = (if String.eqb method "POST" then (SSEResponse, Some after)
             else (fst (Cancellation.handleRequest engine_to_number
                          number_to_string reader method w),
                   None)).
Proof.
  intros reader w.
  destruct (processRequest_ends reader w) as [o [after [Hrun Hends]]].
  exists o, after. split; [exact Hrun |].
  apply request_ends_shape in Hends. cbn [app] in Hends.
  destruct Hends as [ps [Hps Hshape]].
  split; [exists ps; split; [exact Hps | exact Hshape] |]. split.
  - intros Hreads.
    destruct Hshape as [[t [Ht [-> [-> Hwritten]]]]
                       | [[t [reason [_ [_ [_ [_ Hgone]]]]]]
                         | [reason [_ [_ [_ Hgone]]]]]];
      try (rewrite Hreads in Hgone; discriminate).
    repeat split. rewrite Hwritten. apply lifecycle_shape. eauto.
  - intros method. unfold Cancellation.handleRequest.
    destruct (String.eqb_spec method "OPTIONS") as [-> | _]; [reflexivity |].
    destruct (String.eqb method "POST"); cbn [negb fst]; [| reflexivity].
    now rewrite Hrun.
Qed.

End CancellationProperties.

(** C5, as stated, fails when the consumer disconnects before the result or
    error: here it leaves after two events, the write of the third is
    rejected, the error events of both handlers are rejected too, and the
    stream has carried two progress events and nothing else. *)
Lemma consumer_leaves_before_terminal_event :
  Cancellation.processRequest idle_to_number idle_number_to_string
    (leaves_after 2 (Error "connection closed before message completed"))
    (sample_world complete_body "{}" (VObj [])) createSSEResponse
  = (Throws (Error "connection closed before message completed"),
     {| closed := false;
        written :=
          [Write (progress "inicializando" ("Iniciando an" ++ a_acute ++ "lise..."));
           Write (progress "configuracao"
                    ("Carregando configura" ++ c_cedilla ++ o_tilde ++ "es..."))] |})
  /\ ~ lifecycle
       [Write (progress "inicializando" ("Iniciando an" ++ a_acute ++ "lise..."));
        Write (progress "configuracao"
                 ("Carregando configura" ++ c_cedilla ++ o_tilde ++ "es..."))].
Proof.
  split; [reflexivity |].
  intros H. inversion H as [? ? ? H1 | |]; subst.
  inversion H1 as [? ? ? H2 | |]; subst. inversion H2.
Qed.

(** A consumer that keeps reading, and one that leaves after the result. *)
Lemma stream_lifecycle_witness :
  (exists after,
      Cancellation.processRequest idle_to_number idle_number_to_string
        keeps_reading (sample_world complete_body "{}" (VObj [])) createSSEResponse
      = (Returns tt, after)
      /\ closed after = true /\ lifecycle (written after))
  /\ exists after,
      Cancellation.processRequest idle_to_number idle_number_to_string
        (leaves_after 7 (Error "connection closed before message completed"))
        (sample_world complete_body "{}" (VObj [])) createSSEResponse
      = (Returns tt, after)
      /\ closed after = false
      /\ lifecycle (written after ++ [Close]).
Proof.
  split.
  - destruct (stream_lifecycle idle_to_number idle_number_to_string keeps_reading
                (sample_world complete_body "{}" (VObj [])))
      as [o [after [Hrun [_ [Hreads _]]]]].
    destruct (Hreads (fun _ => eq_refl)) as [-> [Hclosed Hlife]].
    exists after. repeat split; assumption.
  - destruct (stream_lifecycle idle_to_number idle_number_to_string
                (leaves_after 7 (Error "connection closed before message completed"))
                (sample_world complete_body "{}" (VObj [])))
      as [o [after [Hrun [[ps [Hps Hshape]] _]]]].
    exists after.
    assert (E : (o, after)
                = Cancellation.processRequest idle_to_number idle_number_to_string
                    (leaves_after 7 (Error "connection closed before message completed"))
                    (sample_world complete_body "{}" (VObj [])) createSSEResponse)
      by (symmetry; exact Hrun).
    vm_compute in E. injection E as -> ->.
    split; [exact Hrun |]. split; [reflexivity |]. repeat constructor.
Defined.

(** C2, as stated, fails on the streaming handler: a POST without [image]
    gets the event stream, not a 4xx JSON body, and a progress event
    reaches the stream before the error. *)
Lemma missing_image_opens_stream :
  handleRequest idle_to_number idle_number_to_string "POST"
    (sample_world body_without_image "(answer)" (VObj []))
  = (SSEResponse,
     Some {| closed := true;
             written :=
               [Write (progress "inicializando" ("Iniciando an" ++ a_acute ++ "lise..."));
                Write (error missing_parameters);
                Close] |}).
Proof. reflexivity. Qed.

Lemma missing_field_answer_witness :
  (handleRequest idle_to_number idle_number_to_string "POST"
     (sample_world body_without_image "(answer)" (VObj []))
   = (SSEResponse,
      Some {| closed := true;
              written :=
                [Write (progress "inicializando" ("Iniciando an" ++ a_acute ++ "lise..."));
                 Write (error missing_parameters);
                 Close] |})
   /\ legacy_serve "POST" (sample_world body_without_image "(answer)" (VObj []))
        (fun _ => Returns (AnalysisResponse 200 VNull))
      = JSONResponse 400
          ("Par" ++ a_circumflex ++ "metros obrigat" ++ o_acute ++ "rios ausentes")
          (Literal ("Os campos 'context' e 'image' s" ++ a_tilde ++ "o obrigat"
                      ++ o_acute ++ "rios")))
  /\ (handleRequest idle_to_number idle_number_to_string "POST"
        (with_services (sample_world body_without_image "(answer)" (VObj []))
           (Throws (Error "supabaseUrl is required.")))
      = (SSEResponse,
         Some {| closed := true;
                 written :=
                   [Write (progress "inicializando" ("Iniciando an" ++ a_acute ++ "lise..."));
                    Write (error
                             {| ErrorResponse.error := "Erro interno do servidor";
                                ErrorResponse.message :=
                                  Some (MessageOf (Error "supabaseUrl is required."));
                                ErrorResponse.code := None;
                                ErrorResponse.details := None;
                                ErrorResponse.schema_version := None;
                                ErrorResponse.timestamp := Some "2025-01-01T00:00:00.000Z" |});
                    Close] |})
      /\ legacy_serve "POST"
           (with_services (sample_world body_without_image "(answer)" (VObj []))
              (Throws (Error "supabaseUrl is required.")))
           (fun _ => Returns (AnalysisResponse 200 VNull))
         = JSONResponse 500 "Erro interno do servidor"
             (MessageOf (Error "supabaseUrl is required."))).
Proof.
  split.
  - pose proof (missing_field_answer idle_to_number idle_number_to_string
                  (sample_world body_without_image "(answer)" (VObj []))
                  [("context", VStr "Tela de login"); ("jtbd", VStr "entrar na conta")]
                  "image" eq_refl eq_refl) as [Hcreated _].
    destruct (Hcreated eq_refl) as [Hstream Hlegacy].
    split.
    + apply Hstream. cbn. tauto.
    + apply Hlegacy. cbn. tauto.
  - pose proof (missing_field_answer idle_to_number idle_number_to_string
                  (with_services (sample_world body_without_image "(answer)" (VObj []))
                     (Throws (Error "supabaseUrl is required.")))
                  [("context", VStr "Tela de login"); ("jtbd", VStr "entrar na conta")]
                  "image" eq_refl eq_refl) as [_ Hfailed].
    destruct (Hfailed (Error "supabaseUrl is required.") eq_refl) as [Hstream Hlegacy].
    split.
    + exact Hstream.
    + apply Hlegacy.
Defined.

(** A document whose [tomDeVoz] is an array: the normal form keeps the
    array, and validation reports it. *)
Lemma schema_violation_reported_witness :
  exists validation,
    validateJsonSchema idle_to_number idle_number_to_string
      (VObj [("tomDeVoz", VArr [] [("manter", VArr [] []); ("mudar", VArr [] []);
                                   ("nota", VNum 0)]);
             ("schemaVersion", VStr "v6"); ("objetivoInferido", VStr "");
             ("jobToBeDone", default_jobToBeDone);
             ("experiencia", default_experiencia);
             ("prioridadesTop3", default_prioridadesTop3);
             ("pontuacaoGeral", VNum 0)])
      ANALYSIS_SCHEMA = Returns validation
    /\ errors validation
       = [{| message := "Expected object at root.tomDeVoz"; path := "root.tomDeVoz" |}]
    /\ processAnalysis idle_to_number idle_number_to_string
         (sample_world complete_body "(answer)" (VObj [("tomDeVoz", VArr [] [])]))
         complete_body {| closed := false; written := [] |}
       = (Returns tt,
          {| closed := true;
             written :=
               ([] ++ analysis_progress
                  ++ [Write (error
                               {| ErrorResponse.error :=
                                    "Erro de valida" ++ c_cedilla ++ a_tilde ++ "o do schema";
                                  ErrorResponse.message := None;
                                  ErrorResponse.code := Some "LLM_SCHEMA_VIOLATION";
                                  ErrorResponse.details := Some (errors validation);
                                  ErrorResponse.schema_version := Some "v6";
                                  ErrorResponse.timestamp := None |});
                      Close])%list |}).
Proof.
  eexists. split; [reflexivity |]. split; [reflexivity |].
  eapply (schema_violation_reported idle_to_number idle_number_to_string
            (sample_world complete_body "(answer)" (VObj [("tomDeVoz", VArr [] [])]))
            complete_body []); try reflexivity; cbn; discriminate.
Defined.

(** An answer [{}] of the model: the result event carries the document of
    defaults. *)
Lemma valid_document_sent_witness :
  exists normalizedData,
    normalizeV6Data idle_to_number (VObj []) = Returns normalizedData
    /\ processRequest idle_to_number idle_number_to_string
         (sample_world complete_body "{}" (VObj [])) createSSEResponse
       = (Returns tt,
          {| closed := true;
             written :=
               (Write (progress "inicializando" ("Iniciando an" ++ a_acute ++ "lise..."))
                  :: analysis_progress
                  ++ [Write (result normalizedData); Close])%list |}).
Proof.
  eexists. split; [reflexivity |].
  eapply (proj2 (valid_document_sent idle_to_number idle_number_to_string
                   (sample_world complete_body "{}" (VObj []))
                   complete_body _ _ "{}" (VObj []) _
                   eq_refl eq_refl eq_refl eq_refl eq_refl
                   ltac:(discriminate) eq_refl eq_refl eq_refl));
    reflexivity.
Defined.

(** A store without the configuration row, and one whose brand manual
    comes with an error. *)
Lemma missing_configuration_reported_witness :
  processAnalysis idle_to_number idle_number_to_string
    (with_getAIConfig (sample_world complete_body "{}" (VObj []))
       (Returns {| data := None; failure := None |}))
    complete_body {| closed := false; written := [] |}
  = (Returns tt,
     {| closed := true;
        written :=
          [Write (progress "configuracao"
                    ("Carregando configura" ++ c_cedilla ++ o_tilde ++ "es..."));
           Write (error
                    {| ErrorResponse.error := "Erro na an" ++ a_acute ++ "lise";
                       ErrorResponse.message :=
                         Some (MessageOf
                                 (Error ("Configura" ++ c_cedilla ++ o_tilde
                                           ++ "es da IA n" ++ a_tilde
                                           ++ "o encontradas")));
                       ErrorResponse.code := None;
                       ErrorResponse.details := None;
                       ErrorResponse.schema_version := None;
                       ErrorResponse.timestamp := Some "2025-01-01T00:00:00.000Z" |});
           Close] |})
  /\ written
       (snd (processAnalysis idle_to_number idle_number_to_string
               (with_getBrandManual (sample_world complete_body "{}" (VObj []))
                  (Returns {| data := Some {| voice_principles := "v"; rules := "r" |};
                              failure := Some (Error "permission denied") |}))
               complete_body {| closed := false; written := [] |}))
     = [Write (progress "configuracao"
                 ("Carregando configura" ++ c_cedilla ++ o_tilde ++ "es..."));
        Write (progress "manual" "Carregando manual da marca...");
        Write (error
                 {| ErrorResponse.error := "Erro na an" ++ a_acute ++ "lise";
                    ErrorResponse.message :=
                      Some (MessageOf
                              (Error ("Manual da marca n" ++ a_tilde ++ "o encontrado")));
                    ErrorResponse.code := None;
                    ErrorResponse.details := None;
                    ErrorResponse.schema_version := None;
                    ErrorResponse.timestamp := Some "2025-01-01T00:00:00.000Z" |});
        Close].
Proof.
  split.
  - apply (proj1 (missing_configuration_reported idle_to_number idle_number_to_string
                    (with_getAIConfig (sample_world complete_body "{}" (VObj []))
                       (Returns {| data := None; failure := None |}))
                    complete_body [])
             {| data := None; failure := None |} eq_refl).
    right. reflexivity.
  - rewrite (proj2 (missing_configuration_reported idle_to_number idle_number_to_string
                      (with_getBrandManual (sample_world complete_body "{}" (VObj []))
                         (Returns {| data := Some {| voice_principles := "v";
                                                     rules := "r" |};
                                     failure := Some (Error "permission denied") |}))
                      complete_body [])
               {| system_prompt := "s"; prompt_template := "{{CONTEXT}}" |}
               {| data := Some {| voice_principles := "v"; rules := "r" |};
                  failure := Some (Error "permission denied") |}
               eq_refl eq_refl).
    + reflexivity.
    + left. discriminate.
Defined.

Lemma empty_answer_reported_witness :
  processAnalysis idle_to_number idle_number_to_string
    (sample_world complete_body "" (VObj [])) complete_body
    {| closed := false; written := [] |}
  = (Returns tt,
     {| closed := true;
        written :=
          ([] ++ analysis_progress
             ++ [Write (error (analysis_failure
                                 (sample_world complete_body "" (VObj []))
                                 (Error "Resposta vazia da IA")));
                 Close])%list |}).
Proof.
  eapply (empty_answer_reported idle_to_number idle_number_to_string
            (sample_world complete_body "" (VObj [])) complete_body []);
    reflexivity.
Defined.

(** A model that answers with text that is not JSON, and a call to the
    model that is rejected. *)
Lemma completion_or_parse_failure_reported_witness :
  written
    (snd (processAnalysis idle_to_number idle_number_to_string
            (with_createCompletion (sample_world complete_body "{}" (VObj []))
               (Throws (Error "429 rate limit")))
            complete_body {| closed := false; written := [] |}))
  = (firstn 4 analysis_progress
       ++ [Write (error
                    {| ErrorResponse.error := "Erro na an" ++ a_acute ++ "lise";
                       ErrorResponse.message := Some (MessageOf (Error "429 rate limit"));
                       ErrorResponse.code := None;
                       ErrorResponse.details := None;
                       ErrorResponse.schema_version := None;
                       ErrorResponse.timestamp := Some "2025-01-01T00:00:00.000Z" |});
           Close])%list
  /\ written
       (snd (processAnalysis idle_to_number idle_number_to_string
               (with_JSON_parse (sample_world complete_body "Desculpe" (VObj []))
                  (fun _ => Throws (SyntaxError "Unexpected token D in JSON")))
               complete_body {| closed := false; written := [] |}))
     = (analysis_progress
          ++ [Write (error
                       {| ErrorResponse.error := "Erro na an" ++ a_acute ++ "lise";
                          ErrorResponse.message :=
                            Some (MessageOf (SyntaxError "Unexpected token D in JSON"));
                          ErrorResponse.code := None;
                          ErrorResponse.details := None;
                          ErrorResponse.schema_version := None;
                          ErrorResponse.timestamp := Some "2025-01-01T00:00:00.000Z" |});
              Close])%list.
Proof.
  split.
  - rewrite (proj1 (completion_or_parse_failure_reported
                      idle_to_number idle_number_to_string
                      (with_createCompletion (sample_world complete_body "{}" (VObj []))
                         (Throws (Error "429 rate limit")))
                      complete_body []
                      {| system_prompt := "s"; prompt_template := "{{CONTEXT}}" |}
                      {| voice_principles := "v"; rules := "r" |}
                      (Error "429 rate limit") eq_refl eq_refl eq_refl) eq_refl).
    reflexivity.
  - rewrite (proj2 (completion_or_parse_failure_reported
                      idle_to_number idle_number_to_string
                      (with_JSON_parse (sample_world complete_body "Desculpe" (VObj []))
                         (fun _ => Throws (SyntaxError "Unexpected token D in JSON")))
                      complete_body []
                      {| system_prompt := "s"; prompt_template := "{{CONTEXT}}" |}
                      {| voice_principles := "v"; rules := "r" |}
                      (SyntaxError "Unexpected token D in JSON")
                      eq_refl eq_refl eq_refl)
               "Desculpe" eq_refl eq_refl ltac:(discriminate) eq_refl).
    reflexivity.
Defined.

(** The request whose model answers [{}]: the result on the stream is the
    normal form of that answer. *)
Lemma only_valid_documents_sent_witness :
  exists d,
    normalizeV6Data idle_to_number (VObj []) = Returns d
    /\ In (Write (result d))
         (written (snd (processRequest idle_to_number idle_number_to_string
                          (sample_world complete_body "{}" (VObj []))
                          createSSEResponse)))
    /\ exists validation,
        validateJsonSchema idle_to_number idle_number_to_string d ANALYSIS_SCHEMA
        = Returns validation
        /\ valid validation = true.
Proof.
  destruct (normalizeV6Data idle_to_number (VObj [])) as [d |] eqn:E;
    [| vm_compute in E; discriminate E].
  assert (Hin : In (Write (result d))
                  (written (snd (processRequest idle_to_number idle_number_to_string
                                   (sample_world complete_body "{}" (VObj []))
                                   createSSEResponse)))).
  { vm_compute in E. injection E as <-. vm_compute.
    do 6 right. left. reflexivity. }
  exists d. split; [reflexivity |]. split; [exact Hin |].
  destruct (only_valid_documents_sent idle_to_number idle_number_to_string
              (sample_world complete_body "{}" (VObj [])) d Hin)
    as [analysisResult [parsedResult [validation [_ [_ [_ [V Hvalid]]]]]]].
  exists validation. split; [exact V | exact Hvalid].
Defined.

Lemma method_not_allowed_answers_witness :
  handleRequest idle_to_number idle_number_to_string "GET"
    (sample_world complete_body "{}" (VObj []))
  = (JSONResponse 405 ("M" ++ e_acute ++ "todo n" ++ a_tilde ++ "o permitido")
       (Literal ("Esta API aceita apenas requisi" ++ c_cedilla ++ o_tilde ++ "es POST")),
     None)
  /\ status_of (serve "GET" (sample_world complete_body "{}" (VObj []))) = 405.
Proof.
  destruct (method_not_allowed_answers idle_to_number idle_number_to_string "GET"
              (sample_world complete_body "{}" (VObj [])))
    as [Hstream [Hlegacy _]]; try discriminate.
  split; [exact Hstream |]. now rewrite (Hlegacy eq_refl).
Defined.

(** A body that is not JSON, and the body [null]. *)
Lemma unreadable_body_reported_witness :
  handleRequest idle_to_number idle_number_to_string "POST"
    (with_json (sample_world VNull "{}" (VObj []))
       (Throws (SyntaxError "Unexpected end of JSON input")))
  = (SSEResponse,
     Some {| closed := true;
             written :=
               [Write (progress "inicializando" ("Iniciando an" ++ a_acute ++ "lise..."));
                Write (error
                         {| ErrorResponse.error := "Erro interno do servidor";
                            ErrorResponse.message :=
                              Some (MessageOf (SyntaxError "Unexpected end of JSON input"));
                            ErrorResponse.code := None;
                            ErrorResponse.details := None;
                            ErrorResponse.schema_version := None;
                            ErrorResponse.timestamp := Some "2025-01-01T00:00:00.000Z" |});
                Close] |})
  /\ handleRequest idle_to_number idle_number_to_string "POST"
       (sample_world VNull "{}" (VObj []))
     = (SSEResponse,
        Some {| closed := true;
                written :=
                  [Write (progress "inicializando" ("Iniciando an" ++ a_acute ++ "lise..."));
                   Write (error
                            {| ErrorResponse.error := "Erro interno do servidor";
                               ErrorResponse.message :=
                                 Some (MessageOf (TypeError (ReadPropertyOfNull "context")));
                               ErrorResponse.code := None;
                               ErrorResponse.details := None;
                               ErrorResponse.schema_version := None;
                               ErrorResponse.timestamp := Some "2025-01-01T00:00:00.000Z" |});
                   Close] |}).
Proof.
  split.
  - apply (proj1 (unreadable_body_reported idle_to_number idle_number_to_string
                    (with_json (sample_world VNull "{}" (VObj []))
                       (Throws (SyntaxError "Unexpected end of JSON input")))
                    eq_refl)
             (SyntaxError "Unexpected end of JSON input") eq_refl).
  - apply (proj2 (unreadable_body_reported idle_to_number idle_number_to_string
                    (sample_world VNull "{}" (VObj [])) eq_refl) eq_refl).
Defined.

(** ** The legacy handler *)

(** The handler in full is the request validation followed by the
    analysis: with the same continuation the two definitions agree. *)
Lemma serve_validates_like_legacy_serve method w analysis :
  (forall requestBody,
      legacy_analysis w requestBody = (r <- analysis requestBody ;; Returns (Shared r))) ->
  serve method w = Shared (legacy_serve method w analysis).
Proof.
  intros Hsame. unfold serve, legacy_serve.
  destruct (String.eqb method "OPTIONS"); [reflexivity |].
  destruct (services w) as [[] | e]; cbn [bind]; [| reflexivity].
  destruct (negb (String.eqb method "POST")); [reflexivity |].
  destruct (json w) as [requestBody | e]; cbn [bind]; [| reflexivity].
  destruct (legacy_required_absent requestBody) as [[] | e]; cbn [bind];
    try reflexivity.
  rewrite Hsame. destruct (analysis requestBody); reflexivity.
Qed.

(** X19.  The legacy handler neither normalizes nor validates: when the
    model answers with a text, the response has status 200 and carries the
    parsed document as it is, and a text that is not JSON is not an error:
    it comes back, with status 200, as the member [analysis] of an object. *)
Theorem legacy_answer_not_validated :
  forall w requestBody aiConfig brandManual analysisResult,
    services w = Returns tt ->
    json w = Returns requestBody ->
    legacy_required_absent requestBody = Returns false ->
    getAIConfig w = Returns {| data := Some aiConfig; failure := None |} ->
    getBrandManual w = Returns {| data := Some brandManual; failure := None |} ->
    prepared w requestBody = Returns tt ->
    createCompletion w = Returns tt ->
    extractAnalysisResult w = Returns analysisResult ->
    analysisResult <> "" ->
    (forall document,
        JSON_parse w analysisResult = Returns document ->
        serve "POST" w = Shared (AnalysisResponse 200 document))
    /\ (forall e,
           JSON_parse w analysisResult = Throws e ->
           serve "POST" w
           = Shared (AnalysisResponse 200 (VObj [("analysis", VStr analysisResult)]))).
Proof.
  intros w requestBody aiConfig brandManual analysisResult Hservices Hjson Habsent
         Hai Hbrand Hprep Hcall Htext Hnonempty.
  assert (Hrun : serve "POST" w
                 = Shared (AnalysisResponse 200
                             match JSON_parse w analysisResult with
                             | Returns document => document
                             | Throws _ => VObj [("analysis", VStr analysisResult)]
                             end)).
  { unfold serve, legacy_analysis. cbn [String.eqb Ascii.eqb Bool.eqb negb].
    rewrite Hservices. cbn [bind]. rewrite Hjson. cbn [bind].
    rewrite Habsent. cbn [bind]. rewrite Hai. cbn [bind failure data].
    rewrite Hbrand. cbn [bind failure data]. rewrite Hprep. cbn [bind].
    rewrite Hcall, Htext. cbn [bind].
    destruct (String.eqb_spec analysisResult "") as [-> | _]; [contradiction |].
    reflexivity. }
  split.
  - intros document Hparse. now rewrite Hrun, Hparse.
  - intros e Hparse. now rewrite Hrun, Hparse.
Qed.

(** X20.  What the legacy handler answers when a step fails, for an
    accepted request body: status 500 in every case, with an error of its
    own for a configuration row that comes with an error, for the manual
    of the brand likewise, for a failed call to the model and for an empty
    answer, and with "Erro interno do servidor" and the message of the
    exception when a read of the store is rejected. *)
Theorem legacy_failures_answered :
  forall w requestBody,
    services w = Returns tt ->
    json w = Returns requestBody ->
    legacy_required_absent requestBody = Returns false ->
    (forall r e,
        getAIConfig w = Returns r -> failure r = Some e ->
        serve "POST" w
        = Shared (JSONResponse 500
                    ("Erro ao acessar configura" ++ c_cedilla ++ a_tilde ++ "o da IA")
                    (Literal ("N" ++ a_tilde ++ "o foi poss" ++ i_acute
                                ++ "vel obter as configura" ++ c_cedilla ++ o_tilde
                                ++ "es do modelo de IA"))))
    /\ (forall e,
           getAIConfig w = Throws e ->
           serve "POST" w
           = Shared (JSONResponse 500 "Erro interno do servidor" (message_or_unknown e)))
    /\ (forall aiConfig r e,
           getAIConfig w = Returns {| data := Some aiConfig; failure := None |} ->
           getBrandManual w = Returns r -> failure r = Some e ->
           serve "POST" w
           = Shared (JSONResponse 500 "Erro ao acessar manual da marca"
                       (Literal ("N" ++ a_tilde ++ "o foi poss" ++ i_acute
                                   ++ "vel obter os dados do manual da marca"))))
    /\ (forall aiConfig brandManual,
           getAIConfig w = Returns {| data := Some aiConfig; failure := None |} ->
           getBrandManual w = Returns {| data := Some brandManual; failure := None |} ->
           prepared w requestBody = Returns tt ->
           (forall e,
               createCompletion w = Throws e ->
               serve "POST" w = OpenAIFailure (openai_details e))
           /\ (createCompletion w = Returns tt ->
               extractAnalysisResult w = Returns "" ->
               serve "POST" w
               = Shared (JSONResponse 500 ("Erro na an" ++ a_acute ++ "lise da IA")
                           (Literal ("A OpenAI n" ++ a_tilde
                                       ++ "o retornou uma resposta v" ++ a_acute
                                       ++ "lida"))))).
Proof.
  intros w requestBody Hservices Hjson Habsent.
  assert (Hrun : serve "POST" w
                 = match legacy_analysis w requestBody with
                   | Returns r => r
                   | Throws e =>
                       Shared (JSONResponse 500 "Erro interno do servidor"
                                 (message_or_unknown e))
                   end).
  { unfold serve. cbn [String.eqb Ascii.eqb Bool.eqb negb].
    rewrite Hservices. cbn [bind]. rewrite Hjson. cbn [bind].
    rewrite Habsent. reflexivity. }
  rewrite Hrun. unfold legacy_analysis. repeat split.
  - intros r e Hai Hfail. rewrite Hai. cbn [bind]. now rewrite Hfail.
  - intros e Hai. now rewrite Hai.
  - intros aiConfig r e Hai Hbrand Hfail. rewrite Hai. cbn [bind failure].
    rewrite Hbrand. cbn [bind]. now rewrite Hfail.
  - intros e Hcall. rewrite H, H0. cbn [bind failure data]. rewrite H1.
    cbn [bind]. now rewrite Hcall.
  - intros Hcall Htext. rewrite H, H0. cbn [bind failure data]. rewrite H1.
    cbn [bind]. now rewrite Hcall, Htext.
Qed.

(** X21.  Whatever the collaborators do, the legacy handler answers, with
    status 200, 400, 405 or 500; and it answers 200 only to the preflight
    request or when the model gave a text. *)
Theorem legacy_status_codes :
  forall method w,
    In (status_of (serve method w)) [200; 400; 405; 500]
    /\ (status_of (serve method w) = 200 ->
        method = "OPTIONS"
        \/ (method = "POST"
            /\ createCompletion w = Returns tt
            /\ exists analysisResult,
                extractAnalysisResult w = Returns analysisResult
                /\ analysisResult <> "")).
Proof.
  intros method w. unfold serve.
  destruct (String.eqb_spec method "OPTIONS") as [-> | _];
    [split; [cbn; tauto | auto] |].
  destruct (services w) as [[] | e]; cbn [bind];
    [| split; [cbn; tauto | discriminate]].
  destruct (String.eqb_spec method "POST") as [-> | _]; cbn [negb];
    [| split; [cbn; tauto | discriminate]].
  destruct (json w) as [requestBody | e]; cbn [bind];
    [| split; [cbn; tauto | discriminate]].
  destruct (legacy_required_absent requestBody) as [[] | e]; cbn [bind];
    try (split; [cbn; tauto | discriminate]).
  unfold legacy_analysis.
  destruct (getAIConfig w) as [[[a |] [e |]] | e]; cbn [bind failure data];
    try (split; [cbn; tauto | discriminate]);
    (destruct (getBrandManual w) as [[[b |] [e |]] | e]; cbn [bind failure data];
     try (split; [cbn; tauto | discriminate])).
  destruct (prepared w requestBody) as [[] | e]; cbn [bind];
    [| split; [cbn; tauto | discriminate]].
  destruct (createCompletion w) as [[] | e];
    [| split; [cbn; tauto | discriminate]].
  destruct (extractAnalysisResult w) as [analysisResult | e]; cbn [bind];
    [| split; [cbn; tauto | discriminate]].
  destruct (String.eqb_spec analysisResult "") as [-> | Hne];
    [split; [cbn; tauto | discriminate] |].
  split; [cbn; tauto |]. intros _. right. eauto.
Qed.

Lemma legacy_answer_not_validated_witness :
  serve "POST" (sample_world legacy_body "{}" (VObj []))
  = Shared (AnalysisResponse 200 (VObj []))
  /\ serve "POST"
       (with_JSON_parse (sample_world legacy_body "Desculpe" (VObj []))
          (fun _ => Throws (SyntaxError "Unexpected token D in JSON")))
     = Shared (AnalysisResponse 200 (VObj [("analysis", VStr "Desculpe")])).
Proof.
  split.
  - apply (proj1 (legacy_answer_not_validated
                    (sample_world legacy_body "{}" (VObj [])) legacy_body
                    {| system_prompt := "s"; prompt_template := "{{CONTEXT}}" |}
                    {| voice_principles := "v"; rules := "r" |} "{}"
                    eq_refl eq_refl eq_refl eq_refl eq_refl eq_refl eq_refl eq_refl
                    ltac:(discriminate))).
    reflexivity.
  - apply (proj2 (legacy_answer_not_validated
                    (with_JSON_parse (sample_world legacy_body "Desculpe" (VObj []))
                       (fun _ => Throws (SyntaxError "Unexpected token D in JSON")))
                    legacy_body
                    {| system_prompt := "s"; prompt_template := "{{CONTEXT}}" |}
                    {| voice_principles := "v"; rules := "r" |} "Desculpe"
                    eq_refl eq_refl eq_refl eq_refl eq_refl eq_refl eq_refl eq_refl
                    ltac:(discriminate))
             (SyntaxError "Unexpected token D in JSON")).
    reflexivity.
Defined.

Lemma legacy_failures_answered_witness :
  serve "POST"
    (with_createCompletion (sample_world legacy_body "{}" (VObj []))
       (Throws (Error "429 rate limit")))
  = OpenAIFailure (MessageOf (Error "429 rate limit"))
  /\ status_of
       (serve "POST"
          (with_getAIConfig (sample_world legacy_body "{}" (VObj []))
             (Returns {| data := None; failure := Some (Error "no rows") |})))
     = 500.
Proof.
  split.
  - destruct (legacy_failures_answered
                (with_createCompletion (sample_world legacy_body "{}" (VObj []))
                   (Throws (Error "429 rate limit")))
                legacy_body eq_refl eq_refl eq_refl) as [_ [_ [_ Hcall]]].
    apply (proj1 (Hcall {| system_prompt := "s"; prompt_template := "{{CONTEXT}}" |}
                    {| voice_principles := "v"; rules := "r" |}
                    eq_refl eq_refl eq_refl) (Error "429 rate limit")).
    reflexivity.
  - destruct (legacy_failures_answered
                (with_getAIConfig (sample_world legacy_body "{}" (VObj []))
                   (Returns {| data := None; failure := Some (Error "no rows") |}))
                legacy_body eq_refl eq_refl eq_refl) as [Hconfig _].
    rewrite (Hconfig {| data := None; failure := Some (Error "no rows") |}
               (Error "no rows") eq_refl eq_refl).
    reflexivity.
Defined.

(** ** The normalizer *)

Lemma lookup_assign_same k v fs : lookup k (assign k v fs) = Some v.
Proof.
  induction fs as [| [k' v'] fs IH]; cbn [assign lookup].
  - now rewrite String.eqb_refl.
  - destruct (String.eqb k k') eqn:E; cbn [lookup]; rewrite E; [reflexivity | exact IH].
Qed.

Lemma lookup_assign_other k k' v fs :
  String.eqb k k' = false -> lookup k (assign k' v fs) = lookup k fs.
Proof.
  intros Hne. induction fs as [| [k'' v''] fs IH]; cbn [assign lookup].
  - now rewrite Hne.
  - destruct (String.eqb_spec k' k'') as [<- | _]; cbn [lookup].
    + now rewrite Hne.
    + now rewrite IH.
Qed.

Lemma assign_same k v fs : lookup k fs = Some v -> assign k v fs = fs.
Proof.
  induction fs as [| [k' v'] fs IH]; cbn [assign lookup]; [discriminate |].
  destruct (String.eqb k k'); intros H.
  - now injection H as ->.
  - now rewrite IH.
Qed.

Lemma bind_returns {A B : Type} (m : outcome A) (k : A -> outcome B) b :
  bind m k = Returns b -> exists a, m = Returns a /\ k a = Returns b.
Proof. destruct m as [a | e]; [| discriminate]. intros H. now exists a. Qed.

Lemma set_named_returns t k v t' :
  set_named t k v = Returns t' ->
  is_object t = true /\ is_object t' = true
  /\ get_named t' k = Some v
  /\ forall k', String.eqb k' k = false -> get_named t' k' = get_named t k'.
Proof.
  destruct t; try discriminate; intros [= <-]; cbn [is_object get_named];
    repeat split; auto using lookup_assign_same, lookup_assign_other.
Qed.

Lemma set_named_same t k v :
  is_object t = true -> get_named t k = Some v -> set_named t k v = Returns t.
Proof.
  destruct t; try discriminate; cbn [get_named set_named]; intros _ H;
    now rewrite (assign_same _ _ _ H).
Qed.

Lemma set_named_object t k v :
  is_object t = true -> returns (set_named t k v) = true.
Proof. destruct t; try discriminate; reflexivity. Qed.

Lemma set_named_primitive t k v :
  is_object t = false ->
  set_named t k v = Throws (TypeError (CreatePropertyOnPrimitive k t)).
Proof. destruct t; try discriminate; reflexivity. Qed.

Lemma truthy_get_named_object t k :
  truthy (get_named t k) = true -> is_object t = true.
Proof. destruct t; cbn; try discriminate; reflexivity. Qed.

Lemma in_range_get_named_object t k :
  in_range (get_named t k) = true -> is_object t = true.
Proof. destruct t; cbn; try discriminate; reflexivity. Qed.

Lemma object_truthy v : is_object v = true -> truthy (Some v) = true.
Proof. destruct v; try discriminate; reflexivity. Qed.

(** *** [ensure] and [fix_range] *)

Lemma ensure_returns k d t t' :
  ensure k d t = Returns t' ->
  is_object t = true /\ is_object t' = true
  /\ (forall k', String.eqb k' k = false -> get_named t' k' = get_named t k')
  /\ (truthy (get_named t k) = true -> t' = t)
  /\ (truthy (get_named t k) = false -> get_named t' k = Some d).
Proof.
  unfold ensure. destruct (truthy (get_named t k)) eqn:E.
  - intros [= <-]. pose proof (truthy_get_named_object _ _ E) as Hobj.
    repeat split; auto. discriminate.
  - intros H. apply set_named_returns in H. destruct H as [Ht [Ht' [Hk Hother]]].
    repeat split; auto. discriminate.
Qed.

Lemma ensure_settles k d t t' : ensure k d t = Returns t' -> Settled k d t'.
Proof.
  intros H. pose proof (ensure_returns _ _ _ _ H) as [_ [Ht' [_ [Hkeep Hset]]]].
  split; [exact Ht' |].
  destruct (truthy (get_named t k)) eqn:E.
  - rewrite (Hkeep eq_refl). destruct (get_named t k) as [v |] eqn:Ev; [| discriminate].
    exists v. auto.
  - exists d. auto.
Qed.

Lemma ensure_fixed k d t : Settled k d t -> ensure k d t = Returns t.
Proof.
  intros [Hobj [v [Hv [Htruthy | ->]]]]; unfold ensure; rewrite Hv.
  - now rewrite Htruthy.
  - destruct (truthy (Some d)); [reflexivity |]. now apply set_named_same.
Qed.

Lemma ensure_object k d t : is_object t = true -> returns (ensure k d t) = true.
Proof.
  intros H. unfold ensure. destruct (truthy (get_named t k)); [reflexivity |].
  now apply set_named_object.
Qed.

Lemma Settled_kept k d t t' :
  Settled k d t -> is_object t' = true -> get_named t' k = get_named t k ->
  Settled k d t'.
Proof. intros [_ H] Hobj Heq. split; [exact Hobj |]. now rewrite Heq. Qed.

Lemma in_range_zero : in_range (Some (VNum 0)) = true.
Proof. reflexivity. Qed.

Lemma fix_range_returns k t t' :
  fix_range k t = Returns t' ->
  is_object t = true /\ Ranged k t'
  /\ (forall k', String.eqb k' k = false -> get_named t' k' = get_named t k')
  /\ (in_range (get_named t k) = true -> t' = t)
  /\ (in_range (get_named t k) = false -> get_named t' k = Some (VNum 0)).
Proof.
  unfold fix_range, Ranged. destruct (in_range (get_named t k)) eqn:E.
  - intros [= <-]. pose proof (in_range_get_named_object _ _ E) as Hobj.
    repeat split; auto. discriminate.
  - intros H. apply set_named_returns in H. destruct H as [Ht [Ht' [Hk Hother]]].
    repeat split; auto; [now rewrite Hk | discriminate].
Qed.

Lemma fix_range_fixed k t : Ranged k t -> fix_range k t = Returns t.
Proof. intros [_ H]. unfold fix_range. now rewrite H. Qed.

Lemma fix_range_object k t : is_object t = true -> returns (fix_range k t) = true.
Proof.
  intros H. unfold fix_range. destruct (in_range (get_named t k)); [reflexivity |].
  now apply set_named_object.
Qed.

Lemma Ranged_kept k t t' :
  Ranged k t -> is_object t' = true -> get_named t' k = get_named t k -> Ranged k t'.
Proof. intros [_ H] Hobj Heq. split; [exact Hobj |]. now rewrite Heq. Qed.

(** *** The normalizer, key by key

    Each of the seven keys the normalizer writes gets a value computed from
    the value the input holds under that key alone. *)

Ltac look :=
  repeat first [rewrite lookup_assign_same
               | rewrite lookup_assign_other by reflexivity].

Lemma objetivo_step n :
  (if truthy (lookup "objetivoInferido" n) then n
   else assign "objetivoInferido" (VStr "") n)
  = assign "objetivoInferido" (defaulted (VStr "") (lookup "objetivoInferido" n)) n.
Proof.
  unfold defaulted. destruct (lookup "objetivoInferido" n) as [v |] eqn:E;
    [| reflexivity].
  destruct (truthy (Some v)); [| reflexivity]. symmetry. now apply assign_same.
Qed.

Lemma score_step n :
  (if in_range (lookup "pontuacaoGeral" n) then n
   else assign "pontuacaoGeral" (VNum 0) n)
  = assign "pontuacaoGeral" (score_value (lookup "pontuacaoGeral" n)) n.
Proof.
  unfold score_value. destruct (lookup "pontuacaoGeral" n) as [v |] eqn:E;
    [| reflexivity].
  destruct (in_range (Some v)); [| reflexivity]. symmetry. now apply assign_same.
Qed.

Lemma section_step k d step n :
  (if truthy (lookup k n) then within k step n else Returns (assign k d n))
  = (v <- section_value d step (lookup k n) ;; Returns (assign k v n)).
Proof.
  unfold within, section_value. destruct (lookup k n) as [v |]; [| reflexivity].
  destruct (truthy (Some v)); reflexivity.
Qed.

Lemma within_found k step fs v :
  lookup k fs = Some v ->
  within k step fs = (v' <- step v ;; Returns (assign k v' fs)).
Proof. intros H. unfold within. now rewrite H. Qed.

Section NormalizerProperties.

Variable engine_to_number : value -> outcome float.
Variable number_to_string : float -> string.

Local Abbreviation normalizeV6Data' := (normalizeV6Data engine_to_number).
Local Abbreviation length_exceeds_3' := (length_exceeds_3 engine_to_number).
Local Abbreviation normalize_prioridadesTop3' :=
  (normalize_prioridadesTop3 engine_to_number).
Local Abbreviation prioridades_value' := (prioridades_value engine_to_number).
Local Abbreviation PFinal' := (PFinal engine_to_number).
Local Abbreviation prioridades_sound' := (prioridades_sound engine_to_number).

Lemma prioridades_step n :
  normalize_prioridadesTop3' n
  = (p <- prioridades_value' (lookup "prioridadesTop3" n) ;;
     Returns (assign "prioridadesTop3" p n)).
Proof.
  unfold normalize_prioridadesTop3, prioridades_value, prioridades_start.
  destruct (lookup "prioridadesTop3" n) as [p |] eqn:E.
  - destruct (negb (truthy (Some p)) || length_is_zero p).
    + rewrite lookup_assign_same. reflexivity.
    + rewrite E. destruct (length_exceeds_3' p) as [[] |]; cbn [bind];
        [destruct (slice_0_3 p); reflexivity | | reflexivity].
      now rewrite (assign_same _ _ _ E).
  - cbn [truthy negb orb]. rewrite lookup_assign_same. reflexivity.
Qed.

Lemma normalizeV6Data_unfolded x :
  normalizeV6Data' x =
  (j <- section_value default_jobToBeDone jobToBeDone_defaults
         (member x "jobToBeDone") ;;
   t0 <- section_value default_tomDeVoz tomDeVoz_defaults (member x "tomDeVoz") ;;
   e0 <- section_value default_experiencia experiencia_defaults
          (member x "experiencia") ;;
   p <- prioridades_value' (member x "prioridadesTop3") ;;
   t <- fix_range "nota" t0 ;;
   e1 <- fix_range "nota" e0 ;;
   e <- within_named "cta" (fix_range "clareza") e1 ;;
   Returns (VObj (normal_form (spread x)
                    (defaulted (VStr "") (member x "objetivoInferido")) j t0 e0 p
                    (score_value (member x "pontuacaoGeral")) t e1 e))).
Proof.
  unfold normalizeV6Data, member, normal_form. set (n0 := spread x).
  rewrite objetivo_step. look.
  unfold normalize_jobToBeDone. rewrite section_step. look.
  destruct (section_value default_jobToBeDone jobToBeDone_defaults
              (lookup "jobToBeDone" n0)) as [j |]; cbn [bind]; [| reflexivity].
  unfold normalize_tomDeVoz. rewrite section_step. look.
  destruct (section_value default_tomDeVoz tomDeVoz_defaults
              (lookup "tomDeVoz" n0)) as [t0 |]; cbn [bind]; [| reflexivity].
  unfold normalize_experiencia. rewrite section_step. look.
  destruct (section_value default_experiencia experiencia_defaults
              (lookup "experiencia" n0)) as [e0 |]; cbn [bind]; [| reflexivity].
  rewrite prioridades_step. look.
  destruct (prioridades_value' (lookup "prioridadesTop3" n0)) as [p |]; cbn [bind];
    [| reflexivity].
  unfold normalize_ranges. rewrite score_step. look.
  rewrite (within_found "tomDeVoz" _ _ t0) by (look; reflexivity).
  destruct (fix_range "nota" t0) as [t |]; cbn [bind]; [| reflexivity].
  rewrite (within_found "experiencia" _ _ e0) by (look; reflexivity).
  destruct (fix_range "nota" e0) as [e1 |]; cbn [bind]; [| reflexivity].
  rewrite (within_found "experiencia" _ _ e1) by (look; reflexivity).
  destruct (within_named "cta" (fix_range "clareza") e1) as [e |]; reflexivity.
Qed.

(** *** What each key holds after normalization *)

Lemma within_named_returns k step t t' :
  within_named k step t = Returns t' ->
  exists v v', get_named t k = Some v /\ step v = Returns v'
               /\ set_named t k v' = Returns t'.
Proof.
  unfold within_named. destruct (get_named t k) as [v |]; [| discriminate].
  destruct (step v) as [v' |] eqn:E; [| discriminate]. cbn [bind]. eauto.
Qed.

Lemma Settled_intro k d t v :
  is_object t = true -> get_named t k = Some v ->
  truthy (Some v) = true \/ v = d -> Settled k d t.
Proof. intros Hobj Hv H. split; [exact Hobj |]. eauto. Qed.

Lemma normalize_avaliacao_returns j j' :
  normalize_avaliacao j = Returns j' ->
  is_object j = true /\ is_object j' = true
  /\ (forall k, String.eqb k "avaliacao" = false -> get_named j' k = get_named j k)
  /\ exists a, get_named j' "avaliacao" = Some a /\ Settled "sugestoes" (VArr [] []) a
               /\ (truthy (get_named j "avaliacao") = false -> a = default_avaliacao)
               /\ (truthy (get_named j "avaliacao") = true ->
                   exists a0, get_named j "avaliacao" = Some a0
                              /\ ensure "sugestoes" (VArr [] []) a0 = Returns a).
Proof.
  unfold normalize_avaliacao. destruct (truthy (get_named j "avaliacao")) eqn:E.
  - intros H. apply within_named_returns in H.
    destruct H as [a0 [a [Ha0 [Hstep Hset]]]].
    apply set_named_returns in Hset. destruct Hset as [Hj [Hj' [Hget Hother]]].
    split; [exact Hj |]. split; [exact Hj' |]. split; [exact Hother |].
    exists a. split; [exact Hget |]. split; [eapply ensure_settles; exact Hstep |].
    split; [discriminate |]. intros _. exists a0. auto.
  - intros H. apply set_named_returns in H. destruct H as [Hj [Hj' [Hget Hother]]].
    split; [exact Hj |]. split; [exact Hj' |]. split; [exact Hother |].
    exists default_avaliacao. split; [exact Hget |].
    split; [eapply Settled_intro; [reflexivity | reflexivity | now left] |].
    split; [reflexivity | discriminate].
Qed.

Lemma JFinal_default : JFinal default_jobToBeDone.
Proof.
  split.
  - eapply Settled_intro; [reflexivity | reflexivity | now right].
  - eexists. split; [reflexivity |].
    eapply Settled_intro; [reflexivity | reflexivity | now left].
Qed.

Lemma jobToBeDone_defaults_final j j' :
  jobToBeDone_defaults j = Returns j' -> JFinal j'.
Proof.
  unfold jobToBeDone_defaults. intros H. apply bind_returns in H.
  destruct H as [j1 [H1 H2]].
  pose proof (ensure_settles _ _ _ _ H1) as Hpe.
  apply normalize_avaliacao_returns in H2.
  destruct H2 as [_ [Hj' [Hother [a [Ha [Hsug _]]]]]].
  split; [| eauto].
  eapply Settled_kept; [exact Hpe | exact Hj' | now apply Hother].
Qed.

Lemma JFinal_fixed j : JFinal j -> jobToBeDone_defaults j = Returns j.
Proof.
  intros [Hpe [a [Ha Hsug]]]. unfold jobToBeDone_defaults.
  rewrite (ensure_fixed _ _ _ Hpe). cbn [bind]. unfold normalize_avaliacao.
  rewrite Ha. rewrite (object_truthy a) by apply Hsug.
  unfold within_named. rewrite Ha, (ensure_fixed _ _ _ Hsug). cbn [bind].
  apply set_named_same; [apply Hpe | exact Ha].
Qed.

Lemma section_value_final (Final : value -> Prop) d step o v :
  Final d -> (forall u u', step u = Returns u' -> Final u') ->
  section_value d step o = Returns v -> Final v.
Proof.
  intros Hd Hstep. unfold section_value. destruct o as [u |].
  - destruct (truthy (Some u)); [apply Hstep | now intros [= <-]].
  - now intros [= <-].
Qed.

Lemma section_value_fixed d step v :
  is_object v = true -> step v = Returns v ->
  section_value d step (Some v) = Returns v.
Proof. intros Hobj Hstep. unfold section_value. now rewrite object_truthy. Qed.

Lemma TSettled_default : TSettled default_tomDeVoz.
Proof.
  split; (eapply Settled_intro; [reflexivity | reflexivity | now left]).
Qed.

Lemma tomDeVoz_defaults_settled t t' :
  tomDeVoz_defaults t = Returns t' -> TSettled t'.
Proof.
  unfold tomDeVoz_defaults. intros H. apply bind_returns in H.
  destruct H as [t1 [H1 H2]].
  pose proof (ensure_settles _ _ _ _ H1) as Hmanter.
  pose proof (ensure_settles _ _ _ _ H2) as Hmudar.
  apply ensure_returns in H2. destruct H2 as [_ [Ht' [Hother _]]].
  split; [| exact Hmudar].
  eapply Settled_kept; [exact Hmanter | exact Ht' | now apply Hother].
Qed.

Lemma TFinal_intro t0 t :
  TSettled t0 -> fix_range "nota" t0 = Returns t -> TFinal t.
Proof.
  intros [Hmanter Hmudar] H. apply fix_range_returns in H.
  destruct H as [_ [Hnota [Hother _]]].
  repeat split; try apply Hnota;
    [eapply Settled_kept; [exact Hmanter | apply Hnota | now apply Hother]
    | eapply Settled_kept; [exact Hmudar | apply Hnota | now apply Hother]].
Qed.

Lemma TFinal_fixed t :
  TFinal t -> tomDeVoz_defaults t = Returns t /\ fix_range "nota" t = Returns t.
Proof.
  intros [Hmanter [Hmudar Hnota]]. split; [| now apply fix_range_fixed].
  unfold tomDeVoz_defaults. rewrite (ensure_fixed _ _ _ Hmanter). cbn [bind].
  now apply ensure_fixed.
Qed.

Lemma ESettled_default : ESettled default_experiencia.
Proof.
  repeat split; try reflexivity; eexists; (split; [reflexivity | now left]).
Qed.

Lemma experiencia_defaults_settled e e' :
  experiencia_defaults e = Returns e' -> ESettled e'.
Proof.
  unfold experiencia_defaults. intros H.
  apply bind_returns in H. destruct H as [e1 [H1 H]].
  apply bind_returns in H. destruct H as [e2 [H2 H]].
  apply bind_returns in H. destruct H as [e3 [H3 H4]].
  pose proof (ensure_settles _ _ _ _ H1) as S1.
  pose proof (ensure_settles _ _ _ _ H2) as S2.
  pose proof (ensure_settles _ _ _ _ H3) as S3.
  pose proof (ensure_settles _ _ _ _ H4) as S4.
  apply ensure_returns in H2. destruct H2 as [_ [O2 [K2 _]]].
  apply ensure_returns in H3. destruct H3 as [_ [O3 [K3 _]]].
  apply ensure_returns in H4. destruct H4 as [_ [O4 [K4 _]]].
  repeat split; try apply S4.
  - eapply Settled_kept; [exact S1 | exact O4 |].
    rewrite K4, K3, K2 by reflexivity. reflexivity.
  - eapply Settled_kept; [exact S2 | exact O4 |].
    rewrite K4, K3 by reflexivity. reflexivity.
  - eapply Settled_kept; [exact S3 | exact O4 |].
    rewrite K4 by reflexivity. reflexivity.
Qed.

Lemma EFinal_intro e0 e1 e :
  ESettled e0 -> fix_range "nota" e0 = Returns e1 ->
  within_named "cta" (fix_range "clareza") e1 = Returns e -> EFinal e.
Proof.
  intros [S1 [S2 [S3 S4]]] H1 H2.
  apply fix_range_returns in H1. destruct H1 as [_ [Hnota [K1 _]]].
  apply within_named_returns in H2. destruct H2 as [c [c' [Hc [Hfix Hset]]]].
  apply fix_range_returns in Hfix. destruct Hfix as [_ [Hclareza _]].
  apply set_named_returns in Hset. destruct Hset as [_ [He [Hcta K2]]].
  repeat split; try exact He.
  - destruct S1 as [_ S1]. rewrite K2, K1 by reflexivity. exact S1.
  - destruct S2 as [_ S2]. rewrite K2, K1 by reflexivity. exact S2.
  - destruct S3 as [_ S3]. rewrite K2, K1 by reflexivity. exact S3.
  - rewrite K2 by reflexivity. apply Hnota.
  - exists c'. split; [exact Hcta | exact Hclareza].
Qed.

Lemma EFinal_fixed e :
  EFinal e ->
  experiencia_defaults e = Returns e
  /\ fix_range "nota" e = Returns e
  /\ within_named "cta" (fix_range "clareza") e = Returns e.
Proof.
  intros [S1 [S2 [S3 [Hnota [c [Hc Hclareza]]]]]]. repeat split.
  - unfold experiencia_defaults.
    rewrite (ensure_fixed _ _ _ S1). cbn [bind].
    rewrite (ensure_fixed _ _ _ S2). cbn [bind].
    rewrite (ensure_fixed _ _ _ S3). cbn [bind].
    apply ensure_fixed. eapply Settled_intro; [apply S1 | exact Hc |].
    left. apply object_truthy. apply Hclareza.
  - now apply fix_range_fixed.
  - unfold within_named. rewrite Hc, (fix_range_fixed _ _ Hclareza). cbn [bind].
    apply set_named_same; [apply S1 | exact Hc].
Qed.

Lemma substring_length n : forall s,
  n <= String.length s -> String.length (String.substring 0 n s) = n.
Proof.
  induction n as [| n IH]; intros [| c s] H; cbn in *; try reflexivity; try lia.
  rewrite IH by lia. reflexivity.
Qed.

Lemma prioridades_start_truthy o :
  truthy (Some (prioridades_start o)) = true
  /\ length_is_zero (prioridades_start o) = false.
Proof.
  unfold prioridades_start. destruct o as [p |]; [| split; reflexivity].
  destruct (negb (truthy (Some p)) || length_is_zero p) eqn:E;
    [split; reflexivity |].
  apply orb_false_elim in E. destruct E as [Htruthy Hzero].
  apply negb_false_iff in Htruthy. auto.
Qed.

Lemma prioridades_value_final o p : prioridades_value' o = Returns p -> PFinal' p.
Proof.
  unfold prioridades_value. destruct (prioridades_start_truthy o) as [Htruthy Hzero].
  destruct (length_exceeds_3' (prioridades_start o)) as [[] |] eqn:Hover;
    cbn [bind]; [| intros [= <-]; repeat split; assumption | discriminate].
  destruct (prioridades_start o) as [| | | s | items props |]; try discriminate.
  - unfold length_exceeds_3 in Hover. injection Hover as Hover.
    apply Nat.ltb_lt in Hover.
    intros [= <-]. unfold PFinal, truthy, length_is_zero, length_exceeds_3.
    rewrite substring_length by lia.
    destruct (String.substring 0 3 s) eqn:Es; [| repeat split].
    pose proof (substring_length 3 s ltac:(lia)) as Hlen. rewrite Es in Hlen.
    discriminate.
  - unfold length_exceeds_3 in Hover. injection Hover as Hover.
    apply Nat.ltb_lt in Hover.
    destruct items as [| a [| b [| c [| d items]]]]; cbn [List.length] in Hover;
      try lia.
    intros [= <-]. repeat split.
Qed.

Lemma PFinal_fixed p : PFinal' p -> prioridades_value' (Some p) = Returns p.
Proof.
  intros [Htruthy [Hzero Hover]]. unfold prioridades_value, prioridades_start.
  rewrite Htruthy, Hzero. cbn [negb orb]. now rewrite Hover.
Qed.

Lemma defaulted_fixed o :
  defaulted (VStr "") (Some (defaulted (VStr "") o)) = defaulted (VStr "") o.
Proof.
  unfold defaulted. destruct o as [v |]; [| reflexivity].
  destruct (truthy (Some v)) eqn:E; [now rewrite E | reflexivity].
Qed.

Lemma score_value_in_range o : in_range (Some (score_value o)) = true.
Proof.
  unfold score_value. destruct o as [v |]; [| reflexivity].
  destruct (in_range (Some v)) eqn:E; [exact E | reflexivity].
Qed.

Lemma score_value_fixed o : score_value (Some (score_value o)) = score_value o.
Proof.
  unfold score_value at 1. now rewrite score_value_in_range.
Qed.

(** The result of a run that returns, and what its seven keys hold. *)
Lemma normalizeV6Data_returns x y :
  normalizeV6Data' x = Returns y ->
  exists j t0 e0 p t e1 e,
    section_value default_jobToBeDone jobToBeDone_defaults (member x "jobToBeDone")
    = Returns j
    /\ section_value default_tomDeVoz tomDeVoz_defaults (member x "tomDeVoz")
       = Returns t0
    /\ section_value default_experiencia experiencia_defaults (member x "experiencia")
       = Returns e0
    /\ prioridades_value' (member x "prioridadesTop3") = Returns p
    /\ fix_range "nota" t0 = Returns t
    /\ fix_range "nota" e0 = Returns e1
    /\ within_named "cta" (fix_range "clareza") e1 = Returns e
    /\ y = VObj (normal_form (spread x)
                   (defaulted (VStr "") (member x "objetivoInferido")) j t0 e0 p
                   (score_value (member x "pontuacaoGeral")) t e1 e).
Proof.
  rewrite normalizeV6Data_unfolded. intros H.
  apply bind_returns in H. destruct H as [j [Hj H]].
  apply bind_returns in H. destruct H as [t0 [Ht0 H]].
  apply bind_returns in H. destruct H as [e0 [He0 H]].
  apply bind_returns in H. destruct H as [p [Hp H]].
  apply bind_returns in H. destruct H as [t [Ht H]].
  apply bind_returns in H. destruct H as [e1 [He1 H]].
  apply bind_returns in H. destruct H as [e [He H]].
  injection H as <-. exists j, t0, e0, p, t, e1, e. repeat split; assumption.
Qed.

Lemma normal_form_members n0 o j t0 e0 p pg t e1 e :
  let y := VObj (normal_form n0 o j t0 e0 p pg t e1 e) in
  member y "schemaVersion" = Some (VStr "v6")
  /\ member y "objetivoInferido" = Some o
  /\ member y "jobToBeDone" = Some j
  /\ member y "tomDeVoz" = Some t
  /\ member y "experiencia" = Some e
  /\ member y "prioridadesTop3" = Some p
  /\ member y "pontuacaoGeral" = Some pg
  /\ forall k,
      existsb (String.eqb k)
        ["schemaVersion"; "objetivoInferido"; "jobToBeDone"; "tomDeVoz";
         "experiencia"; "prioridadesTop3"; "pontuacaoGeral"] = false ->
      member y k = lookup k n0.
Proof.
  unfold member, normal_form. cbn [spread].
  repeat split; look; try reflexivity.
  intros k Hk. cbn [existsb] in Hk.
  repeat (apply orb_false_elim in Hk; destruct Hk as [? Hk]).
  now rewrite !lookup_assign_other by assumption.
Qed.

(** C3.  A value the normalizer returns is returned unchanged when
    normalized again. *)
Theorem normalizeV6Data_idempotent :
  forall x y,
    normalizeV6Data engine_to_number x = Returns y ->
    normalizeV6Data engine_to_number y = Returns y.
Proof.
  intros x y H. apply normalizeV6Data_returns in H.
  destruct H as [j [t0 [e0 [p [t [e1 [e [Hj [Ht0 [He0 [Hp [Ht [He1 [He ->]]]]]]]]]]]]]].
  assert (Fj : JFinal j).
  { eapply section_value_final; [apply JFinal_default | | exact Hj].
    apply jobToBeDone_defaults_final. }
  assert (Ft : TFinal t).
  { eapply TFinal_intro; [| exact Ht].
    eapply section_value_final; [apply TSettled_default | | exact Ht0].
    apply tomDeVoz_defaults_settled. }
  assert (Fe : EFinal e).
  { eapply EFinal_intro; [| exact He1 | exact He].
    eapply section_value_final; [apply ESettled_default | | exact He0].
    apply experiencia_defaults_settled. }
  assert (Fp : PFinal' p) by (eapply prioridades_value_final; exact Hp).
  set (o := defaulted (VStr "") (member x "objetivoInferido")).
  set (pg := score_value (member x "pontuacaoGeral")).
  assert (Ho : defaulted (VStr "") (Some o) = o) by apply defaulted_fixed.
  assert (Hpg : score_value (Some pg) = pg) by apply score_value_fixed.
  clearbody o pg.
  destruct (normal_form_members (spread x) o j t0 e0 p pg t e1 e)
    as [Msv [Mo [Mj [Mt [Me [Mp [Mpg _]]]]]]].
  set (Y := normal_form (spread x) o j t0 e0 p pg t e1 e) in *.
  rewrite normalizeV6Data_unfolded. rewrite Mo, Mj, Mt, Me, Mp, Mpg.
  rewrite (section_value_fixed _ _ j) by (apply Fj || now apply JFinal_fixed).
  cbn [bind].
  destruct (TFinal_fixed t Ft) as [Tdefaults Tnota].
  rewrite (section_value_fixed _ _ t) by (apply Ft || exact Tdefaults).
  cbn [bind].
  destruct (EFinal_fixed e Fe) as [Edefaults [Enota Ecta]].
  rewrite (section_value_fixed _ _ e) by (apply Fe || exact Edefaults).
  cbn [bind].
  rewrite (PFinal_fixed p Fp). cbn [bind].
  rewrite Tnota. cbn [bind]. rewrite Enota. cbn [bind]. rewrite Ecta. cbn [bind].
  rewrite Ho, Hpg. do 2 f_equal.
  unfold member in Msv, Mo, Mj, Mt, Me, Mp, Mpg. cbn [spread] in *.
  unfold normal_form.
  rewrite (assign_same "schemaVersion" _ Y Msv).
  rewrite (assign_same "objetivoInferido" _ Y Mo).
  rewrite (assign_same "jobToBeDone" _ Y Mj).
  rewrite (assign_same "tomDeVoz" _ Y Mt).
  rewrite (assign_same "experiencia" _ Y Me).
  rewrite (assign_same "prioridadesTop3" _ Y Mp).
  rewrite (assign_same "pontuacaoGeral" _ Y Mpg).
  rewrite (assign_same "tomDeVoz" _ Y Mt).
  rewrite (assign_same "experiencia" _ Y Me).
  rewrite (assign_same "experiencia" _ Y Me).
  reflexivity.
Qed.

(** *** What is kept of the input *)

Lemma ensure_defaults k d t t' :
  ensure k d t = Returns t' ->
  defaults_to k d t t'
  /\ forall k', String.eqb k' k = false -> get_named t' k' = get_named t k'.
Proof.
  intros H. apply ensure_returns in H. destruct H as [_ [_ [Hother [Hkeep Hset]]]].
  split; [| exact Hother]. unfold defaults_to, defaulted.
  destruct (truthy (get_named t k)) eqn:E.
  - rewrite (Hkeep eq_refl). destruct (get_named t k) as [v |]; [| discriminate].
    now rewrite E.
  - rewrite (Hset eq_refl). destruct (get_named t k) as [v |]; [| reflexivity].
    now rewrite E.
Qed.

Lemma fix_range_scored k t t' :
  fix_range k t = Returns t' ->
  scored k t t'
  /\ forall k', String.eqb k' k = false -> get_named t' k' = get_named t k'.
Proof.
  intros H. apply fix_range_returns in H. destruct H as [_ [_ [Hother [Hkeep Hset]]]].
  split; [| exact Hother]. unfold scored, score_value.
  destruct (in_range (get_named t k)) eqn:E.
  - rewrite (Hkeep eq_refl). destruct (get_named t k) as [v |]; [| discriminate].
    now rewrite E.
  - rewrite (Hset eq_refl). destruct (get_named t k) as [v |]; [| reflexivity].
    now rewrite E.
Qed.

Ltac other_key H :=
  cbn [existsb] in H;
  repeat (apply orb_false_elim in H; let H' := fresh in destruct H as [H' H]).

Lemma tomDeVoz_defaults_kept v t0 t :
  tomDeVoz_defaults v = Returns t0 -> fix_range "nota" t0 = Returns t ->
  tomDeVoz_kept v t.
Proof.
  unfold tomDeVoz_defaults. intros H Hfix.
  apply bind_returns in H. destruct H as [t1 [H1 H2]].
  apply ensure_defaults in H1. destruct H1 as [D1 K1].
  apply ensure_defaults in H2. destruct H2 as [D2 K2].
  apply fix_range_scored in Hfix. destruct Hfix as [S3 K3].
  unfold tomDeVoz_kept, defaults_to, scored in *. repeat split.
  - intros k Hk. other_key Hk. now rewrite K3, K2, K1.
  - now rewrite K3, K2.
  - rewrite K3, D2, K1; reflexivity.
  - rewrite S3, K2, K1; reflexivity.
Qed.

Lemma normalize_avaliacao_kept j j' :
  normalize_avaliacao j = Returns j' ->
  (forall k, String.eqb k "avaliacao" = false -> get_named j' k = get_named j k)
  /\ (truthy (get_named j "avaliacao") = false ->
      get_named j' "avaliacao" = Some default_avaliacao)
  /\ (forall a, get_named j "avaliacao" = Some a -> truthy (Some a) = true ->
      exists a', get_named j' "avaliacao" = Some a' /\ avaliacao_kept a a').
Proof.
  intros H. apply normalize_avaliacao_returns in H.
  destruct H as [_ [_ [Hother [a' [Ha' [_ [Hfalsy Htruthy]]]]]]].
  split; [exact Hother |]. split.
  - intros E. rewrite Ha'. now rewrite (Hfalsy E).
  - intros a Ha Ht. rewrite Ha in Htruthy.
    destruct (Htruthy Ht) as [a0 [[= <-] Hensure]].
    exists a'. split; [exact Ha' |].
    apply ensure_defaults in Hensure. destruct Hensure as [D K].
    split; [| exact D]. intros k Hk. other_key Hk. now apply K.
Qed.

Lemma jobToBeDone_defaults_kept v j :
  jobToBeDone_defaults v = Returns j -> jobToBeDone_kept v j.
Proof.
  unfold jobToBeDone_defaults. intros H.
  apply bind_returns in H. destruct H as [j1 [H1 H2]].
  apply ensure_defaults in H1. destruct H1 as [D1 K1].
  apply normalize_avaliacao_kept in H2. destruct H2 as [K2 [Hfalsy Htruthy]].
  unfold jobToBeDone_kept, defaults_to in *.
  rewrite (K1 "avaliacao") in Hfalsy, Htruthy by reflexivity.
  repeat split; try assumption.
  - intros k Hk. other_key Hk. now rewrite K2, K1.
  - now rewrite K2.
Qed.

Lemma experiencia_defaults_kept v e0 e1 e :
  experiencia_defaults v = Returns e0 ->
  fix_range "nota" e0 = Returns e1 ->
  within_named "cta" (fix_range "clareza") e1 = Returns e ->
  experiencia_kept v e.
Proof.
  unfold experiencia_defaults. intros H Hnota Hcta.
  apply bind_returns in H. destruct H as [v1 [H1 H]].
  apply bind_returns in H. destruct H as [v2 [H2 H]].
  apply bind_returns in H. destruct H as [v3 [H3 H4]].
  apply ensure_defaults in H1. destruct H1 as [D1 K1].
  apply ensure_defaults in H2. destruct H2 as [D2 K2].
  apply ensure_defaults in H3. destruct H3 as [D3 K3].
  apply ensure_defaults in H4. destruct H4 as [D4 K4].
  apply fix_range_scored in Hnota. destruct Hnota as [S5 K5].
  apply within_named_returns in Hcta. destruct Hcta as [c [c' [Hc [Hfix Hset]]]].
  apply set_named_returns in Hset. destruct Hset as [_ [_ [Hget K6]]].
  pose proof Hfix as Hfix0.
  apply fix_range_scored in Hfix. destruct Hfix as [S7 K7].
  unfold experiencia_kept, defaults_to, scored in *.
  rewrite K5 in Hc by reflexivity. rewrite D4 in Hc.
  rewrite K3, K2, K1 in Hc by reflexivity. injection Hc as <-.
  repeat split.
  - intros k Hk. other_key Hk. now rewrite K6, K5, K4, K3, K2, K1.
  - rewrite K6, K5, K4, K3, K2 by reflexivity. exact D1.
  - rewrite K6, K5, K4, K3, D2, K1; reflexivity.
  - rewrite K6, K5, K4, D3, K2, K1; reflexivity.
  - rewrite K6, S5, K4, K3, K2, K1; reflexivity.
  - intros E. rewrite Hget. f_equal.
    assert (Hd : defaulted default_cta (get_named v "cta") = default_cta).
    { unfold defaulted. destruct (get_named v "cta"); [now rewrite E | reflexivity]. }
    rewrite Hd in Hfix0. now injection Hfix0 as <-.
  - intros c0 Hc0 Htruthy. exists c'. split; [exact Hget |].
    rewrite Hc0 in *. unfold defaulted in *. rewrite Htruthy in *.
    split; [| exact S7]. intros k Hk. other_key Hk. now apply K7.
Qed.

Lemma section_value_falsy d step o v :
  truthy o = false -> section_value d step o = Returns v -> v = d.
Proof.
  unfold section_value. destruct o as [u |]; [| now intros _ [= <-]].
  intros E. rewrite E. now intros [= <-].
Qed.

Lemma section_value_truthy d step u v :
  truthy (Some u) = true -> section_value d step (Some u) = Returns v ->
  step u = Returns v.
Proof. unfold section_value. intros E. now rewrite E. Qed.



(** The result of the normalizer, key by key, against the input. *)
Lemma normalizeV6Data_kept x y :
  normalizeV6Data' x = Returns y ->
  (forall k, existsb (String.eqb k) normalized_keys = false ->
             member y k = member x k)
  /\ member y "schemaVersion" = Some (VStr "v6")
  /\ member y "objetivoInferido"
     = Some (defaulted (VStr "") (member x "objetivoInferido"))
  /\ member y "pontuacaoGeral" = Some (score_value (member x "pontuacaoGeral"))
  /\ (exists p, prioridades_value' (member x "prioridadesTop3") = Returns p
                /\ member y "prioridadesTop3" = Some p)
  /\ ((truthy (member x "jobToBeDone") = false ->
       member y "jobToBeDone" = Some default_jobToBeDone)
      /\ (forall v, member x "jobToBeDone" = Some v -> truthy (Some v) = true ->
          exists v', member y "jobToBeDone" = Some v' /\ jobToBeDone_kept v v'))
  /\ ((truthy (member x "tomDeVoz") = false ->
       member y "tomDeVoz" = Some default_tomDeVoz)
      /\ (forall v, member x "tomDeVoz" = Some v -> truthy (Some v) = true ->
          exists v', member y "tomDeVoz" = Some v' /\ tomDeVoz_kept v v'))
  /\ ((truthy (member x "experiencia") = false ->
       member y "experiencia" = Some default_experiencia)
      /\ (forall v, member x "experiencia" = Some v -> truthy (Some v) = true ->
          exists v', member y "experiencia" = Some v' /\ experiencia_kept v v')).
Proof.
  intros H. apply normalizeV6Data_returns in H.
  destruct H as [j [t0 [e0 [p [t [e1 [e [Hj [Ht0 [He0 [Hp [Ht [He1 [He ->]]]]]]]]]]]]]].
  destruct (normal_form_members (spread x)
              (defaulted (VStr "") (member x "objetivoInferido")) j t0 e0 p
              (score_value (member x "pontuacaoGeral")) t e1 e)
    as [Msv [Mo [Mj [Mt [Me [Mp [Mpg Mother]]]]]]].
  split; [exact Mother |]. split; [exact Msv |]. split; [exact Mo |].
  split; [exact Mpg |]. split; [eauto |].
  rewrite Mj, Mt, Me. repeat split.
  - intros E. now rewrite (section_value_falsy _ _ _ _ E Hj).
  - intros v Hv Htruthy. rewrite Hv in Hj. exists j. split; [reflexivity |].
    apply jobToBeDone_defaults_kept. eapply section_value_truthy; eassumption.
  - intros E. pose proof (section_value_falsy _ _ _ _ E Ht0) as ->.
    now injection Ht as <-.
  - intros v Hv Htruthy. rewrite Hv in Ht0. exists t. split; [reflexivity |].
    eapply tomDeVoz_defaults_kept; [| exact Ht].
    eapply section_value_truthy; eassumption.
  - intros E. pose proof (section_value_falsy _ _ _ _ E He0) as ->.
    injection He1 as <-. now injection He as <-.
  - intros v Hv Htruthy. rewrite Hv in He0. exists e. split; [reflexivity |].
    eapply experiencia_defaults_kept; [| exact He1 | exact He].
    eapply section_value_truthy; eassumption.
Qed.

Lemma falsy_field o k : truthy o = false -> field o k = None.
Proof.
  destruct o as [[] |]; cbn; try reflexivity; discriminate.
Qed.

Lemma score_value_reset o : in_range o = false -> score_value o = VNum 0.
Proof.
  unfold score_value. destruct o as [v |]; [| reflexivity]. now intros ->.
Qed.

(** The four scores of the result against the input. *)
Lemma normalizeV6Data_scores x y :
  normalizeV6Data' x = Returns y ->
  member y "pontuacaoGeral" = Some (score_value (member x "pontuacaoGeral"))
  /\ field (member y "tomDeVoz") "nota"
     = Some (score_value (field (member x "tomDeVoz") "nota"))
  /\ field (member y "experiencia") "nota"
     = Some (score_value (field (member x "experiencia") "nota"))
  /\ field (field (member y "experiencia") "cta") "clareza"
     = Some (score_value (field (field (member x "experiencia") "cta") "clareza")).
Proof.
  intros H. apply normalizeV6Data_kept in H.
  destruct H as [_ [_ [_ [Hpg [_ [_ [[Tfalsy Ttruthy] [Efalsy Etruthy]]]]]]]].
  split; [exact Hpg |]. split; [| split].
  - destruct (truthy (member x "tomDeVoz")) eqn:E.
    + destruct (member x "tomDeVoz") as [v |] eqn:Ev; [| discriminate].
      destruct (Ttruthy v eq_refl E) as [v' [-> [_ [_ [_ S]]]]]. exact S.
    + rewrite (Tfalsy eq_refl), (falsy_field _ _ E). reflexivity.
  - destruct (truthy (member x "experiencia")) eqn:E.
    + destruct (member x "experiencia") as [v |] eqn:Ev; [| discriminate].
      destruct (Etruthy v eq_refl E) as [v' [-> [_ [_ [_ [_ [S _]]]]]]]. exact S.
    + rewrite (Efalsy eq_refl), (falsy_field _ _ E). reflexivity.
  - destruct (truthy (member x "experiencia")) eqn:E.
    + destruct (member x "experiencia") as [v |] eqn:Ev; [| discriminate].
      destruct (Etruthy v eq_refl E) as [v' [-> [_ [_ [_ [_ [_ [Cfalsy Ctruthy]]]]]]]].
      cbn [field].
      destruct (truthy (get_named v "cta")) eqn:Ec.
      * destruct (get_named v "cta") as [c |] eqn:Evc; [| discriminate].
        destruct (Ctruthy c eq_refl Ec) as [c' [-> [_ S]]]. exact S.
      * rewrite (Cfalsy eq_refl), (falsy_field _ _ Ec). reflexivity.
    + rewrite (Efalsy eq_refl), (falsy_field _ _ E). reflexivity.
Qed.

(** *** The elements of a section supplied as an array *)











(** *** When the normalizer throws *)

Lemma only_type_errors_bind {A B : Type} (m : outcome A) (k : A -> outcome B) :
  only_type_errors m -> (forall a, only_type_errors (k a)) ->
  only_type_errors (bind m k).
Proof. destruct m as [a | e]; cbn [bind]; auto. Qed.

Lemma only_type_errors_set_named t k v : only_type_errors (set_named t k v).
Proof. destruct t; exact I. Qed.

Lemma only_type_errors_ensure k d t : only_type_errors (ensure k d t).
Proof.
  unfold ensure. destruct (truthy (get_named t k));
    [exact I | apply only_type_errors_set_named].
Qed.

Lemma only_type_errors_section d step o :
  (forall v, only_type_errors (step v)) ->
  only_type_errors (section_value d step o).
Proof.
  intros H. unfold section_value. destruct o as [v |]; [| exact I].
  destruct (truthy (Some v)); [apply H | exact I].
Qed.

Lemma only_type_errors_jobToBeDone v : only_type_errors (jobToBeDone_defaults v).
Proof.
  unfold jobToBeDone_defaults. apply only_type_errors_bind.
  - apply only_type_errors_ensure.
  - intros j1. unfold normalize_avaliacao.
    destruct (truthy (get_named j1 "avaliacao"));
      [| apply only_type_errors_set_named].
    unfold within_named. destruct (get_named j1 "avaliacao"); [| exact I].
    apply only_type_errors_bind; [apply only_type_errors_ensure |].
    intros a. apply only_type_errors_set_named.
Qed.

Lemma only_type_errors_tomDeVoz v : only_type_errors (tomDeVoz_defaults v).
Proof.
  unfold tomDeVoz_defaults. apply only_type_errors_bind;
    [| intros t1]; apply only_type_errors_ensure.
Qed.

Lemma only_type_errors_throws {A : Type} (m : outcome A) e :
  only_type_errors m -> m = Throws e -> exists te, e = TypeError te.
Proof. intros H ->. destruct e; try contradiction. eauto. Qed.

Lemma truthy_primitive_inv o :
  truthy_primitive o = true ->
  exists v, o = Some v /\ truthy (Some v) = true /\ is_object v = false.
Proof.
  unfold truthy_primitive. destruct o as [v |]; [| discriminate].
  intros H. apply andb_prop in H. destruct H as [Ht Hp].
  apply negb_true_iff in Hp. eauto.
Qed.

Lemma ensure_primitive k d v :
  is_object v = false ->
  ensure k d v = Throws (TypeError (CreatePropertyOnPrimitive k v)).
Proof.
  intros H. unfold ensure.
  replace (get_named v k) with (@None value) by (destruct v; try discriminate; reflexivity).
  cbn [truthy]. now apply set_named_primitive.
Qed.

Lemma section_value_primitive d step o k :
  truthy_primitive o = true ->
  (forall v, is_object v = false ->
             step v = Throws (TypeError (CreatePropertyOnPrimitive k v))) ->
  exists te, section_value d step o = Throws (TypeError te).
Proof.
  intros H Hstep. apply truthy_primitive_inv in H.
  destruct H as [v [-> [Ht Hp]]]. unfold section_value. rewrite Ht.
  rewrite (Hstep v Hp). eauto.
Qed.

Lemma normalizeV6Data_primitive_section x k :
  In k ["jobToBeDone"; "tomDeVoz"; "experiencia"] ->
  truthy_primitive (member x k) = true ->
  exists te, normalizeV6Data' x = Throws (TypeError te).
Proof.
  intros Hin Hprim. rewrite normalizeV6Data_unfolded.
  pose proof (only_type_errors_section default_jobToBeDone jobToBeDone_defaults
                (member x "jobToBeDone") only_type_errors_jobToBeDone) as OJ.
  pose proof (only_type_errors_section default_tomDeVoz tomDeVoz_defaults
                (member x "tomDeVoz") only_type_errors_tomDeVoz) as OT.
  cbn [In] in Hin. destruct Hin as [<- | [<- | [<- | []]]].
  - destruct (section_value_primitive default_jobToBeDone jobToBeDone_defaults
                _ "placeholderExemplo" Hprim) as [te ->]; [| cbn [bind]; eauto].
    intros v Hv. unfold jobToBeDone_defaults. now rewrite ensure_primitive.
  - destruct (section_value default_jobToBeDone jobToBeDone_defaults
                (member x "jobToBeDone")) as [j | e] eqn:EJ; cbn [bind].
    + destruct (section_value_primitive default_tomDeVoz tomDeVoz_defaults
                  _ "manter" Hprim) as [te ->]; [| cbn [bind]; eauto].
      intros v Hv. unfold tomDeVoz_defaults. now rewrite ensure_primitive.
    + destruct e; try contradiction. eauto.
  - destruct (section_value default_jobToBeDone jobToBeDone_defaults
                (member x "jobToBeDone")) as [j | e] eqn:EJ; cbn [bind];
      [| destruct e; try contradiction; eauto].
    destruct (section_value default_tomDeVoz tomDeVoz_defaults
                (member x "tomDeVoz")) as [t0 | e] eqn:ET; cbn [bind];
      [| destruct e; try contradiction; eauto].
    destruct (section_value_primitive default_experiencia experiencia_defaults
                _ "usabilidade" Hprim) as [te ->]; [| cbn [bind]; eauto].
    intros v Hv. unfold experiencia_defaults. now rewrite ensure_primitive.
Qed.

(** *** When the normalizer returns *)

Lemma returns_true {A : Type} (m : outcome A) :
  returns m = true -> exists a, m = Returns a.
Proof. destruct m as [a | e]; [eauto | discriminate]. Qed.

Lemma absent_falsy_or_object_inv o v :
  absent_falsy_or_object o = true -> o = Some v -> truthy (Some v) = true ->
  is_object v = true.
Proof.
  unfold absent_falsy_or_object. intros H -> Ht. rewrite Ht in H. exact H.
Qed.

Lemma section_value_returns d step o :
  absent_falsy_or_object o = true ->
  (forall v, o = Some v -> is_object v = true -> returns (step v) = true) ->
  returns (section_value d step o) = true.
Proof.
  intros Hafo Hstep. unfold section_value. destruct o as [v |]; [| reflexivity].
  destruct (truthy (Some v)) eqn:Ht; [| reflexivity].
  apply Hstep; [reflexivity |]. eapply absent_falsy_or_object_inv; eauto.
Qed.

Lemma jobToBeDone_defaults_returns v :
  is_object v = true ->
  absent_falsy_or_object (get_named v "avaliacao") = true ->
  returns (jobToBeDone_defaults v) = true.
Proof.
  intros Hobj Hafo. unfold jobToBeDone_defaults.
  destruct (returns_true _ (ensure_object "placeholderExemplo" (VStr "") v Hobj))
    as [j1 H1].
  rewrite H1. cbn [bind]. apply ensure_returns in H1.
  destruct H1 as [_ [Hj1 [K1 _]]].
  unfold normalize_avaliacao, within_named. rewrite K1 by reflexivity.
  destruct (truthy (get_named v "avaliacao")) eqn:Ht;
    [| now apply set_named_object].
  destruct (get_named v "avaliacao") as [a |] eqn:Ea; [| discriminate].
  pose proof (absent_falsy_or_object_inv _ _ Hafo eq_refl Ht) as Ha.
  destruct (returns_true _ (ensure_object "sugestoes" (VArr [] []) a Ha)) as [a' ->].
  cbn [bind]. now apply set_named_object.
Qed.

Lemma tomDeVoz_defaults_returns v :
  is_object v = true -> returns (tomDeVoz_defaults v) = true.
Proof.
  intros Hobj. unfold tomDeVoz_defaults.
  destruct (returns_true _ (ensure_object "manter" (VArr [] []) v Hobj)) as [t1 H1].
  rewrite H1. cbn [bind]. apply ensure_returns in H1.
  apply ensure_object. apply H1.
Qed.

Lemma experiencia_defaults_returns v :
  is_object v = true -> returns (experiencia_defaults v) = true.
Proof.
  intros Hobj. unfold experiencia_defaults.
  destruct (returns_true _ (ensure_object "usabilidade" (VArr [] []) v Hobj))
    as [e1 H1].
  rewrite H1. cbn [bind]. apply ensure_returns in H1. destruct H1 as [_ [O1 _]].
  destruct (returns_true _ (ensure_object "visual" (VArr [] []) e1 O1)) as [e2 H2].
  rewrite H2. cbn [bind]. apply ensure_returns in H2. destruct H2 as [_ [O2 _]].
  destruct (returns_true _ (ensure_object "acessibilidade" (VArr [] []) e2 O2))
    as [e3 H3].
  rewrite H3. cbn [bind]. apply ensure_returns in H3. destruct H3 as [_ [O3 _]].
  now apply ensure_object.
Qed.

Lemma prioridades_value_sound o :
  prioridades_sound' o -> returns (prioridades_value' o) = true.
Proof.
  intros H. unfold prioridades_value, prioridades_start.
  destruct o as [p |]; [| reflexivity].
  destruct (negb (truthy (Some p)) || length_is_zero p) eqn:E; [reflexivity |].
  apply orb_false_elim in E. destruct E as [_ Hzero].
  destruct p as [| b | n | s | items props | fs]; try reflexivity.
  - cbn [length_exceeds_3 bind]. destruct (Nat.ltb 3 (String.length s)); reflexivity.
  - cbn [length_exceeds_3 bind]. destruct (Nat.ltb 3 (List.length items)); reflexivity.
  - cbn [prioridades_sound'] in H. destruct H as [H | H]; [congruence |].
    now rewrite H.
Qed.

Lemma normalizeV6Data_sound_sections x :
  absent_falsy_or_object (member x "jobToBeDone") = true ->
  absent_falsy_or_object (field (member x "jobToBeDone") "avaliacao") = true ->
  absent_falsy_or_object (member x "tomDeVoz") = true ->
  absent_falsy_or_object (member x "experiencia") = true ->
  absent_falsy_or_object (field (member x "experiencia") "cta") = true ->
  prioridades_sound' (member x "prioridadesTop3") ->
  returns (normalizeV6Data' x) = true.
Proof.
  intros HJ HA HT HE HC HP. rewrite normalizeV6Data_unfolded.
  destruct (returns_true _ (section_value_returns default_jobToBeDone
                              jobToBeDone_defaults _ HJ
                              ltac:(intros v Hv Hobj; apply jobToBeDone_defaults_returns;
                                    [exact Hobj | rewrite Hv in HA; exact HA])))
    as [j ->].
  cbn [bind].
  destruct (returns_true _ (section_value_returns default_tomDeVoz
                              tomDeVoz_defaults _ HT
                              ltac:(intros v _ Hobj; now apply tomDeVoz_defaults_returns)))
    as [t0 Ht0].
  rewrite Ht0. cbn [bind].
  destruct (returns_true _ (section_value_returns default_experiencia
                              experiencia_defaults _ HE
                              ltac:(intros v _ Hobj;
                                    now apply experiencia_defaults_returns)))
    as [e0 He0].
  rewrite He0. cbn [bind].
  destruct (returns_true _ (prioridades_value_sound _ HP)) as [p ->]. cbn [bind].
  assert (St : TSettled t0).
  { eapply section_value_final; [apply TSettled_default | | exact Ht0].
    apply tomDeVoz_defaults_settled. }
  assert (Se : ESettled e0).
  { eapply section_value_final; [apply ESettled_default | | exact He0].
    apply experiencia_defaults_settled. }
  destruct (returns_true _ (fix_range_object "nota" t0 ltac:(apply St))) as [t ->].
  cbn [bind].
  destruct (returns_true _ (fix_range_object "nota" e0 ltac:(apply Se))) as [e1 He1].
  rewrite He1. cbn [bind].
  apply fix_range_returns in He1. destruct He1 as [_ [[O1 _] [K1 _]]].
  unfold within_named. rewrite K1 by reflexivity.
  assert (Hc : exists c, get_named e0 "cta" = Some c /\ is_object c = true).
  { unfold section_value in He0.
    destruct (member x "experiencia") as [v |] eqn:Ev;
      [destruct (truthy (Some v)) eqn:Etv |];
      try (injection He0 as <-; eexists; split; reflexivity).
    unfold experiencia_defaults in He0.
    apply bind_returns in He0. destruct He0 as [v1 [H1 He0]].
    apply bind_returns in He0. destruct He0 as [v2 [H2 He0]].
    apply bind_returns in He0. destruct He0 as [v3 [H3 H4]].
    apply ensure_defaults in H1. destruct H1 as [_ K1'].
    apply ensure_defaults in H2. destruct H2 as [_ K2'].
    apply ensure_defaults in H3. destruct H3 as [_ K3'].
    apply ensure_defaults in H4. destruct H4 as [D4 _].
    unfold defaults_to in D4. rewrite K3', K2', K1' in D4 by reflexivity.
    eexists. split; [exact D4 |]. cbn [field] in HC. unfold defaulted.
    destruct (get_named v "cta") as [c |] eqn:Ec; [| reflexivity].
    destruct (truthy (Some c)) eqn:Etc; [| reflexivity].
    eapply absent_falsy_or_object_inv; eauto. }
  destruct Hc as [c [-> Oc]].
  destruct (returns_true _ (fix_range_object "clareza" c Oc)) as [c' ->].
  cbn [bind].
  destruct (returns_true _ (set_named_object e1 "cta" c' O1)) as [e ->].
  reflexivity.
Qed.

(** *** The validation of a normalized document *)

Lemma unique_keys_object fs :
  unique_keys (VObj fs) ->
  NoDup (map fst fs) /\ forall k v, lookup k fs = Some v -> unique_keys v.
Proof.
  cbn [unique_keys]. intros [Hnodup Hall]. split; [exact Hnodup |].
  clear Hnodup. induction fs as [| [k' v'] fs IH]; intros k v; cbn [lookup];
    [discriminate |].
  destruct Hall as [Hv' Hall]. destruct (String.eqb k k').
  - now intros [= <-].
  - now apply IH.
Qed.

Lemma unique_keys_get_named v k c :
  unique_keys v -> get_named v k = Some c -> unique_keys c.
Proof.
  destruct v as [| | | | items props | fs]; try discriminate; cbn [get_named].
  - cbn [unique_keys]. intros [_ [_ Hall]]. revert k c.
    induction props as [| [k' v'] props IH]; intros k c; cbn [lookup];
      [discriminate |].
    destruct Hall as [Hv' Hall]. destruct (String.eqb k k').
    + now intros [= <-].
    + now apply IH.
  - intros U. now apply unique_keys_object.
Qed.

Lemma unique_keys_shallow v : unique_keys v -> keys_unique v.
Proof. destruct v; cbn; tauto. Qed.

Lemma keys_assign k v fs a :
  In a (map fst (assign k v fs)) -> a = k \/ In a (map fst fs).
Proof.
  induction fs as [| [k' v'] fs IH]; cbn [assign map fst In].
  - intros [<- | []]. now left.
  - destruct (String.eqb k k'); cbn [map fst In]; [tauto |].
    intros [<- | H]; [tauto |]. apply IH in H. tauto.
Qed.

Lemma NoDup_assign k v fs :
  NoDup (map fst fs) -> NoDup (map fst (assign k v fs)).
Proof.
  induction fs as [| [k' v'] fs IH]; cbn [assign map fst]; intros H.
  - repeat constructor. intros [].
  - destruct (String.eqb_spec k k') as [-> | Hne]; cbn [map fst]; [exact H |].
    inversion H as [| ? ? Hnotin Hrest]; subst. constructor; [| now apply IH].
    intros Hin. apply keys_assign in Hin. destruct Hin as [-> | Hin]; auto.
Qed.

Lemma In_lookup k v fs :
  NoDup (map fst fs) -> In (k, v) fs -> lookup k fs = Some v.
Proof.
  induction fs as [| [k' v'] fs IH]; cbn [map fst In lookup]; [tauto |].
  intros Hnodup Hin. inversion Hnodup as [| ? ? Hnotin Hrest]; subst.
  destruct Hin as [[= -> ->] | Hin].
  - now rewrite String.eqb_refl.
  - destruct (String.eqb_spec k k') as [-> | _]; [| now apply IH].
    exfalso. apply Hnotin. apply (in_map fst) in Hin. exact Hin.
Qed.

Lemma set_named_keys_unique t k v t' :
  set_named t k v = Returns t' -> keys_unique t -> keys_unique t'.
Proof.
  destruct t; try discriminate; intros [= <-]; cbn [keys_unique]; auto.
  apply NoDup_assign.
Qed.

Lemma ensure_keys_unique k d t t' :
  ensure k d t = Returns t' -> keys_unique t -> keys_unique t'.
Proof.
  unfold ensure. destruct (truthy (get_named t k)); [now intros [= <-] |].
  apply set_named_keys_unique.
Qed.

Lemma fix_range_keys_unique k t t' :
  fix_range k t = Returns t' -> keys_unique t -> keys_unique t'.
Proof.
  unfold fix_range. destruct (in_range (get_named t k)); [now intros [= <-] |].
  apply set_named_keys_unique.
Qed.

Lemma default_experiencia_keys_unique : keys_unique default_experiencia.
Proof.
  cbn. repeat constructor; cbn; intuition discriminate.
Qed.

Lemma default_cta_keys_unique : keys_unique default_cta.
Proof.
  cbn. repeat constructor; cbn; intuition discriminate.
Qed.

(** The final [experiencia] and its [cta] have distinct property names when
    those of the input have. *)
Lemma experiencia_keys_unique o e0 e1 e :
  section_value default_experiencia experiencia_defaults o = Returns e0 ->
  fix_range "nota" e0 = Returns e1 ->
  within_named "cta" (fix_range "clareza") e1 = Returns e ->
  (forall v, o = Some v ->
             keys_unique v /\ forall c, get_named v "cta" = Some c -> keys_unique c) ->
  keys_unique e /\ forall c, get_named e "cta" = Some c -> keys_unique c.
Proof.
  intros He0 He1 He Hin.
  assert (H0 : keys_unique e0
               /\ forall c, get_named e0 "cta" = Some c -> keys_unique c).
  { unfold section_value in He0. destruct o as [v |].
    - destruct (Hin v eq_refl) as [Uv Uc].
      destruct (truthy (Some v)).
      + unfold experiencia_defaults in He0.
        apply bind_returns in He0. destruct He0 as [v1 [H1 He0]].
        apply bind_returns in He0. destruct He0 as [v2 [H2 He0]].
        apply bind_returns in He0. destruct He0 as [v3 [H3 H4]].
        split.
        * eapply ensure_keys_unique; [exact H4 |].
          eapply ensure_keys_unique; [exact H3 |].
          eapply ensure_keys_unique; [exact H2 |].
          eapply ensure_keys_unique; [exact H1 | exact Uv].
        * apply ensure_defaults in H1. destruct H1 as [_ K1].
          apply ensure_defaults in H2. destruct H2 as [_ K2].
          apply ensure_defaults in H3. destruct H3 as [_ K3].
          apply ensure_defaults in H4. destruct H4 as [D4 _].
          unfold defaults_to in D4. rewrite K3, K2, K1 in D4 by reflexivity.
          intros c Hc. rewrite D4 in Hc. injection Hc as <-. unfold defaulted.
          destruct (get_named v "cta") as [c0 |] eqn:Ec;
            [| apply default_cta_keys_unique].
          destruct (truthy (Some c0)); [now apply Uc | apply default_cta_keys_unique].
      + injection He0 as <-. split; [apply default_experiencia_keys_unique |].
        intros c [= <-]. apply default_cta_keys_unique.
    - injection He0 as <-. split; [apply default_experiencia_keys_unique |].
      intros c [= <-]. apply default_cta_keys_unique. }
  destruct H0 as [U0 C0].
  pose proof (fix_range_keys_unique _ _ _ He1 U0) as U1.
  apply fix_range_returns in He1. destruct He1 as [_ [_ [K1 _]]].
  apply within_named_returns in He. destruct He as [c [c' [Hc [Hfix Hset]]]].
  rewrite K1 in Hc by reflexivity.
  pose proof (fix_range_keys_unique _ _ _ Hfix (C0 c Hc)) as Uc'.
  split; [eapply set_named_keys_unique; eassumption |].
  apply set_named_returns in Hset. destruct Hset as [_ [_ [Hget _]]].
  intros c'' Hc''. rewrite Hget in Hc''. now injection Hc'' as <-.
Qed.

Lemma validate_entries_source properties p fs :
  forall errs e,
    validate_entries engine_to_number number_to_string properties p fs
    = Returns errs ->
    In e errs ->
    exists key v s errs',
      In (key, v) fs /\ property_schema key properties = Some s
      /\ validate engine_to_number number_to_string v s (p ++ "." ++ key)
         = Returns errs'
      /\ In e errs'.
Proof.
  induction fs as [| [key v] fs IH]; intros errs e H Hin; cbn [validate_entries] in H.
  - injection H as <-. contradiction.
  - destruct (property_schema key properties) as [s |] eqn:Es.
    + apply bind_returns in H. destruct H as [e1 [H1 H]].
      apply bind_returns in H. destruct H as [e2 [H2 H]].
      injection H as <-. apply in_app_or in Hin. destruct Hin as [Hin | Hin].
      * exists key, v, s, e1. cbn [In]. auto.
      * destruct (IH _ _ H2 Hin) as [key' [v' [s' [errs' [Hf Hrest]]]]].
        exists key', v', s', errs'. cbn [In]. auto.
    + destruct (IH _ _ H Hin) as [key' [v' [s' [errs' [Hf Hrest]]]]].
      exists key', v', s', errs'. cbn [In]. auto.
Qed.

(** Where an error of an object comes from: a required key that is missing,
    or the value of a property, at a path below the one of that property. *)
Lemma validate_object_source fs required properties p errs e :
  NoDup (map fst fs) ->
  validate engine_to_number number_to_string (VObj fs)
    (SObject required properties) p = Returns errs ->
  In e errs ->
  (exists names name,
      required = Some names /\ In name names
      /\ has_property name fs = false /\ e = missing_error name p)
  \/ exists key v s errs',
      lookup key fs = Some v /\ property_schema key properties = Some s
      /\ validate engine_to_number number_to_string v s (p ++ "." ++ key)
         = Returns errs'
      /\ In e errs'
      /\ String.prefix (p ++ "." ++ key) (path e) = true.
Proof.
  intros Hnodup H Hin.
  rewrite (validate_object engine_to_number number_to_string) in H.
  apply bind_returns in H. destruct H as [rest [Hrest H]]. injection H as <-.
  apply in_app_or in Hin. destruct Hin as [Hin | Hin].
  - left. unfold missing_required in Hin. destruct required as [req |];
      [| contradiction].
    apply in_flat_map in Hin. destruct Hin as [name [Hname Hin]].
    exists req, name. destruct (has_property name fs); [contradiction |].
    destruct Hin as [<- | []]. auto.
  - right. destruct (validate_entries_source _ _ _ _ _ Hrest Hin)
      as [key [v [s [errs' [Hf [Hs [Hv He]]]]]]].
    exists key, v, s, errs'. repeat split; auto using In_lookup.
    pose proof (validate_below engine_to_number number_to_string _ _ _ _ Hv) as B.
    unfold below_path in B. rewrite Forall_forall in B. now apply B.
Qed.

Lemma score_validates n p :
  in_range (Some (VNum n)) = true ->
  validate engine_to_number number_to_string (VNum n) score_schema p = Returns [].
Proof.
  cbn [in_range]. intros H. apply andb_prop in H. destruct H as [Hlow Hhigh].
  apply negb_true_iff in Hlow, Hhigh.
  unfold score_schema. cbn [validate below above to_number bind not_a_number].
  now rewrite Hlow, Hhigh.
Qed.

Lemma score_returns v p :
  in_range (Some v) = true ->
  exists errs,
    validate engine_to_number number_to_string v score_schema p = Returns errs.
Proof.
  destruct v; try discriminate. intros H. rewrite (score_validates _ _ H). eauto.
Qed.

Lemma number_free_property required ps key s :
  number_free (SObject required (Some ps)) = true ->
  own_schema key ps = Some s -> number_free s = true.
Proof.
  cbn [number_free].
  induction ps as [| [k s'] ps IH]; cbn [own_schema snd]; [discriminate |].
  intros H. apply andb_prop in H. destruct H as [Hs' Hall].
  destruct (String.eqb key k); [now intros [= <-] | now apply IH].
Qed.

Lemma validate_entries_returns properties p fs :
  (forall key v s,
      In (key, v) fs -> property_schema key properties = Some s ->
      exists errs,
        validate engine_to_number number_to_string v s (p ++ "." ++ key)
        = Returns errs) ->
  exists errs,
    validate_entries engine_to_number number_to_string properties p fs
    = Returns errs.
Proof.
  induction fs as [| [key v] fs IH]; intros H; cbn [validate_entries]; [eauto |].
  destruct IH as [e2 E2].
  { intros key' v' s' Hin. apply H. now right. }
  destruct (property_schema key properties) as [s |] eqn:Es; [| eauto].
  destruct (H key v s (or_introl eq_refl) Es) as [e1 ->]. rewrite E2.
  cbn [bind]. eauto.
Qed.

Lemma validate_object_returns fs required properties p :
  NoDup (map fst fs) ->
  (forall key v s,
      lookup key fs = Some v -> property_schema key properties = Some s ->
      exists errs,
        validate engine_to_number number_to_string v s (p ++ "." ++ key)
        = Returns errs) ->
  exists errs,
    validate engine_to_number number_to_string (VObj fs)
      (SObject required properties) p = Returns errs.
Proof.
  intros N H. rewrite (validate_object engine_to_number number_to_string).
  destruct (validate_entries_returns properties p fs) as [rest ->];
    [| cbn [bind]; eauto].
  intros key v s Hin. apply H. now apply In_lookup.
Qed.

(** The validator asks the engine for a number only where the schema expects
    one: against a schema that expects none it returns. *)
Lemma number_free_returns v :
  forall s p,
    number_free s = true ->
    exists errs, validate engine_to_number number_to_string v s p = Returns errs.
Proof.
  induction v as [| b | n | str | items props IHitems _ | fs IHfs]
    using value_induction; intros s p Hs;
    try (destruct s; try discriminate Hs; eexists; reflexivity).
  - destruct s as [req ps | mi ma its | | | | |]; try discriminate Hs;
      try (eexists; reflexivity).
    rewrite (validate_array engine_to_number number_to_string).
    destruct its as [itemSchema |]; [| cbn [validate_elements bind]; eauto].
    cbn [number_free] in Hs. unfold validate_elements.
    assert (E : forall i, exists rest,
                 validate_items engine_to_number number_to_string itemSchema p i
                   items = Returns rest).
    { induction IHitems as [| item items Hitem _ IH]; intros i;
        cbn [validate_items]; [eauto |].
      destruct (Hitem itemSchema (p ++ "[" ++ string_of_nat i ++ "]") Hs)
        as [e1 ->].
      destruct (IH (S i)) as [e2 ->]. cbn [bind]. eauto. }
    destruct (E 0) as [rest ->]. cbn [bind]. eauto.
  - destruct s as [req ps | mi ma its | | | | |]; try discriminate Hs;
      try (eexists; reflexivity).
    rewrite (validate_object engine_to_number number_to_string).
    destruct (validate_entries_returns ps p fs) as [rest ->];
      [| cbn [bind]; eauto].
    intros key v s Hin Hps. rewrite Forall_forall in IHfs.
    apply (IHfs (key, v) Hin). destruct ps as [ps |]; [| discriminate Hps].
    eapply number_free_property; eassumption.
Qed.

Ltac which_property Hs Hpre :=
  unfold property_schema in Hs; cbn [own_schema] in Hs;
  repeat lazymatch type of Hs with
    | (if String.eqb ?key ?name then _ else _) = _ =>
        destruct (String.eqb_spec key name) as [-> | _];
        [try (vm_compute in Hpre; discriminate Hpre) |]
    end;
  try discriminate Hs.

Ltac each_property Hs :=
  unfold property_schema in Hs; cbn [own_schema] in Hs;
  repeat match goal with
    | H : (if String.eqb ?key ?name then _ else _) = Some _ |- _ =>
        destruct (String.eqb_spec key name) as [-> | _];
        [injection H as <- |]
    end;
  try discriminate.

Ltac which_required Hname Hpath :=
  cbn [In] in Hname;
  repeat (destruct Hname as [<- | Hname];
          [try (vm_compute in Hpath; discriminate Hpath) |]);
  try contradiction.

Lemma section_value_keys_unique d step o v' :
  keys_unique d ->
  (forall v u, step v = Returns u -> keys_unique v -> keys_unique u) ->
  (forall v, o = Some v -> keys_unique v) ->
  section_value d step o = Returns v' -> keys_unique v'.
Proof.
  intros Hd Hstep Ho. unfold section_value. destruct o as [v |].
  - destruct (truthy (Some v)); [| now intros [= <-]].
    intros H. eapply Hstep; [exact H | now apply Ho].
  - now intros [= <-].
Qed.

Lemma tomDeVoz_keys_unique o t0 t :
  section_value default_tomDeVoz tomDeVoz_defaults o = Returns t0 ->
  fix_range "nota" t0 = Returns t ->
  (forall v, o = Some v -> keys_unique v) -> keys_unique t.
Proof.
  intros H0 H1 Ho. eapply fix_range_keys_unique; [exact H1 |].
  eapply section_value_keys_unique; [| | exact Ho | exact H0].
  - cbn. repeat constructor; cbn; intuition discriminate.
  - intros v u H Uv. unfold tomDeVoz_defaults in H.
    apply bind_returns in H. destruct H as [v1 [E1 E2]].
    eapply ensure_keys_unique; [exact E2 |].
    eapply ensure_keys_unique; [exact E1 | exact Uv].
Qed.

(** The scores of the document the normalizer returns. *)
Lemma normalizeV6Data_scores_ranged x y :
  unique_keys (VObj (spread x)) ->
  normalizeV6Data' x = Returns y -> scores_ranged y.
Proof.
  intros U H. pose proof (unique_keys_object _ U) as [N0 Usub].
  apply normalizeV6Data_returns in H.
  destruct H as [j [t0 [e0 [p [t [e1 [e [_ [Ht0 [He0 [_ [Ht [He1 [He ->]]]]]]]]]]]]]].
  assert (Ft : TFinal t).
  { eapply TFinal_intro; [| exact Ht].
    eapply section_value_final; [apply TSettled_default | | exact Ht0].
    apply tomDeVoz_defaults_settled. }
  assert (Fe : EFinal e).
  { eapply EFinal_intro; [| exact He1 | exact He].
    eapply section_value_final; [apply ESettled_default | | exact He0].
    apply experiencia_defaults_settled. }
  assert (Ut : keys_unique t).
  { eapply tomDeVoz_keys_unique; [exact Ht0 | exact Ht |].
    intros v Hv. apply unique_keys_shallow. exact (Usub _ _ Hv). }
  destruct (experiencia_keys_unique _ _ _ _ He0 He1 He) as [Ue Uc].
  { intros v Hv. pose proof (Usub _ _ Hv) as Uv. split.
    - now apply unique_keys_shallow.
    - intros c Hc. apply unique_keys_shallow.
      eapply unique_keys_get_named; eassumption. }
  destruct (normal_form_members (spread x)
              (defaulted (VStr "") (member x "objetivoInferido")) j t0 e0 p
              (score_value (member x "pontuacaoGeral")) t e1 e)
    as [_ [_ [_ [Mt [Me [_ [Mpg _]]]]]]].
  unfold member in Mt, Me, Mpg. cbn [spread] in Mt, Me, Mpg.
  destruct Ft as [_ [_ Rt]].
  destruct Fe as [_ [_ [_ [Re [c [Hc Rc]]]]]].
  eexists _, _, t, e, c. split; [reflexivity |].
  split; [unfold normal_form; repeat apply NoDup_assign; exact N0 |].
  split; [exact Mpg |]. split; [apply score_value_in_range |].
  split; [exact Mt |]. split; [exact Ut |]. split; [exact Rt |].
  split; [exact Me |]. split; [exact Ue |]. split; [exact Re |].
  split; [exact Hc |]. split; [now apply Uc | exact Rc].
Qed.

Lemma tomDeVoz_returns t p :
  keys_unique t -> Ranged "nota" t ->
  exists errs,
    validate engine_to_number number_to_string t tomDeVoz_schema p = Returns errs.
Proof.
  intros U [O R]. unfold tomDeVoz_schema.
  destruct t as [| | | | items props | T]; try discriminate O;
    [eexists; reflexivity |].
  cbn [keys_unique] in U. cbn [get_named] in R.
  apply validate_object_returns; [exact U |]. intros key v s Hl Hs.
  each_property Hs.
  - rewrite Hl in R. now apply score_returns.
  - now apply number_free_returns.
  - now apply number_free_returns.
Qed.

Lemma cta_returns c p :
  keys_unique c -> Ranged "clareza" c ->
  exists errs,
    validate engine_to_number number_to_string c cta_schema p = Returns errs.
Proof.
  intros U [O R]. unfold cta_schema.
  destruct c as [| | | | items props | C]; try discriminate O;
    [eexists; reflexivity |].
  cbn [keys_unique] in U. cbn [get_named] in R.
  apply validate_object_returns; [exact U |]. intros key v s Hl Hs.
  each_property Hs.
  - now apply number_free_returns.
  - rewrite Hl in R. now apply score_returns.
  - now apply number_free_returns.
Qed.

Lemma experiencia_returns e c p :
  keys_unique e -> Ranged "nota" e ->
  get_named e "cta" = Some c -> keys_unique c -> Ranged "clareza" c ->
  exists errs,
    validate engine_to_number number_to_string e experiencia_schema p
    = Returns errs.
Proof.
  intros U [O R] Hc Uc Rc. unfold experiencia_schema.
  destruct e as [| | | | items props | E]; try discriminate O;
    [eexists; reflexivity |].
  cbn [keys_unique] in U. cbn [get_named] in R, Hc.
  apply validate_object_returns; [exact U |]. intros key v s Hl Hs.
  each_property Hs.
  - rewrite Hl in R. now apply score_returns.
  - now apply number_free_returns.
  - now apply number_free_returns.
  - now apply number_free_returns.
  - rewrite Hc in Hl. injection Hl as <-. now apply cta_returns.
Qed.

(** The validator returns on a document whose scores are numbers. *)
Lemma scores_ranged_validates y :
  scores_ranged y ->
  exists errs,
    validate engine_to_number number_to_string y ANALYSIS_SCHEMA "root"
    = Returns errs.
Proof.
  intros [Y [pg [t [e [c [-> [NY [Mpg [Rpg [Mt [Ut [Rt [Me [Ue [Re [Hc [Uc Rc]]]]]]]]]]]]]]]]].
  unfold ANALYSIS_SCHEMA.
  apply validate_object_returns; [exact NY |]. intros key v s Hl Hs.
  each_property Hs.
  - now apply number_free_returns.
  - rewrite Mpg in Hl. injection Hl as <-. now apply score_returns.
  - now apply number_free_returns.
  - now apply number_free_returns.
  - rewrite Mt in Hl. injection Hl as <-. now apply tomDeVoz_returns.
  - rewrite Me in Hl. injection Hl as <-. eapply experiencia_returns; eassumption.
  - now apply number_free_returns.
Qed.

(** A document whose scores are numbers of the range has no validation
    error at the path of [experiencia.cta.clareza]. *)
Lemma clareza_not_reported y errs :
  scores_ranged y ->
  validate engine_to_number number_to_string y ANALYSIS_SCHEMA "root"
  = Returns errs ->
  Forall (fun err => path err <> "root.experiencia.cta.clareza") errs.
Proof.
  intros [Y [pg [t [e [c [-> [NY [_ [_ [_ [_ [_ [Me [Ue [Re [Hc [Ucta Rc]]]]]]]]]]]]]]]]].
  intros V. destruct Re as [Oe _]. destruct Rc as [Oc Rc].
  apply Forall_forall. intros err Hin Hpath. unfold ANALYSIS_SCHEMA in V.
  destruct (validate_object_source _ _ _ _ _ _ NY V Hin)
    as [[names [name [Hreq [Hname [_ ->]]]]]
       | [key [v [s [errs1 [Hl [Hs [Hv [Hin1 Hpre]]]]]]]]].
  { injection Hreq as <-. which_required Hname Hpath. }
  rewrite Hpath in Hpre. which_property Hs Hpre.
  injection Hs as <-. rewrite Me in Hl. injection Hl as <-.
  clear V Hin Hpre errs. unfold experiencia_schema in Hv.
  destruct e as [| | | | items props | E]; try discriminate Oe.
  { injection Hv as <-. destruct Hin1 as [<- | []]. discriminate Hpath. }
  cbn [keys_unique] in Ue. cbn [get_named] in Hc.
  destruct (validate_object_source _ _ _ _ _ _ Ue Hv Hin1)
    as [[names [name [Hreq [Hname [_ ->]]]]]
       | [key [v [s [errs2 [Hl [Hs [Hv2 [Hin2 Hpre]]]]]]]]].
  { injection Hreq as <-. which_required Hname Hpath. }
  rewrite Hpath in Hpre. which_property Hs Hpre.
  injection Hs as <-. rewrite Hc in Hl. injection Hl as <-.
  clear Hv Hin1 Hpre errs1. unfold cta_schema in Hv2.
  destruct c as [| | | | items props | C]; try discriminate Oc.
  { injection Hv2 as <-. destruct Hin2 as [<- | []]. discriminate Hpath. }
  cbn [keys_unique] in Ucta. cbn [get_named] in Rc.
  destruct (validate_object_source _ _ _ _ _ _ Ucta Hv2 Hin2)
    as [[names [name [Hreq [Hname [Hhas ->]]]]]
       | [key [v [s [errs3 [Hl [Hs [Hv3 [Hin3 Hpre]]]]]]]]].
  { injection Hreq as <-. which_required Hname Hpath.
    unfold has_property in Hhas.
    destruct (lookup "clareza" C); discriminate. }
  rewrite Hpath in Hpre. which_property Hs Hpre.
  injection Hs as <-. rewrite Hl in Rc.
  destruct v as [| | n | | |]; try discriminate Rc.
  rewrite (score_validates _ _ Rc) in Hv3. injection Hv3 as <-. contradiction.
Qed.

(** C4, as amended.  In the document the normalizer returns, each of the
    four scores that was not a number of [0,10] in the input is 0; in
    particular a [clareza] of 15 becomes 0, and 0 validated against the
    schema of that field gives no error.  The validation of the whole
    returned document returns, and none of its errors is at the path of
    [experiencia.cta.clareza].  The normalizer does return a document when
    the sections of the input are absent, falsy or objects; on a section
    that is a truthy primitive it throws and resets nothing. *)
Theorem out_of_range_scores_reset :
  forall x,
    (absent_falsy_or_object (member x "jobToBeDone") = true ->
     absent_falsy_or_object (field (member x "jobToBeDone") "avaliacao") = true ->
     absent_falsy_or_object (member x "tomDeVoz") = true ->
     absent_falsy_or_object (member x "experiencia") = true ->
     absent_falsy_or_object (field (member x "experiencia") "cta") = true ->
     prioridades_sound' (member x "prioridadesTop3") ->
     exists y, normalizeV6Data engine_to_number x = Returns y)
    /\ forall y,
        normalizeV6Data engine_to_number x = Returns y ->
        (in_range (member x "pontuacaoGeral") = false ->
         member y "pontuacaoGeral" = Some (VNum 0))
        /\ (in_range (field (member x "tomDeVoz") "nota") = false ->
            field (member y "tomDeVoz") "nota" = Some (VNum 0))
        /\ (in_range (field (member x "experiencia") "nota") = false ->
            field (member y "experiencia") "nota" = Some (VNum 0))
        /\ (in_range (field (field (member x "experiencia") "cta") "clareza") = false ->
            field (field (member y "experiencia") "cta") "clareza" = Some (VNum 0))
        /\ (field (field (member x "experiencia") "cta") "clareza" = Some (VNum 15) ->
            field (field (member y "experiencia") "cta") "clareza" = Some (VNum 0)
            /\ exists clareza_schema,
                schema_at ANALYSIS_SCHEMA ["experiencia"; "cta"; "clareza"]
                = Some clareza_schema
                /\ forall p,
                    validate engine_to_number number_to_string (VNum 0)
                      clareza_schema p
                    = Returns [])
        /\ (unique_keys (VObj (spread x)) ->
            exists validation,
              validateJsonSchema engine_to_number number_to_string y ANALYSIS_SCHEMA
              = Returns validation
              /\ Forall (fun err => path err <> "root.experiencia.cta.clareza")
                   (errors validation)).
Proof.
  intros x. split.
  - intros HJ HA HT HE HC HP. apply returns_true.
    now apply normalizeV6Data_sound_sections.
  - intros y H. pose proof H as Hy. apply normalizeV6Data_scores in H.
    destruct H as [Hpg [Ht [He Hc]]].
    split; [intros E; now rewrite Hpg, (score_value_reset _ E) |].
    split; [intros E; now rewrite Ht, (score_value_reset _ E) |].
    split; [intros E; now rewrite He, (score_value_reset _ E) |].
    split; [intros E; now rewrite Hc, (score_value_reset _ E) |].
    split.
    + intros E. split; [rewrite Hc, E; reflexivity |].
      exists score_schema. split; reflexivity.
    + intros U. pose proof (normalizeV6Data_scores_ranged x y U Hy) as R.
      destruct (scores_ranged_validates y R) as [errs V].
      unfold validateJsonSchema. rewrite V. cbn [bind]. eexists.
      split; [reflexivity |]. cbn [errors].
      now apply (clareza_not_reported y).
Qed.

(** C10, as amended.  When [jobToBeDone], [tomDeVoz] or [experiencia] is a
    truthy primitive the normalizer throws a TypeError, and [processAnalysis]
    answers a model output that parses to such a document with the generic
    analysis error event, which carries no code.  The normalizer returns
    whenever each of these three sections, and [jobToBeDone.avaliacao] and
    [experiencia.cta] as well, is absent, falsy or an object, and
    [prioridadesTop3] is not an object whose [length] exceeds 3. *)
Theorem normalizeV6Data_throws_on_primitive_section :
  forall x,
    (forall k,
        In k ["jobToBeDone"; "tomDeVoz"; "experiencia"] ->
        truthy_primitive (member x k) = true ->
        exists te,
          normalizeV6Data' x = Throws (TypeError te)
          /\ forall w requestBody before aiConfig brandManual analysisResult,
              getAIConfig w = Returns {| data := Some aiConfig; failure := None |} ->
              getBrandManual w = Returns {| data := Some brandManual; failure := None |} ->
              prepared w requestBody = Returns tt ->
              createCompletion w = Returns tt ->
              extractAnalysisResult w = Returns analysisResult ->
              analysisResult <> "" ->
              JSON_parse w analysisResult = Returns x ->
              processAnalysis engine_to_number number_to_string w requestBody
                {| closed := false; written := before |}
              = (Returns tt,
                 {| closed := true;
                    written :=
                      (before ++ analysis_progress
                         ++ [Write (error
                                      {| ErrorResponse.error :=
                                           "Erro na an" ++ a_acute ++ "lise";
                                         ErrorResponse.message :=
                                           Some (MessageOf (TypeError te));
                                         ErrorResponse.code := None;
                                         ErrorResponse.details := None;
                                         ErrorResponse.schema_version := None;
                                         ErrorResponse.timestamp := Some (now w) |});
                             Close])%list |}))
    /\ (absent_falsy_or_object (member x "jobToBeDone") = true ->
        absent_falsy_or_object (field (member x "jobToBeDone") "avaliacao") = true ->
        absent_falsy_or_object (member x "tomDeVoz") = true ->
        absent_falsy_or_object (member x "experiencia") = true ->
        absent_falsy_or_object (field (member x "experiencia") "cta") = true ->
        prioridades_sound' (member x "prioridadesTop3") ->
        returns (normalizeV6Data' x) = true).
Proof.
  intros x. split.
  - intros k Hin Hprim.
    destruct (normalizeV6Data_primitive_section x k Hin Hprim) as [te Hthrows].
    exists te. split; [exact Hthrows |].
    intros w requestBody before aiConfig brandManual analysisResult
           Hai Hbrand Hprep Hcall Htext Hnonempty Hparse.
    eapply normalizer_failure_reported; eassumption.
  - apply normalizeV6Data_sound_sections.
Qed.

(** *** What validation can still report after normalization *)

(** X22.  After normalization the version and the scores at the top level,
    in [tomDeVoz] and in [experiencia] draw no validation error: the run
    of the validator on the returned document returns, and no error has
    one of their paths. *)
Theorem normalized_scores_not_reported :
  forall x y,
    unique_keys (VObj (spread x)) ->
    normalizeV6Data engine_to_number x = Returns y ->
    exists validation,
      validateJsonSchema engine_to_number number_to_string y ANALYSIS_SCHEMA
      = Returns validation
      /\ Forall (fun err =>
                   ~ In (path err)
                       ["root.schemaVersion"; "root.pontuacaoGeral";
                        "root.tomDeVoz.nota"; "root.experiencia.nota"])
           (errors validation).
Proof.
  intros x y U H.
  pose proof (normalizeV6Data_scores_ranged x y U H) as R.
  destruct (scores_ranged_validates y R) as [errs V].
  apply normalizeV6Data_kept in H. destruct H as [_ [Msv _]].
  unfold validateJsonSchema. rewrite V. cbn [bind]. eexists.
  split; [reflexivity |]. cbn [errors].
  destruct R as [Y [pg [t [e [c [-> [NY [Mpg [Rpg [Mt [Ut [Rt [Me [Ue [Re _]]]]]]]]]]]]]]].
  unfold member in Msv. cbn [spread] in Msv.
  destruct Rt as [Ot Rt]. destruct Re as [Oe Re].
  apply Forall_forall. intros err Hin Hpaths. unfold ANALYSIS_SCHEMA in V.
  cbn [In] in Hpaths.
  destruct Hpaths as [Hpath | [Hpath | [Hpath | [Hpath | []]]]]; symmetry in Hpath.
  - destruct (validate_object_source _ _ _ _ _ _ NY V Hin)
      as [[names [name [Hreq [Hname [Hhas ->]]]]]
         | [key [v [s [errs1 [Hl [Hs [Hv [Hin1 Hpre]]]]]]]]].
    { injection Hreq as <-. which_required Hname Hpath.
      unfold has_property in Hhas. rewrite Msv in Hhas. discriminate. }
    rewrite Hpath in Hpre. which_property Hs Hpre.
    injection Hs as <-. rewrite Msv in Hl. injection Hl as <-.
    vm_compute in Hv. injection Hv as <-. contradiction.
  - destruct (validate_object_source _ _ _ _ _ _ NY V Hin)
      as [[names [name [Hreq [Hname [Hhas ->]]]]]
         | [key [v [s [errs1 [Hl [Hs [Hv [Hin1 Hpre]]]]]]]]].
    { injection Hreq as <-. which_required Hname Hpath.
      unfold has_property in Hhas. rewrite Mpg in Hhas. discriminate. }
    rewrite Hpath in Hpre. which_property Hs Hpre.
    injection Hs as <-. rewrite Mpg in Hl. injection Hl as <-.
    destruct pg as [| | n | | |]; try discriminate Rpg.
    rewrite (score_validates _ _ Rpg) in Hv. injection Hv as <-. contradiction.
  - destruct (validate_object_source _ _ _ _ _ _ NY V Hin)
      as [[names [name [Hreq [Hname [Hhas ->]]]]]
         | [key [v [s [errs1 [Hl [Hs [Hv [Hin1 Hpre]]]]]]]]].
    { injection Hreq as <-. which_required Hname Hpath. }
    rewrite Hpath in Hpre. which_property Hs Hpre.
    injection Hs as <-. rewrite Mt in Hl. injection Hl as <-.
    clear V Hin Hpre errs. unfold tomDeVoz_schema in Hv.
    destruct t as [| | | | items props | T]; try discriminate Ot.
    { injection Hv as <-. destruct Hin1 as [<- | []]. discriminate Hpath. }
    cbn [keys_unique] in Ut. cbn [get_named] in Rt.
    destruct (validate_object_source _ _ _ _ _ _ Ut Hv Hin1)
      as [[names [name [Hreq [Hname [Hhas ->]]]]]
         | [key [v [s [errs2 [Hl [Hs [Hv2 [Hin2 Hpre]]]]]]]]].
    { injection Hreq as <-. which_required Hname Hpath.
      unfold has_property in Hhas. destruct (lookup "nota" T); discriminate. }
    rewrite Hpath in Hpre. which_property Hs Hpre.
    injection Hs as <-. rewrite Hl in Rt.
    destruct v as [| | n | | |]; try discriminate Rt.
    rewrite (score_validates _ _ Rt) in Hv2. injection Hv2 as <-. contradiction.
  - destruct (validate_object_source _ _ _ _ _ _ NY V Hin)
      as [[names [name [Hreq [Hname [Hhas ->]]]]]
         | [key [v [s [errs1 [Hl [Hs [Hv [Hin1 Hpre]]]]]]]]].
    { injection Hreq as <-. which_required Hname Hpath. }
    rewrite Hpath in Hpre. which_property Hs Hpre.
    injection Hs as <-. rewrite Me in Hl. injection Hl as <-.
    clear V Hin Hpre errs. unfold experiencia_schema in Hv.
    destruct e as [| | | | items props | E]; try discriminate Oe.
    { injection Hv as <-. destruct Hin1 as [<- | []]. discriminate Hpath. }
    cbn [keys_unique] in Ue. cbn [get_named] in Re.
    destruct (validate_object_source _ _ _ _ _ _ Ue Hv Hin1)
      as [[names [name [Hreq [Hname [Hhas ->]]]]]
         | [key [v [s [errs2 [Hl [Hs [Hv2 [Hin2 Hpre]]]]]]]]].
    { injection Hreq as <-. which_required Hname Hpath.
      unfold has_property in Hhas. destruct (lookup "nota" E); discriminate. }
    rewrite Hpath in Hpre. which_property Hs Hpre.
    injection Hs as <-. rewrite Hl in Re.
    destruct v as [| | n | | |]; try discriminate Re.
    rewrite (score_validates _ _ Re) in Hv2. injection Hv2 as <-. contradiction.
Qed.

(** X23.  The list of priorities the normalizer returns has one to three
    items, and the validator finds no error at the path of the list
    itself: what is left are the errors of its items. *)
Theorem normalized_prioridades_within_bounds :
  forall x y items props,
    normalizeV6Data engine_to_number x = Returns y ->
    member y "prioridadesTop3" = Some (VArr items props) ->
    1 <= List.length items <= 3
    /\ forall errs,
        validate engine_to_number number_to_string (VArr items props)
          (SArray (Some 1) (Some 3) (Some prioridade_schema)) "root.prioridadesTop3"
        = Returns errs ->
        Forall (fun err => path err <> "root.prioridadesTop3") errs.
Proof.
  intros x y items props H My. apply normalizeV6Data_kept in H.
  destruct H as [_ [_ [_ [_ [[p [Hp Mp]] _]]]]].
  rewrite Mp in My. injection My as ->.
  apply prioridades_value_final in Hp. destruct Hp as [_ [Hzero Hover]].
  cbn [length_is_zero] in Hzero. cbn [length_exceeds_3] in Hover.
  injection Hover as Hover. apply Nat.eqb_neq in Hzero.
  apply Nat.ltb_ge in Hover.
  split; [lia |]. intros errs V.
  rewrite (validate_array engine_to_number number_to_string) in V.
  destruct (validate_elements engine_to_number number_to_string
              (Some prioridade_schema) "root.prioridadesTop3" items)
    as [rest |] eqn:E; [| discriminate].
  cbn [bind] in V.
  assert (Hfew : too_few (Some 1) (List.length items) "root.prioridadesTop3" = []).
  { unfold too_few. replace (Nat.ltb (List.length items) 1) with false
      by (symmetry; apply Nat.ltb_ge; lia). reflexivity. }
  assert (Hmany : too_many (Some 3) (List.length items) "root.prioridadesTop3" = []).
  { unfold too_many. replace (Nat.ltb 3 (List.length items)) with false
      by (symmetry; apply Nat.ltb_ge; lia). reflexivity. }
  rewrite Hfew, Hmany in V. injection V as <-. cbn [app].
  apply (validate_items_deeper engine_to_number number_to_string) in E.
  eapply Forall_impl; [| exact E]. cbv beta. intros err Hlen Heq.
  rewrite Heq in Hlen. lia.
Qed.

Lemma validate_entries_valid properties p fs :
  (forall key v s,
      In (key, v) fs -> property_schema key properties = Some s ->
      validate engine_to_number number_to_string v s (p ++ "." ++ key) = Returns []) ->
  validate_entries engine_to_number number_to_string properties p fs = Returns [].
Proof.
  induction fs as [| [key v] fs IH]; intros H; cbn [validate_entries]; [reflexivity |].
  rewrite IH by (intros key' v' s' Hin; apply H; now right).
  destruct (property_schema key properties) as [s |] eqn:Es; [| reflexivity].
  now rewrite (H key v s (or_introl eq_refl) Es).
Qed.

Lemma validate_object_valid fs required properties p :
  NoDup (map fst fs) ->
  (forall name, In name required -> has_property name fs = true) ->
  (forall key v s,
      lookup key fs = Some v -> property_schema key properties = Some s ->
      validate engine_to_number number_to_string v s (p ++ "." ++ key) = Returns []) ->
  validate engine_to_number number_to_string (VObj fs)
    (SObject (Some required) properties) p = Returns [].
Proof.
  intros N Hreq H. rewrite (validate_object engine_to_number number_to_string).
  rewrite validate_entries_valid
    by (intros key v s Hin; apply H; now apply In_lookup).
  cbn [bind]. f_equal. rewrite app_nil_r. unfold missing_required.
  induction required as [| name required IH]; [reflexivity |].
  cbn [flat_map]. rewrite (Hreq name (or_introl eq_refl)).
  apply IH. intros name' Hin. apply Hreq. now right.
Qed.

Lemma section_value_default d step o :
  truthy o = false -> section_value d step o = Returns d.
Proof.
  unfold section_value. destruct o as [v |]; [| reflexivity]. now intros ->.
Qed.

(** X24.  The defaults of the normalizer satisfy the schema: a document
    that brings no section, an empty or no list of priorities and, for
    [objetivoInferido], a string or nothing truthy, is normalized into a
    document the validator accepts without any error. *)
Theorem defaults_pass_validation :
  forall x,
    unique_keys (VObj (spread x)) ->
    truthy (member x "objetivoInferido") = false
    \/ (exists s, member x "objetivoInferido" = Some (VStr s)) ->
    truthy (member x "jobToBeDone") = false ->
    truthy (member x "tomDeVoz") = false ->
    truthy (member x "experiencia") = false ->
    truthy (member x "prioridadesTop3") = false
    \/ (exists props, member x "prioridadesTop3" = Some (VArr [] props)) ->
    exists y,
      normalizeV6Data engine_to_number x = Returns y
      /\ member y "jobToBeDone" = Some default_jobToBeDone
      /\ member y "tomDeVoz" = Some default_tomDeVoz
      /\ member y "experiencia" = Some default_experiencia
      /\ member y "prioridadesTop3" = Some default_prioridadesTop3
      /\ validateJsonSchema engine_to_number number_to_string y ANALYSIS_SCHEMA
         = Returns {| valid := true; errors := [] |}.
Proof.
  intros x U Ho Hj Ht He Hp. pose proof (unique_keys_object _ U) as [N0 _].
  assert (Ep : prioridades_value' (member x "prioridadesTop3")
               = Returns default_prioridadesTop3).
  { unfold prioridades_value, prioridades_start.
    destruct Hp as [Hp | [props ->]]; [| reflexivity].
    destruct (member x "prioridadesTop3") as [p |]; [| reflexivity].
    rewrite Hp. reflexivity. }
  eexists. rewrite normalizeV6Data_unfolded.
  rewrite (section_value_default _ _ _ Hj), (section_value_default _ _ _ Ht),
    (section_value_default _ _ _ He), Ep.
  split; [reflexivity |].
  destruct (normal_form_members (spread x)
              (defaulted (VStr "") (member x "objetivoInferido"))
              default_jobToBeDone default_tomDeVoz default_experiencia
              default_prioridadesTop3
              (score_value (member x "pontuacaoGeral"))
              default_tomDeVoz default_experiencia default_experiencia)
    as [Msv [Mo [Mj [Mt [Me [Mp [Mpg _]]]]]]].
  split; [exact Mj |]. split; [exact Mt |]. split; [exact Me |].
  split; [exact Mp |].
  unfold member in Msv, Mo, Mj, Mt, Me, Mp, Mpg.
  cbn [spread] in Msv, Mo, Mj, Mt, Me, Mp, Mpg.
  assert (NY : NoDup (map fst (normal_form (spread x)
              (defaulted (VStr "") (member x "objetivoInferido"))
              default_jobToBeDone default_tomDeVoz default_experiencia
              default_prioridadesTop3
              (score_value (member x "pontuacaoGeral"))
              default_tomDeVoz default_experiencia default_experiencia))).
  { unfold normal_form. repeat apply NoDup_assign. exact N0. }
  set (Y := normal_form _ _ _ _ _ _ _ _ _ _) in *. clearbody Y.
  unfold validateJsonSchema, ANALYSIS_SCHEMA.
  rewrite validate_object_valid; [reflexivity | exact NY | |].
  - intros name Hname. unfold has_property. cbn [In] in Hname.
    destruct Hname as [<- | [<- | [<- | [<- | [<- | [<- | []]]]]]].
    + now rewrite Msv.
    + now rewrite Mpg.
    + now rewrite Mj.
    + now rewrite Mt.
    + now rewrite Me.
    + now rewrite Mp.
  - intros key v s Hl Hs. each_property Hs.
    + rewrite Msv in Hl. injection Hl as <-. reflexivity.
    + rewrite Mpg in Hl. injection Hl as <-.
      pose proof (score_value_in_range (lookup "pontuacaoGeral" (spread x))) as R.
      destruct (score_value (lookup "pontuacaoGeral" (spread x))) as [| | n | | |];
        try discriminate R.
      now apply score_validates.
    + rewrite Mo in Hl. injection Hl as <-. unfold defaulted.
      unfold member in Ho. destruct Ho as [Ho | [str Ho]].
      * destruct (lookup "objetivoInferido" (spread x)) as [o |]; [| reflexivity].
        rewrite Ho. reflexivity.
      * rewrite Ho. destruct (truthy (Some (VStr str))); reflexivity.
    + rewrite Mj in Hl. injection Hl as <-. reflexivity.
    + rewrite Mt in Hl. injection Hl as <-. reflexivity.
    + rewrite Me in Hl. injection Hl as <-. reflexivity.
    + rewrite Mp in Hl. injection Hl as <-. reflexivity.
Qed.

(** *** What a document without errors looks like *)

Lemma lookup_In k v fs : lookup k fs = Some v -> In (k, v) fs.
Proof.
  induction fs as [| [k' v'] fs IH]; cbn [lookup]; [discriminate |].
  destruct (String.eqb_spec k k') as [-> | _].
  - intros [= ->]. now left.
  - intros H. right. now apply IH.
Qed.

Lemma validate_entries_nil properties p fs :
  validate_entries engine_to_number number_to_string properties p fs = Returns [] ->
  forall key v s,
    In (key, v) fs -> property_schema key properties = Some s ->
    validate engine_to_number number_to_string v s (p ++ "." ++ key) = Returns [].
Proof.
  induction fs as [| [key' v'] fs IH]; intros H key v s Hin Hs; [contradiction |].
  cbn [validate_entries] in H.
  destruct (property_schema key' properties) as [s' |] eqn:Es'.
  - apply bind_returns in H. destruct H as [e1 [H1 H]].
    apply bind_returns in H. destruct H as [e2 [H2 H]].
    injection H as H. apply app_eq_nil in H. destruct H as [-> ->].
    destruct Hin as [[= -> ->] | Hin]; [congruence | eauto].
  - destruct Hin as [[= -> ->] | Hin]; [congruence | eauto].
Qed.

Lemma missing_required_nil names fs p :
  missing_required (Some names) fs p = [] ->
  forall name, In name names -> has_property name fs = true.
Proof.
  unfold missing_required. induction names as [| n names IH]; intros H name Hin;
    [contradiction |].
  cbn [flat_map] in H. apply app_eq_nil in H. destruct H as [Hn Hrest].
  destruct Hin as [<- | Hin]; [| now apply IH].
  destruct (has_property n fs); [reflexivity | discriminate].
Qed.

Lemma validate_object_nil obj names properties p :
  validate engine_to_number number_to_string obj (SObject (Some names) properties) p
  = Returns [] ->
  exists fs,
    obj = VObj fs
    /\ (forall name, In name names -> has_property name fs = true)
    /\ forall key v s,
        lookup key fs = Some v -> property_schema key properties = Some s ->
        validate engine_to_number number_to_string v s (p ++ "." ++ key) = Returns [].
Proof.
  intros H. destruct obj as [| | | | | fs]; try discriminate.
  rewrite (validate_object engine_to_number number_to_string) in H.
  apply bind_returns in H. destruct H as [rest [Hrest H]].
  injection H as H. apply app_eq_nil in H. destruct H as [Hmissing ->].
  exists fs. split; [reflexivity |]. split.
  - now apply missing_required_nil with (p := p).
  - intros key v s Hl. apply (validate_entries_nil _ _ _ Hrest).
    now apply lookup_In.
Qed.

Lemma validate_items_nil itemSchema p items :
  forall i,
    validate_items engine_to_number number_to_string itemSchema p i items
    = Returns [] ->
    Forall (fun item =>
              exists q, validate engine_to_number number_to_string item itemSchema q
                        = Returns []) items.
Proof.
  induction items as [| item items IH]; intros i H; [constructor |].
  cbn [validate_items] in H.
  apply bind_returns in H. destruct H as [e1 [H1 H]].
  apply bind_returns in H. destruct H as [e2 [H2 H]].
  injection H as H. apply app_eq_nil in H. destruct H as [-> ->].
  constructor; eauto.
Qed.

Lemma validate_array_nil obj m n itemSchema p :
  validate engine_to_number number_to_string obj
    (SArray (Some (S m)) (Some (S n)) (Some itemSchema)) p = Returns [] ->
  exists items props,
    obj = VArr items props
    /\ S m <= List.length items <= S n
    /\ Forall (fun item =>
                 exists q, validate engine_to_number number_to_string item itemSchema q
                           = Returns []) items.
Proof.
  intros H. destruct obj as [| | | | items props |]; try discriminate.
  rewrite (validate_array engine_to_number number_to_string) in H.
  apply bind_returns in H. destruct H as [rest [Hrest H]].
  injection H as H. apply app_eq_nil in H. destruct H as [Hfew H].
  apply app_eq_nil in H. destruct H as [Hmany ->].
  exists items, props. split; [reflexivity |]. split.
  - unfold too_few in Hfew. unfold too_many in Hmany. cbn [Nat.eqb negb andb] in *.
    destruct (Nat.ltb_spec (List.length items) (S m)); [discriminate |].
    destruct (Nat.ltb_spec (S n) (List.length items)); [discriminate |]. lia.
  - exact (validate_items_nil _ _ _ _ Hrest).
Qed.

Lemma validate_string_nil obj enum p :
  validate engine_to_number number_to_string obj (SString enum) p = Returns [] ->
  exists s, obj = VStr s /\ forall allowed, enum = Some allowed -> In s allowed.
Proof.
  intros H. destruct obj as [| | | s | |]; try discriminate.
  exists s. split; [reflexivity |]. intros allowed ->.
  cbn [validate not_a_string not_in_enum app] in H.
  destruct (existsb (String.eqb s) allowed) eqn:E; [| discriminate].
  apply existsb_exists in E. destruct E as [a [Hin Ha]].
  apply String.eqb_eq in Ha. now subst.
Qed.

Lemma validate_boolean_nil obj p :
  validate engine_to_number number_to_string obj SBoolean p = Returns [] ->
  exists b, obj = VBool b.
Proof. destruct obj; try discriminate. eauto. Qed.

Lemma validate_score_nil obj p :
  validate engine_to_number number_to_string obj score_schema p = Returns [] ->
  in_range (Some obj) = true.
Proof.
  intros H. destruct obj as [| | n | | |];
    try (unfold score_schema in H; cbn [validate below above bind] in H;
         repeat match type of H with
                | context [to_number ?e ?v] => destruct (to_number e v)
                end;
         cbn [bind not_a_number app] in H; discriminate).
  unfold score_schema in H.
  cbn [validate below above to_number bind not_a_number app] in H.
  cbn [in_range]. destruct (PrimFloat.ltb n 0); [discriminate |].
  destruct (PrimFloat.ltb 10 n); [discriminate | reflexivity].
Qed.

Lemma required_own name fs :
  has_property name fs = true ->
  existsb (String.eqb name) object_prototype_names = false ->
  exists v, lookup name fs = Some v.
Proof.
  unfold has_property. destruct (lookup name fs) as [v |]; [eauto | congruence].
Qed.

(** X25.  A document that [validateJsonSchema] finds valid against
    ANALYSIS_SCHEMA has what its readers rely on: the version [v6], the
    three scores as numbers of [0,10] (and [clareza] too when [cta] is
    there), [jobToBeDone] with a string [placeholderExemplo] and an
    [avaliacao] that holds a boolean [atinge] and a string
    [justificativa], and one to three priorities, each with the strings
    [resumo] and [motivo]. *)
Theorem valid_document_contract :
  forall y validation,
    validateJsonSchema engine_to_number number_to_string y ANALYSIS_SCHEMA
    = Returns validation ->
    valid validation = true ->
    member y "schemaVersion" = Some (VStr "v6")
    /\ in_range (member y "pontuacaoGeral") = true
    /\ in_range (field (member y "tomDeVoz") "nota") = true
    /\ in_range (field (member y "experiencia") "nota") = true
    /\ (forall cta,
           field (member y "experiencia") "cta" = Some cta ->
           in_range (get_named cta "clareza") = true
           /\ exists recomendacao,
               get_named cta "recomendacao" = Some (VStr recomendacao))
    /\ (exists placeholderExemplo atinge justificativa,
           field (member y "jobToBeDone") "placeholderExemplo"
           = Some (VStr placeholderExemplo)
           /\ field (field (member y "jobToBeDone") "avaliacao") "atinge"
              = Some (VBool atinge)
           /\ field (field (member y "jobToBeDone") "avaliacao") "justificativa"
              = Some (VStr justificativa))
    /\ exists items props,
        member y "prioridadesTop3" = Some (VArr items props)
        /\ 1 <= List.length items <= 3
        /\ Forall (fun item =>
                     exists resumo motivo,
                       get_named item "resumo" = Some (VStr resumo)
                       /\ get_named item "motivo" = Some (VStr motivo)) items.
Proof.
  intros y validation V Hvalid. unfold validateJsonSchema in V.
  apply bind_returns in V. destruct V as [errs [E V]]. injection V as <-.
  cbn [valid] in Hvalid. destruct errs; [| discriminate]. clear Hvalid.
  unfold ANALYSIS_SCHEMA in E. apply validate_object_nil in E.
  destruct E as [Y [-> [Hreq Hprops]]]. unfold member. cbn [spread].
  destruct (required_own "schemaVersion" Y (Hreq "schemaVersion" ltac:(cbn; tauto)) eq_refl)
    as [sv Msv].
  destruct (required_own "pontuacaoGeral" Y (Hreq "pontuacaoGeral" ltac:(cbn; tauto)) eq_refl)
    as [pg Mpg].
  destruct (required_own "jobToBeDone" Y (Hreq "jobToBeDone" ltac:(cbn; tauto)) eq_refl)
    as [j Mj].
  destruct (required_own "tomDeVoz" Y (Hreq "tomDeVoz" ltac:(cbn; tauto)) eq_refl)
    as [t Mt].
  destruct (required_own "experiencia" Y (Hreq "experiencia" ltac:(cbn; tauto)) eq_refl)
    as [e Me].
  destruct (required_own "prioridadesTop3" Y (Hreq "prioridadesTop3" ltac:(cbn; tauto)) eq_refl)
    as [p Mp].
  pose proof (Hprops _ _ _ Msv eq_refl) as Vsv.
  pose proof (Hprops _ _ _ Mpg eq_refl) as Vpg.
  pose proof (Hprops _ _ _ Mj eq_refl) as Vj.
  pose proof (Hprops _ _ _ Mt eq_refl) as Vt.
  pose proof (Hprops _ _ _ Me eq_refl) as Ve.
  pose proof (Hprops _ _ _ Mp eq_refl) as Vp.
  clear Hreq Hprops. rewrite Msv, Mpg, Mj, Mt, Me, Mp. cbn [field].
  split.
  { apply validate_string_nil in Vsv. destruct Vsv as [s [-> Hs]].
    destruct (Hs _ eq_refl) as [<- | []]. reflexivity. }
  split; [now apply validate_score_nil in Vpg |].
  split.
  { unfold tomDeVoz_schema in Vt. apply validate_object_nil in Vt.
    destruct Vt as [T [-> [Hreq Hprops]]]. cbn [get_named].
    destruct (required_own "nota" T (Hreq "nota" ltac:(cbn; tauto)) eq_refl) as [n Mn].
    rewrite Mn. exact (validate_score_nil _ _ (Hprops _ _ _ Mn eq_refl)). }
  unfold experiencia_schema in Ve. apply validate_object_nil in Ve.
  destruct Ve as [E [-> [Hreq Hprops]]]. cbn [get_named].
  split.
  { destruct (required_own "nota" E (Hreq "nota" ltac:(cbn; tauto)) eq_refl) as [n Mn].
    rewrite Mn. exact (validate_score_nil _ _ (Hprops _ _ _ Mn eq_refl)). }
  split.
  { intros cta Mcta. pose proof (Hprops _ _ _ Mcta eq_refl) as Vcta.
    unfold cta_schema in Vcta. apply validate_object_nil in Vcta.
    destruct Vcta as [C [-> [HreqC HpropsC]]]. cbn [get_named].
    destruct (required_own "clareza" C (HreqC "clareza" ltac:(cbn; tauto)) eq_refl)
      as [c Mc].
    destruct (required_own "recomendacao" C (HreqC "recomendacao" ltac:(cbn; tauto)) eq_refl)
      as [r Mr].
    rewrite Mc, Mr. split.
    - exact (validate_score_nil _ _ (HpropsC _ _ _ Mc eq_refl)).
    - pose proof (HpropsC _ _ _ Mr eq_refl) as Vr.
      apply validate_string_nil in Vr. destruct Vr as [s [-> _]]. eauto. }
  clear Hreq Hprops. split.
  { unfold jobToBeDone_schema in Vj. apply validate_object_nil in Vj.
    destruct Vj as [J [-> [Hreq Hprops]]]. cbn [get_named].
    destruct (required_own "placeholderExemplo" J (Hreq "placeholderExemplo" ltac:(cbn; tauto)) eq_refl)
      as [ph Mph].
    destruct (required_own "avaliacao" J (Hreq "avaliacao" ltac:(cbn; tauto)) eq_refl)
      as [a Ma].
    pose proof (Hprops _ _ _ Mph eq_refl) as Vph.
    pose proof (Hprops _ _ _ Ma eq_refl) as Va.
    apply validate_string_nil in Vph. destruct Vph as [s [-> _]].
    unfold avaliacao_schema in Va. apply validate_object_nil in Va.
    destruct Va as [A [-> [HreqA HpropsA]]].
    destruct (required_own "atinge" A (HreqA "atinge" ltac:(cbn; tauto)) eq_refl)
      as [at_ Mat].
    destruct (required_own "justificativa" A (HreqA "justificativa" ltac:(cbn; tauto)) eq_refl)
      as [ju Mju].
    pose proof (HpropsA _ _ _ Mat eq_refl) as Vat.
    pose proof (HpropsA _ _ _ Mju eq_refl) as Vju.
    apply validate_boolean_nil in Vat. destruct Vat as [b ->].
    apply validate_string_nil in Vju. destruct Vju as [s' [-> _]].
    exists s, b, s'. rewrite Mph, Ma. cbn [field get_named].
    rewrite Mat, Mju. auto. }
  apply validate_array_nil in Vp.
  destruct Vp as [items [props [-> [Hlen Hitems]]]].
  exists items, props. split; [reflexivity |]. split; [exact Hlen |].
  eapply Forall_impl; [| exact Hitems]. cbv beta.
  intros item [q Vitem]. unfold prioridade_schema in Vitem.
  apply validate_object_nil in Vitem.
  destruct Vitem as [I [-> [Hreq Hprops]]]. cbn [get_named].
  destruct (required_own "resumo" I (Hreq "resumo" ltac:(cbn; tauto)) eq_refl) as [r Mr].
  destruct (required_own "motivo" I (Hreq "motivo" ltac:(cbn; tauto)) eq_refl) as [m Mm].
  pose proof (Hprops _ _ _ Mr eq_refl) as Vr.
  pose proof (Hprops _ _ _ Mm eq_refl) as Vm.
  apply validate_string_nil in Vr. destruct Vr as [s [-> _]].
  apply validate_string_nil in Vm. destruct Vm as [s' [-> _]].
  rewrite Mr, Mm. eauto.
Qed.

(** X26.  The validator has one way to throw: the conversion to a number
    that [<] and [>] apply to a value that is not a number. When that
    conversion returns on every value, so does the validator, on every
    value and schema. *)
Theorem validate_throws_only_in_conversion :
  (forall v, returns (engine_to_number v) = true) ->
  forall obj objSchema p,
    returns (validate engine_to_number number_to_string obj objSchema p) = true.
Proof.
  intros Hengine.
  assert (Hnumber : forall v mn mx p,
             returns (validate engine_to_number number_to_string v
                        (SNumber mn mx) p) = true).
  { intros v mn mx p.
    assert (E : validate engine_to_number number_to_string v (SNumber mn mx) p =
                (e2 <- below engine_to_number number_to_string v mn p ;;
                 e3 <- above engine_to_number number_to_string v mx p ;;
                 Returns (not_a_number v p ++ e2 ++ e3)%list))
      by (destruct v; reflexivity).
    rewrite E. unfold below, above.
    assert (Hto : exists n, to_number engine_to_number (Some v) = Returns n).
    { destruct v; cbn [to_number]; eauto; apply returns_true, Hengine. }
    destruct Hto as [n ->]. destruct mn, mx; reflexivity. }
  induction obj as [| b | n | str | items props IHitems _ | fs IHfs]
    using value_induction; intros s p;
    try (destruct s; solve [reflexivity | apply Hnumber]).
  - destruct s as [req ps | mi ma its | | mn mx | | |];
      try solve [reflexivity | apply Hnumber].
    rewrite (validate_array engine_to_number number_to_string).
    destruct its as [itemSchema |]; [| reflexivity].
    unfold validate_elements.
    assert (E : forall i, exists rest,
                 validate_items engine_to_number number_to_string itemSchema p i
                   items = Returns rest).
    { induction IHitems as [| item items Hitem _ IH]; intros i;
        cbn [validate_items]; [eauto |].
      destruct (returns_true _ (Hitem itemSchema
                                  (p ++ "[" ++ string_of_nat i ++ "]")))
        as [e1 ->].
      destruct (IH (S i)) as [e2 ->]. cbn [bind]. eauto. }
    destruct (E 0) as [rest ->]. reflexivity.
  - destruct s as [req ps | mi ma its | | mn mx | | |];
      try solve [reflexivity | apply Hnumber].
    rewrite (validate_object engine_to_number number_to_string).
    destruct (validate_entries_returns ps p fs) as [rest ->]; [| reflexivity].
    intros key v s Hin _. rewrite Forall_forall in IHfs.
    apply returns_true. apply (IHfs (key, v) Hin).
Qed.

End NormalizerProperties.

(** ** The normalizer on sample documents *)

Lemma normalizeV6Data_idempotent_witness :
  exists y,
    normalizeV6Data idle_to_number document_with_clareza_15 = Returns y
    /\ normalizeV6Data idle_to_number y = Returns y.
Proof.
  eexists. split; [reflexivity |].
  apply (normalizeV6Data_idempotent idle_to_number document_with_clareza_15).
  reflexivity.
Defined.

Lemma out_of_range_scores_reset_witness :
  exists y,
    normalizeV6Data idle_to_number document_with_clareza_15 = Returns y
    /\ field (field (member y "experiencia") "cta") "clareza" = Some (VNum 0)
    /\ member y "pontuacaoGeral" = Some (VNum 8.5)
    /\ exists validation,
        validateJsonSchema idle_to_number idle_number_to_string y ANALYSIS_SCHEMA
        = Returns validation
        /\ Forall (fun err => path err <> "root.experiencia.cta.clareza")
             (errors validation).
Proof.
  destruct (out_of_range_scores_reset idle_to_number idle_number_to_string
              document_with_clareza_15) as [Hreturns Hscores].
  destruct (Hreturns eq_refl eq_refl eq_refl eq_refl eq_refl I) as [y Hy].
  exists y. split; [exact Hy |].
  destruct (Hscores y Hy) as [_ [_ [_ [_ [Hclareza Hvalidation]]]]].
  split; [apply Hclareza; reflexivity |].
  split.
  - assert (Ey : Returns y = normalizeV6Data idle_to_number document_with_clareza_15)
      by (symmetry; exact Hy).
    vm_compute in Ey. injection Ey as ->. reflexivity.
  - apply Hvalidation. cbn.
    repeat split; repeat constructor; cbn; intuition discriminate.
Defined.

(** C4, as stated, fails on a document in which a section is a truthy
    primitive: the normalizer throws on [tomDeVoz], before it reaches the
    range checks; no document is returned and the [pontuacaoGeral] of 15 is
    not set to 0. *)
Lemma primitive_section_blocks_reset :
  in_range (member document_with_primitive_section "pontuacaoGeral") = false
  /\ normalizeV6Data idle_to_number document_with_primitive_section
     = Throws (TypeError (CreatePropertyOnPrimitive "manter" (VStr "informal")))
  /\ ~ exists y,
        normalizeV6Data idle_to_number document_with_primitive_section = Returns y
        /\ member y "pontuacaoGeral" = Some (VNum 0).
Proof.
  split; [reflexivity |]. split; [reflexivity |].
  intros [y [Hy _]]. vm_compute in Hy. discriminate Hy.
Qed.



(** C10, as stated, fails in its second half: here the three sections are
    absent or objects, and the normalizer throws on the string held by
    [jobToBeDone.avaliacao]. *)
Lemma object_section_still_throws :
  absent_falsy_or_object
    (member (VObj [("jobToBeDone", VObj [("avaliacao", VStr "ok")])]) "jobToBeDone") = true
  /\ absent_falsy_or_object
       (member (VObj [("jobToBeDone", VObj [("avaliacao", VStr "ok")])]) "tomDeVoz") = true
  /\ absent_falsy_or_object
       (member (VObj [("jobToBeDone", VObj [("avaliacao", VStr "ok")])]) "experiencia") = true
  /\ normalizeV6Data idle_to_number
       (VObj [("jobToBeDone", VObj [("avaliacao", VStr "ok")])])
     = Throws (TypeError (CreatePropertyOnPrimitive "sugestoes" (VStr "ok"))).
Proof. repeat split. Qed.

Lemma normalizeV6Data_throws_on_primitive_section_witness :
  (exists te,
      normalizeV6Data idle_to_number (VObj [("tomDeVoz", VStr "informal")])
      = Throws (TypeError te))
  /\ returns (normalizeV6Data idle_to_number
                (VObj [("tomDeVoz", VNull); ("experiencia", VObj [])])) = true.
Proof.
  split.
  - destruct (proj1 (normalizeV6Data_throws_on_primitive_section
                       idle_to_number idle_number_to_string
                       (VObj [("tomDeVoz", VStr "informal")]))
                "tomDeVoz" ltac:(cbn; tauto) eq_refl) as [te [Hthrows _]].
    exists te. exact Hthrows.
  - apply (proj2 (normalizeV6Data_throws_on_primitive_section
                    idle_to_number idle_number_to_string
                    (VObj [("tomDeVoz", VNull); ("experiencia", VObj [])])));
      first [reflexivity | exact I].
Defined.

(** A document with three scores out of range and a stale version. *)
Lemma normalized_scores_not_reported_witness :
  exists y validation,
    normalizeV6Data idle_to_number
      (VObj [("schemaVersion", VStr "v2"); ("pontuacaoGeral", VNum 11);
             ("tomDeVoz", VObj [("nota", VStr "alta")]);
             ("experiencia", VObj [("nota", VNum 12)])])
    = Returns y
    /\ validateJsonSchema idle_to_number idle_number_to_string y ANALYSIS_SCHEMA
       = Returns validation
    /\ Forall (fun err =>
                 ~ In (path err)
                     ["root.schemaVersion"; "root.pontuacaoGeral";
                      "root.tomDeVoz.nota"; "root.experiencia.nota"])
         (errors validation).
Proof.
  destruct (normalizeV6Data idle_to_number
              (VObj [("schemaVersion", VStr "v2"); ("pontuacaoGeral", VNum 11);
                     ("tomDeVoz", VObj [("nota", VStr "alta")]);
                     ("experiencia", VObj [("nota", VNum 12)])]))
    as [y |] eqn:E; [| vm_compute in E; discriminate E].
  destruct (normalized_scores_not_reported idle_to_number idle_number_to_string
              (VObj [("schemaVersion", VStr "v2"); ("pontuacaoGeral", VNum 11);
                     ("tomDeVoz", VObj [("nota", VStr "alta")]);
                     ("experiencia", VObj [("nota", VNum 12)])]) y)
    as [validation [V F]].
  - cbn. repeat split; repeat constructor; cbn; intuition discriminate.
  - exact E.
  - exists y, validation. split; [reflexivity |]. split; [exact V | exact F].
Defined.

(** Five priorities are cut to three. *)
Lemma normalized_prioridades_within_bounds_witness :
  exists y items,
    normalizeV6Data idle_to_number
      (VObj [("prioridadesTop3",
              VArr [VStr "a"; VStr "b"; VStr "c"; VStr "d"; VStr "e"] [])])
    = Returns y
    /\ member y "prioridadesTop3" = Some (VArr items [])
    /\ 1 <= List.length items <= 3.
Proof.
  eexists. eexists. split; [reflexivity |]. split; [reflexivity |].
  apply (normalized_prioridades_within_bounds idle_to_number idle_number_to_string
           (VObj [("prioridadesTop3",
                   VArr [VStr "a"; VStr "b"; VStr "c"; VStr "d"; VStr "e"] [])])
           _ _ [] eq_refl eq_refl).
Defined.

(** An answer that brings only an objective and an empty list. *)
Lemma defaults_pass_validation_witness :
  exists y,
    normalizeV6Data idle_to_number
      (VObj [("objetivoInferido", VStr "Cadastro"); ("prioridadesTop3", VArr [] [])])
    = Returns y
    /\ validateJsonSchema idle_to_number idle_number_to_string y ANALYSIS_SCHEMA
       = Returns {| valid := true; errors := [] |}.
Proof.
  destruct (defaults_pass_validation idle_to_number idle_number_to_string
              (VObj [("objetivoInferido", VStr "Cadastro");
                     ("prioridadesTop3", VArr [] [])]))
    as [y [Hy [_ [_ [_ [_ Hvalid]]]]]].
  - cbn. repeat split; repeat constructor; cbn; intuition discriminate.
  - right. exists "Cadastro". reflexivity.
  - reflexivity.
  - reflexivity.
  - reflexivity.
  - right. exists []. reflexivity.
  - exists y. split; [exact Hy | exact Hvalid].
Defined.

(** With a conversion that always returns, a string where a score is
    expected is reported, not thrown. *)
Lemma validate_throws_only_in_conversion_witness :
  returns (validate idle_to_number idle_number_to_string
             (VObj [("pontuacaoGeral", VStr "alta"); ("tomDeVoz", VArr [VObj []] [])])
             ANALYSIS_SCHEMA "root") = true.
Proof.
  apply (validate_throws_only_in_conversion idle_to_number idle_number_to_string).
  reflexivity.
Defined.

(** A document with one priority and a [cta]. *)
Lemma valid_document_contract_witness :
  in_range (member (VObj [("schemaVersion", VStr "v6"); ("pontuacaoGeral", VNum 7);
                          ("jobToBeDone", default_jobToBeDone);
                          ("tomDeVoz", default_tomDeVoz);
                          ("experiencia", default_experiencia);
                          ("prioridadesTop3", default_prioridadesTop3)])
              "pontuacaoGeral") = true
  /\ exists items props,
      member (VObj [("schemaVersion", VStr "v6"); ("pontuacaoGeral", VNum 7);
                    ("jobToBeDone", default_jobToBeDone);
                    ("tomDeVoz", default_tomDeVoz);
                    ("experiencia", default_experiencia);
                    ("prioridadesTop3", default_prioridadesTop3)])
        "prioridadesTop3" = Some (VArr items props)
      /\ 1 <= List.length items <= 3.
Proof.
  destruct (valid_document_contract idle_to_number idle_number_to_string
              (VObj [("schemaVersion", VStr "v6"); ("pontuacaoGeral", VNum 7);
                     ("jobToBeDone", default_jobToBeDone);
                     ("tomDeVoz", default_tomDeVoz);
                     ("experiencia", default_experiencia);
                     ("prioridadesTop3", default_prioridadesTop3)])
              {| valid := true; errors := [] |} eq_refl eq_refl)
    as [_ [Hpg [_ [_ [_ [_ [items [props [Hp [Hlen _]]]]]]]]]].
  split; [exact Hpg |]. exists items, props. split; [exact Hp | exact Hlen].
Defined.
